(** * Trip planner: the itinerary pipeline of [tools/build_itinerary.py],
    preference validation of [tools/parse_trip_prefs.py], hotel retrieval of
    [tools/search_hotels.py] and the budget view of [utils/formatter.py].

    Python values are embedded as the inductive [pyval]; a [dict] is a
    [gmap string pyval]; a Python [float] is a binary64 primitive float; a
    raised exception is the [Err] branch of [result].  Calls into libraries the
    repository does not own ([json.loads], [datetime.strptime], [float(str)],
    [str(float)], [re.search], the chat model and the HTTP client) are Section
    variables: every theorem holds for whatever these calls return. *)

From Stdlib Require Import ZArith String Ascii List Bool Lia Floats Sorted Permutation.
From stdpp Require Import gmap strings list fin_maps pretty.
Import ListNotations.

#[local] Set Warnings "-inexact-float,-register-all,-automation".
#[local] Open Scope string_scope.
#[local] Open Scope Z_scope.

(** ** Exceptions and results *)

(** The exception classes the modelled code raises, catches or lets through. *)
Inductive exn_class : Type :=
| ValueError
| JSONDecodeError
| KeyError
| IndexError
| TypeError
| AttributeError
| OverflowError
| ZeroDivisionError
| RequestException
| HotelSearchError
| OtherException.

(** An exception object: its class and [str(e)]. *)
Record exn : Type := Exn { exn_class_of : exn_class; exn_msg : string }.

Inductive result (A : Type) : Type :=
| Ok (a : A)
| Err (e : exn).
Arguments Ok {A} a.
Arguments Err {A} e.

#[global] Instance result_ret : MRet result := fun A a => Ok a.
#[global] Instance result_bind : MBind result :=
  fun A B f r => match r with Ok a => f a | Err e => Err e end.
#[global] Instance result_fmap : FMap result :=
  fun A B f r => match r with Ok a => Ok (f a) | Err e => Err e end.

Definition is_ok {A} (r : result A) : bool :=
  match r with Ok _ => true | Err _ => false end.

(** [isinstance(e, cls)] for the classes that occur in [except] clauses:
    [json.JSONDecodeError] derives from [ValueError]. *)
Definition isinstance (e : exn) (cls : exn_class) : bool :=
  match exn_class_of e, cls with
  | ValueError, ValueError | JSONDecodeError, ValueError
  | JSONDecodeError, JSONDecodeError
  | KeyError, KeyError | IndexError, IndexError | TypeError, TypeError
  | AttributeError, AttributeError | OverflowError, OverflowError
  | ZeroDivisionError, ZeroDivisionError
  | RequestException, RequestException
  | HotelSearchError, HotelSearchError
  | OtherException, OtherException => true
  | _, _ => false
  end.

(** ** Python values *)

(** A naive [datetime] at midnight, which is all [strptime(_, "%Y-%m-%d")]
    produces. *)
Record datetime : Type := mk_datetime { dt_year : Z; dt_month : Z; dt_day : Z }.

Inductive pyval : Type :=
| PNone
| PBool (b : bool)
| PInt (n : Z)
| PFloat (f : float)
| PStr (s : string)
| PList (l : list pyval)
| PDict (d : gmap string pyval)
| PDatetime (t : datetime).

(** [type(v).__name__], as interpreter messages print it. *)
Definition type_name (v : pyval) : string :=
  match v with
  | PNone => "NoneType"
  | PBool _ => "bool"
  | PInt _ => "int"
  | PFloat _ => "float"
  | PStr _ => "str"
  | PList _ => "list"
  | PDict _ => "dict"
  | PDatetime _ => "datetime.datetime"
  end.

(** Truth value of an object ([if not x]). [nan] is true, both zeros are
    false. *)
Definition truthy (v : pyval) : bool :=
  match v with
  | PNone => false
  | PBool b => b
  | PInt n => negb (n =? 0)
  | PFloat f => negb (PrimFloat.eqb f 0%float)
  | PStr s => negb (String.eqb s EmptyString)
  | PList l => match l with [] => false | _ => true end
  | PDict d => match map_to_list d with [] => false | _ => true end
  | PDatetime _ => true
  end.

Definition squote (s : string) : string := "'" ++ s ++ "'".

Definition key_error (k : string) : exn := Exn KeyError (squote k).

(** [v[k]] for a string key [k]. *)
Definition getitem (v : pyval) (k : string) : result pyval :=
  match v with
  | PDict d => match d !! k with Some x => Ok x | None => Err (key_error k) end
  | PStr _ => Err (Exn TypeError "string indices must be integers, not 'str'")
  | PList _ => Err (Exn TypeError "list indices must be integers or slices, not str")
  | _ => Err (Exn TypeError (squote (type_name v) ++ " object is not subscriptable"))
  end.

(** [v.get(k)]: only a dict has the method; a missing key gives [None]. *)
Definition dict_get (v : pyval) (k : string) : result pyval :=
  match v with
  | PDict d => Ok (default PNone (d !! k))
  | _ => Err (Exn AttributeError
                (squote (type_name v) ++ " object has no attribute 'get'"))
  end.

(** [k in v] for a string key, on a dict. *)
Definition dict_contains (d : gmap string pyval) (k : string) : bool :=
  match d !! k with Some _ => true | None => false end.

Definition chars (s : string) : list pyval :=
  (fun c => PStr (String c EmptyString)) <$> list_ascii_of_string s.

(** The elements a [for] loop or comprehension visits. A string yields its
    characters and a dict its keys. *)
Definition iterate (v : pyval) : result (list pyval) :=
  match v with
  | PList l => Ok l
  | PStr s => Ok (chars s)
  | PDict d => Ok ((fun kv => PStr kv.1) <$> map_to_list d)
  | _ => Err (Exn TypeError (squote (type_name v) ++ " object is not iterable"))
  end.

(** ** Floats *)

(** [float(n)] for an int: the nearest binary64, or [OverflowError]. *)
Definition float_of_int (n : Z) : result float :=
  match binary_normalize prec emax n 0 false with
  | S754_infinity _ => Err (Exn OverflowError "int too large to convert to float")
  | sf => Ok (SF2Prim sf)
  end.

(** The float operand a binary float operation sees in its right argument:
    a float, or an int ([bool] is an int) converted; [None] (Python's
    [NotImplemented]) for any other type. *)
Definition float_operand (v : pyval) : option (result float) :=
  match v with
  | PFloat f => Some (Ok f)
  | PInt n => Some (float_of_int n)
  | PBool b => Some (Ok (if b then 1%float else 0%float))
  | _ => None
  end.

Definition float_binop (sym : string) (op : float -> float -> float)
    (x : float) (v : pyval) : result float :=
  match float_operand v with
  | Some r => y ← r; Ok (op x y)
  | None => Err (Exn TypeError ("unsupported operand type(s) for " ++ sym
                                  ++ ": 'float' and " ++ squote (type_name v)))
  end.

(** [x += v] and [x - v] with [x] a float. *)
Definition float_iadd : float -> pyval -> result float := float_binop "+=" PrimFloat.add.
Definition float_sub : float -> pyval -> result float := float_binop "-" PrimFloat.sub.

(** The tolerance literal [0.01]. *)
Definition tolerance : float := 0.01%float.

(** ** Strings *)

(** [sep] removed from the front of [s], when [s] starts with it. *)
Fixpoint strip_prefix (sep s : string) : option string :=
  match sep with
  | EmptyString => Some s
  | String a sep' =>
      match s with
      | String b s' => if Ascii.eqb a b then strip_prefix sep' s' else None
      | EmptyString => None
      end
  end.

(** [s.partition(sep)] when [sep] occurs: the text before its first
    occurrence and the text after it. *)
Fixpoint partition (sep s : string) : option (string * string) :=
  match strip_prefix sep s with
  | Some rest => Some (EmptyString, rest)
  | None =>
      match s with
      | EmptyString => None
      | String c s' =>
          match partition sep s' with
          | Some (a, b) => Some (String c a, b)
          | None => None
          end
      end
  end.

(** [sep in s]. *)
Definition contains (sep s : string) : bool :=
  match partition sep s with Some _ => true | None => false end.

Fixpoint split_fuel (fuel : nat) (sep s : string) : list string :=
  match partition sep s with
  | None => [s]
  | Some (a, b) =>
      match fuel with
      | O => [a; b]
      | S fuel' => a :: split_fuel fuel' sep b
      end
  end.

(** [s.split(sep)] for a non-empty [sep]: every cut consumes a character, so
    [String.length s] cuts suffice. *)
Definition split (sep s : string) : list string :=
  split_fuel (String.length s) sep s.

(** [l[i]] on a list. *)
Definition index {A} (l : list A) (i : nat) : result A :=
  match l !! i with
  | Some x => Ok x
  | None => Err (Exn IndexError "list index out of range")
  end.

(** [sep.join(l)]. *)
Fixpoint join (sep : string) (l : list string) : string :=
  match l with
  | [] => EmptyString
  | [x] => x
  | x :: rest => x ++ sep ++ join sep rest
  end.

Definition nl : string := String "010"%char EmptyString.
Definition dq : string := String "034"%char EmptyString.

(** [s] between double quotes. *)
Definition quoted (s : string) : string := dq ++ s ++ dq.

(** ** Dates *)

Definition digit (n : Z) : string :=
  String (ascii_of_N (Z.to_N (48 + n mod 10))) EmptyString.

Definition pad2 (n : Z) : string := digit (n / 10) ++ digit n.
Definition pad4 (n : Z) : string := digit (n / 1000) ++ digit (n / 100) ++ pad2 n.

(** [str(d.date())], that is [date.isoformat()]: [YYYY-MM-DD], zero padded. *)
Definition isoformat (d : datetime) : string :=
  pad4 (dt_year d) ++ "-" ++ pad2 (dt_month d) ++ "-" ++ pad2 (dt_day d).

(** Comparison of two naive datetimes at midnight: year, then month, then day. *)
Definition datetime_lt (a b : datetime) : bool :=
  (dt_year a <? dt_year b)
  || ((dt_year a =? dt_year b)
      && ((dt_month a <? dt_month b)
          || ((dt_month a =? dt_month b) && (dt_day a <? dt_day b)))).

(** [a >= b]. *)
Definition datetime_ge (a b : datetime) : bool := negb (datetime_lt a b).

(** ** The data classes *)

(** [tools/parse_trip_prefs.py], [TripPreferences]. *)
Record TripPreferences : Type := {
  tp_destination : string;
  tp_start_date : datetime;
  tp_end_date : datetime;
  tp_budget : float;
  tp_travel_style : string;
  tp_interests : list string;
  tp_accommodation_preference : string;
  tp_transportation_preference : string;
  tp_dietary_restrictions : option (list string);
  tp_special_requirements : option string
}.

(** [tools/search_hotels.py], [Hotel]. *)
Record Hotel : Type := {
  h_name : string;
  h_address : pyval;
  h_price_per_night : option float;
  h_rating : option float;
  h_amenities : list string;
  h_room_type : option string;
  h_booking_url : pyval;
  h_latitude : option float;
  h_longitude : option float;
  h_images : list string;
  h_description : string;
  h_source : pyval
}.

(** [tools/search_attractions.py], [Attraction]: the fields the prompt prints. *)
Record Attraction : Type := {
  at_name : string;
  at_category : string;
  at_rating : option float;
  at_price_level : option string;
  at_visit_duration : option string
}.

(** [tools/build_itinerary.py]: the fields of an [Activity] hold whatever the
    reply holds under the key; a data class checks no type. *)
Record Activity : Type := {
  act_name : pyval;
  act_start_time : pyval;
  act_end_time : pyval;
  act_location : pyval;
  act_description : pyval;
  act_category : pyval;
  act_cost : pyval;
  act_booking_url : pyval;
  act_notes : pyval
}.

Record DayPlan : Type := {
  dp_date : datetime;
  dp_activities : list Activity;
  dp_total_cost : pyval;
  dp_notes : pyval
}.

Record Itinerary : Type := {
  it_destination : string;
  it_start_date : datetime;
  it_end_date : datetime;
  it_daily_plans : list DayPlan;
  it_total_cost : float;
  it_travel_style : string;
  it_interests : list string;
  it_hotel : option Hotel;
  it_summary : pyval
}.

(** A [requests] response, as far as the code looks at it: what
    [raise_for_status()] does and what [json()] returns. *)
Record http_response : Type := {
  raise_for_status : result unit;
  response_json : result pyval
}.


(** ** Reference implementations of the library calls

    Executable stand-ins for the calls the model takes as parameters, on ASCII
    text. They instantiate the parameters in the examples at the end of the
    file; no theorem about the pipeline depends on them. *)

Definition is_digit (c : ascii) : bool :=
  let n := nat_of_ascii c in (48 <=? n)%nat && (n <=? 57)%nat.

Definition digit_value (c : ascii) : Z := Z.of_nat (nat_of_ascii c) - 48.

(** The longest prefix of digits, and the rest. *)
Fixpoint take_digits (s : string) : string * string :=
  match s with
  | String c s' =>
      if is_digit c then let r := take_digits s' in (String c r.1, r.2)
      else (EmptyString, s)
  | EmptyString => (EmptyString, EmptyString)
  end.

Fixpoint Z_of_digits_from (acc : Z) (ds : string) : Z :=
  match ds with
  | String c ds' => Z_of_digits_from (10 * acc + digit_value c) ds'
  | EmptyString => acc
  end.

Definition Z_of_digits : string -> Z := Z_of_digits_from 0.

(** The binary64 nearest to [m * 10 ^ e10], with the sign [neg]. *)
Definition float_of_decimal (neg : bool) (m e10 : Z) : float :=
  let magnitude :=
    if m =? 0 then 0%float
    else if 0 <=? e10 then SF2Prim (binary_normalize prec emax (m * 10 ^ e10) 0 false)
    else SF2Prim (SFdiv prec emax (S754_finite false (Z.to_pos m) 0)
                    (S754_finite false (Z.to_pos (10 ^ (- e10))) 0)) in
  if neg then PrimFloat.opp magnitude else magnitude.

(** [float(text)] for a plain decimal: an optional sign, digits, an optional
    fraction. *)
Definition float_of_str_ref (text : string) : option float :=
  let signed := match text with
                | String "-" rest => (true, rest)
                | String "+" rest => (false, rest)
                | _ => (false, text)
                end in
  let whole := take_digits signed.2 in
  match whole.2 with
  | EmptyString =>
      if String.eqb whole.1 EmptyString then None
      else Some (float_of_decimal signed.1 (Z_of_digits whole.1) 0)
  | String "." rest =>
      let frac := take_digits rest in
      if String.eqb frac.2 EmptyString
         && negb (String.eqb (whole.1 ++ frac.1) EmptyString)
      then Some (float_of_decimal signed.1 (Z_of_digits (whole.1 ++ frac.1))
                   (- Z.of_nat (String.length frac.1)))
      else None
  | _ => None
  end.

(** The integer a finite float rounds to, ties to even, and its sign. *)
Definition round_half_even (f : float) : option (bool * Z) :=
  match Prim2SF f with
  | S754_zero s => Some (s, 0)
  | S754_finite s m e =>
      if 0 <=? e then Some (s, Z.pos m * 2 ^ e)
      else
        let d := 2 ^ (- e) in
        let q := Z.pos m / d in
        let r := Z.pos m mod d in
        Some (s, if (2 * r <? d) then q
                 else if (d <? 2 * r) then q + 1
                 else if Z.even q then q else q + 1)
  | _ => None
  end.

(** [format(x, ".0f")]. *)
Definition format_0f_ref (f : float) : string :=
  match round_half_even f with
  | Some (s, n) => (if s then "-" else "") ++ pretty n
  | None => if PrimFloat.eqb f f then (if PrimFloat.ltb f 0 then "-inf" else "inf") else "nan"
  end.

(** The integer a float is, when it is one. *)
Definition integral (f : float) : option (bool * Z) :=
  match Prim2SF f with
  | S754_zero s => Some (s, 0)
  | S754_finite s m e =>
      if 0 <=? e then Some (s, Z.pos m * 2 ^ e)
      else if Z.pos m mod 2 ^ (- e) =? 0 then Some (s, Z.pos m / 2 ^ (- e))
      else None
  | _ => None
  end.

(** [str(v)] for [None], booleans, ints, strings and floats that are integers
    below [1e16]; a placeholder for the rest. *)
Definition py_str_ref (v : pyval) : string :=
  match v with
  | PNone => "None"
  | PBool b => if b then "True" else "False"
  | PInt n => pretty n
  | PStr s => s
  | PFloat f =>
      match integral f with
      | Some (s, n) =>
          if n <? 10 ^ 16 then (if s then "-" else "") ++ pretty n ++ ".0" else "<float>"
      | None => "<float>"
      end
  | _ => "<object>"
  end.

Definition lower_char (c : ascii) : ascii :=
  let n := nat_of_ascii c in
  if (65 <=? n)%nat && (n <=? 90)%nat then ascii_of_nat (n + 32) else c.

(** [str.lower]. *)
Fixpoint str_lower_ref (s : string) : string :=
  match s with
  | String c s' => String (lower_char c) (str_lower_ref s')
  | EmptyString => EmptyString
  end.

(** *** [datetime.strptime(text, "%Y-%m-%d")] *)

Definition is_leap (y : Z) : bool :=
  ((y mod 4 =? 0) && negb (y mod 100 =? 0)) || (y mod 400 =? 0).

Definition days_in_month (y m : Z) : Z :=
  if m =? 2 then (if is_leap y then 29 else 28)
  else if (m =? 4) || (m =? 6) || (m =? 9) || (m =? 11) then 30
  else 31.

Definition in_range (lo hi : ascii) (c : ascii) : bool :=
  (nat_of_ascii lo <=? nat_of_ascii c)%nat && (nat_of_ascii c <=? nat_of_ascii hi)%nat.

(** The directive [%m]: [1[0-2]|0[1-9]|[1-9]], first alternative that fits. *)
Definition take_month (s : string) : option (Z * string) :=
  match s with
  | String a (String b rest) =>
      if Ascii.eqb a "1" && in_range "0" "2" b then Some (10 + digit_value b, rest)
      else if Ascii.eqb a "0" && in_range "1" "9" b then Some (digit_value b, rest)
      else if in_range "1" "9" a then Some (digit_value a, String b rest)
      else None
  | String a rest => if in_range "1" "9" a then Some (digit_value a, rest) else None
  | EmptyString => None
  end.

(** The directive [%d]: [3[01]|[12]\d|0[1-9]|[1-9]| [1-9]]. *)
Definition take_day (s : string) : option (Z * string) :=
  match s with
  | String a (String b rest) =>
      if Ascii.eqb a "3" && in_range "0" "1" b then Some (30 + digit_value b, rest)
      else if in_range "1" "2" a && is_digit b then Some (10 * digit_value a + digit_value b, rest)
      else if Ascii.eqb a "0" && in_range "1" "9" b then Some (digit_value b, rest)
      else if in_range "1" "9" a then Some (digit_value a, String b rest)
      else if Ascii.eqb a " " && in_range "1" "9" b then Some (digit_value b, rest)
      else None
  | String a rest => if in_range "1" "9" a then Some (digit_value a, rest) else None
  | EmptyString => None
  end.

Definition no_match (text : string) : exn :=
  Exn ValueError ("time data " ++ squote text ++ " does not match format '%Y-%m-%d'").

Definition strptime_ref (text format : string) : result datetime :=
  if negb (String.eqb format "%Y-%m-%d")
  then Err (Exn OtherException "format not covered by the reference implementation")
  else
    match text with
    | String y1 (String y2 (String y3 (String y4 (String "-" rest)))) =>
        if is_digit y1 && is_digit y2 && is_digit y3 && is_digit y4 then
          match take_month rest with
          | Some (m, String "-" rest') =>
              match take_day rest' with
              | Some (d, EmptyString) =>
                  let y := Z_of_digits (String y1 (String y2 (String y3 (String y4 EmptyString)))) in
                  if y =? 0 then Err (Exn ValueError "year 0 is out of range")
                  else if days_in_month y m <? d
                  then Err (Exn ValueError "day is out of range for month")
                  else Ok (mk_datetime y m d)
              | Some (_, remains) => Err (Exn ValueError ("unconverted data remains: " ++ remains))
              | None => Err (no_match text)
              end
          | _ => Err (no_match text)
          end
        else Err (no_match text)
    | _ => Err (no_match text)
    end.

(** *** [re.search] for the two patterns of [HotelSearcher] *)

Definition is_space (c : ascii) : bool :=
  let n := nat_of_ascii c in
  ((9 <=? n)%nat && (n <=? 13)%nat) || ((28 <=? n)%nat && (n <=? 32)%nat).

Fixpoint skip_spaces (s : string) : string :=
  match s with
  | String c s' => if is_space c then skip_spaces s' else s
  | EmptyString => EmptyString
  end.

(** [\d+(?:\.\d{k})?] at the start of [s]: the group and the rest. *)
Definition take_number (k : nat) (s : string) : option (string * string) :=
  let whole := take_digits s in
  if String.eqb whole.1 EmptyString then None
  else
    match whole.2 with
    | String "." rest =>
        let frac := take_digits (String.substring 0 k rest) in
        if (String.length frac.1 =? k)%nat
        then Some (whole.1 ++ "." ++ frac.1, String.substring k (String.length rest - k) rest)
        else Some (whole.1, whole.2)
    | _ => Some (whole.1, whole.2)
    end.

(** The rating pattern at the start of [s]. What follows the number in the
    pattern starts with no digit, so trying with the optional fraction first
    and then without it is all the backtracking there is. *)
Definition match_rating_here (s : string) : option string :=
  let tail_ok (rest : string) :=
    match skip_spaces rest with
    | String "/" rest' =>
        match skip_spaces rest' with String "5" _ => true | _ => false end
    | _ => false
    end in
  match take_number 1 s with
  | Some (group, rest) =>
      if tail_ok rest then Some group
      else
        let whole := take_digits s in
        if tail_ok whole.2 then Some whole.1 else None
  | None => None
  end.

Fixpoint search_rating (s : string) : option string :=
  match match_rating_here s with
  | Some group => Some group
  | None => match s with String _ s' => search_rating s' | EmptyString => None end
  end.

Fixpoint search_price (s : string) : option string :=
  match s with
  | String "$" s' =>
      match take_number 2 s' with
      | Some (group, _) => Some group
      | None => search_price s'
      end
  | String _ s' => search_price s'
  | EmptyString => None
  end.

Definition re_search_ref (pattern text : string) : option string :=
  if String.eqb pattern "(\d+(?:\.\d)?)\s*\/\s*5" then search_rating text
  else if String.eqb pattern "\$(\d+(?:\.\d{2})?)" then search_price text
  else None.

(** *** [json.loads]

    A decoder for JSON without string escapes, [NaN] and [Infinity]; where it
    meets one of these it raises an exception that is no [JSONDecodeError].
    The messages carry no position. *)

Definition is_json_ws (c : ascii) : bool :=
  match c with
  | " " | "009" | "010" | "013" => true
  | _ => false
  end%char.

Fixpoint lstrip_ws (s : string) : string :=
  match s with
  | String c s' => if is_json_ws c then lstrip_ws s' else s
  | EmptyString => EmptyString
  end.

Fixpoint rstrip_ws (s : string) : string :=
  match s with
  | EmptyString => EmptyString
  | String c s' =>
      match rstrip_ws s' with
      | EmptyString => if is_json_ws c then EmptyString else String c EmptyString
      | r => String c r
      end
  end.

Definition decode_error (msg : string) : exn := Exn JSONDecodeError msg.

Definition not_covered : exn :=
  Exn OtherException "not covered by the reference decoder".

(** The characters of a string literal after its opening quote, and the text
    after its closing quote. *)
Fixpoint decode_string (s : string) : result (string * string) :=
  match s with
  | EmptyString => Err (decode_error "Unterminated string starting at")
  | String c s' =>
      if Ascii.eqb c "034" then Ok (EmptyString, s')
      else if Ascii.eqb c "\" then Err not_covered
      else if (nat_of_ascii c <? 32)%nat then Err (decode_error "Invalid control character at")
      else r ← decode_string s'; Ok (String c r.1, r.2)
  end.

(** A number: an optional minus, then [0] or a digit string that does not
    start with [0], then an optional fraction; an int without a fraction, a
    float with one. *)
Definition decode_number (s : string) : result (pyval * string) :=
  let signed := match s with String "-" rest => (true, rest) | _ => (false, s) end in
  let whole := match signed.2 with
               | String "0" rest => ("0", rest)
               | _ => take_digits signed.2
               end in
  if String.eqb whole.1 EmptyString then Err (decode_error "Expecting value")
  else
    match whole.2 with
    | String "." rest =>
        let frac := take_digits rest in
        if String.eqb frac.1 EmptyString
        then Ok (PInt ((if signed.1 then -1 else 1) * Z_of_digits whole.1), whole.2)
        else
          match frac.2 with
          | String "e" _ | String "E" _ => Err not_covered
          | _ => Ok (PFloat (float_of_decimal signed.1 (Z_of_digits (whole.1 ++ frac.1))
                               (- Z.of_nat (String.length frac.1))), frac.2)
          end
    | String "e" _ | String "E" _ => Err not_covered
    | _ => Ok (PInt ((if signed.1 then -1 else 1) * Z_of_digits whole.1), whole.2)
    end.

Definition decode_literal (s : string) : result (pyval * string) :=
  match strip_prefix "null" s, strip_prefix "true" s, strip_prefix "false" s with
  | Some rest, _, _ => Ok (PNone, rest)
  | _, Some rest, _ => Ok (PBool true, rest)
  | _, _, Some rest => Ok (PBool false, rest)
  | _, _, _ =>
      match s with
      | String "N" _ | String "I" _ => Err not_covered
      | String "-" (String "I" _) => Err not_covered
      | _ => decode_number s
      end
  end.

Fixpoint decode_value (fuel : nat) (s : string) : result (pyval * string) :=
  match fuel with
  | O => Err not_covered
  | S fuel =>
      match lstrip_ws s with
      | String "{" rest =>
          match lstrip_ws rest with
          | String "}" rest' => Ok (PDict ∅, rest')
          | _ => decode_members fuel rest ∅
          end
      | String "[" rest =>
          match lstrip_ws rest with
          | String "]" rest' => Ok (PList [], rest')
          | _ => decode_elements fuel rest []
          end
      | String "034" rest => r ← decode_string rest; Ok (PStr r.1, r.2)
      | other => decode_literal other
      end
  end
with decode_elements (fuel : nat) (s : string) (acc : list pyval) : result (pyval * string) :=
  match fuel with
  | O => Err not_covered
  | S fuel =>
      r ← decode_value fuel s;
      match lstrip_ws r.2 with
      | String "," rest => decode_elements fuel rest (acc ++ [r.1])
      | String "]" rest => Ok (PList (acc ++ [r.1]), rest)
      | _ => Err (decode_error "Expecting ',' delimiter")
      end
  end
with decode_members (fuel : nat) (s : string) (acc : gmap string pyval)
    : result (pyval * string) :=
  match fuel with
  | O => Err not_covered
  | S fuel =>
      match lstrip_ws s with
      | String "034" rest =>
          k ← decode_string rest;
          match lstrip_ws k.2 with
          | String ":" rest' =>
              r ← decode_value fuel rest';
              match lstrip_ws r.2 with
              | String "," rest'' => decode_members fuel rest'' (<[k.1 := r.1]> acc)
              | String "}" rest'' => Ok (PDict (<[k.1 := r.1]> acc), rest'')
              | _ => Err (decode_error "Expecting ',' delimiter")
              end
          | _ => Err (decode_error "Expecting ':' delimiter")
          end
      | _ => Err (decode_error "Expecting property name enclosed in double quotes")
      end
  end.

(** A whole document: one value and nothing after it. *)
Definition decode_document (s : string) : result pyval :=
  r ← decode_value (2 * String.length s + 2) s;
  if String.eqb r.2 EmptyString then Ok r.1 else Err (decode_error "Extra data").

(** Whitespace around the document is skipped. *)
Definition json_loads_ref (s : string) : result pyval :=
  decode_document (rstrip_ws (lstrip_ws s)).

(** ** Sample inputs *)

(** The preferences of the end-to-end scenario: Paris, 2024-06-01 to
    2024-06-07, budget 2000, moderate, culture and food. *)
Definition paris_prefs : TripPreferences :=
  {| tp_destination := "Paris";
     tp_start_date := mk_datetime 2024 6 1;
     tp_end_date := mk_datetime 2024 6 7;
     tp_budget := 2000;
     tp_travel_style := "moderate";
     tp_interests := ["culture"; "food"];
     tp_accommodation_preference := "hotel";
     tp_transportation_preference := "mixed";
     tp_dietary_restrictions := None;
     tp_special_requirements := None |}.

(** JSON text of an object with the given members. *)
Definition json_object (members : list (string * string)) : string :=
  "{" ++ join ", " ((fun kv => quoted kv.1 ++ ": " ++ kv.2) <$> members) ++ "}".

Definition json_array (items : list string) : string := "[" ++ join ", " items ++ "]".

(** An activity entry with the six required keys and a cost. *)
Definition activity_text (name category cost : string) : string :=
  json_object
    [ ("name", quoted name); ("start_time", quoted "09:00"); ("end_time", quoted "12:00");
      ("location", quoted "Paris"); ("description", quoted "Visit");
      ("category", quoted category); ("cost", cost) ].

(** An activity entry with the required keys only, [category] left out. *)
Definition activity_without_category : string :=
  json_object
    [ ("name", quoted "Louvre"); ("start_time", quoted "09:00");
      ("end_time", quoted "12:00"); ("location", quoted "Paris");
      ("description", quoted "Visit") ].

(** An activity entry with the required keys and none of the optional ones. *)
Definition activity_required_only : string :=
  json_object
    [ ("name", quoted "Louvre"); ("start_time", quoted "09:00");
      ("end_time", quoted "12:00"); ("location", quoted "Paris");
      ("description", quoted "Visit"); ("category", quoted "culture") ].

Definition day_text (date total : string) (activities : list string) : string :=
  json_object
    [ ("date", quoted date); ("activities", json_array activities); ("total_cost", total) ].

Definition reply_text (days : list string) (total : string) : string :=
  json_object
    [ ("daily_plans", json_array days); ("total_cost", total);
      ("summary", quoted "Two days in Paris") ].

(** Two days of 100.00 each, grand total 200.00. *)
Definition paris_days : list string :=
  [ day_text "2024-06-01" "100.00"
      [ activity_text "Louvre" "culture" "60.00"; activity_text "Bistro" "food" "40.00" ];
    day_text "2024-06-02" "100.00" [ activity_text "Orsay" "culture" "100.00" ] ].

Definition paris_reply_text : string := reply_text paris_days "200.00".

(** Days that sum to 500.00 under a grand total of 510.02. *)
Definition mismatch_reply_text : string :=
  reply_text
    [ day_text "2024-06-01" "250.00" []; day_text "2024-06-02" "250.00" [] ] "510.02".

Definition empty_plans_reply_text : string := reply_text [] "0".

Definition bad_date_reply_text : string :=
  reply_text [ day_text "June 1st" "100.00" [] ] "100.00".

Definition missing_category_reply_text : string :=
  reply_text [ day_text "2024-06-01" "100.00" [ activity_without_category ] ] "100.00".

(** A JSON payload, a string literal, that contains fences. *)
Definition backtick_payload : string := quoted "```json1```".

(** The value a text decodes to, [None] when it does not. *)
Definition decoded (text : string) : pyval :=
  match json_loads_ref text with Ok v => v | Err _ => PNone end.

(** The members of a decoded object, and the entries of its [daily_plans]. *)
Definition members (v : pyval) : gmap string pyval :=
  match v with PDict d => d | _ => ∅ end.

Definition items (v : pyval) : list pyval :=
  match v with PList l => l | _ => [] end.

Definition day_entries (text : string) : list pyval :=
  items (default PNone (members (decoded text) !! "daily_plans")).

Definition first_day (text : string) : pyval := default PNone (head (day_entries text)).

Definition first_activity (text : string) : pyval :=
  default PNone (head (items (default PNone (members (first_day text) !! "activities")))).

(** The end-to-end reply as decoded, with a grand total that is not a number:
    what [json.loads] gives for the reply text with [NaN] as its
    [total_cost]. *)
Definition reply_with_nan_total : pyval :=
  PDict (<["total_cost" := PFloat nan]> (members (decoded paris_reply_text))).

(** A chat model that always answers [text]. *)
Definition answers (text : string) : string -> result string := fun _ => Ok text.

(** Form submissions. *)
Definition form (start_date end_date : string) (budget : pyval) : gmap string pyval :=
  list_to_map
    [ ("destination", PStr "Paris"); ("start_date", PStr start_date);
      ("end_date", PStr end_date); ("budget", budget);
      ("travel_style", PStr "moderate");
      ("interests", PList [PStr "culture"; PStr "food"]);
      ("accommodation_preference", PStr "hotel");
      ("transportation_preference", PStr "mixed") ].

Definition state_of (user_input : gmap string pyval) : gmap string pyval :=
  {[ "user_input" := PDict user_input ]}.

(** Three search results: rated 4.2, unrated, rated 4.8. *)
Definition search_result (title content : string) : pyval :=
  PDict (list_to_map [ ("title", PStr title); ("content", PStr content) ]).

Definition sample_results : list pyval :=
  [ search_result "Hotel Lutetia - Booking" "Rated 4.2/5, free wifi, from $180.00";
    search_result "Pension Sans Avis" "Quiet rooms near the river";
    search_result "Le Meurice - Hotels" "Guests say 4.8 / 5. Spa and pool" ].

(** An HTTP client that always gets a success response carrying [results]. *)
Definition responds (results : list pyval) : string -> Z -> result http_response :=
  fun _ _ => Ok {| raise_for_status := Ok tt;
                   response_json := Ok (PDict {[ "results" := PList results ]}) |}.
Section Pipeline.

#[local] Set Default Proof Using "Type".

(** ** The library calls the code makes *)

(** [json.loads]: the decoded value, or the exception it raises
    ([JSONDecodeError] on malformed text). *)
Variable json_loads : string -> result pyval.

(** [datetime.strptime(text, format)] on a [str]: the parsed datetime, or the
    [ValueError] it raises. *)
Variable strptime : string -> string -> result datetime.

(** [str(v)], as an f-string prints a value that is not a [str]. *)
Variable py_str : pyval -> string.

(** [self.llm_client.invoke([HumanMessage(content=prompt)]).content]. *)
Variable llm_invoke : string -> result string.

(** [float(text)] on a [str]: [None] when it raises [ValueError]. *)
Variable float_of_str : string -> option float.

(** ** [ItineraryBuilder._create_llm_prompt] *)

(** [x or 'Not specified'] on an optional string. *)
Definition or_not_specified (x : option string) : string :=
  match x with
  | Some s => if String.eqb s EmptyString then "Not specified" else s
  | None => "Not specified"
  end.

(** [attraction.rating or 'Not specified'], printed. *)
Definition rating_or_not_specified (x : option float) : string :=
  match x with
  | Some r => if truthy (PFloat r) then py_str (PFloat r) else "Not specified"
  | None => "Not specified"
  end.

Definition attraction_lines (i : nat) (attraction : Attraction) : list string :=
  [ pretty i ++ ". " ++ at_name attraction;
    "   Category: " ++ at_category attraction;
    "   Duration: " ++ or_not_specified (at_visit_duration attraction);
    "   Price Level: " ++ or_not_specified (at_price_level attraction);
    "   Rating: " ++ rating_or_not_specified (at_rating attraction) ++ "/5.0";
    EmptyString ].

(** [enumerate(l, start)]. *)
Fixpoint enumerate {A} (start : nat) (l : list A) : list (nat * A) :=
  match l with
  | [] => []
  | x :: rest => (start, x) :: enumerate (S start) rest
  end.

Definition format_attractions_for_prompt (attractions : list Attraction) : string :=
  join nl (flat_map (fun ia => attraction_lines ia.1 ia.2) (enumerate 1 attractions)).

(** The fixed text of the prompt after the attraction listing: the ten
    planning directives, the reply schema and the closing instructions. *)
Definition prompt_directives : list string :=
  [ "Please create a day-by-day itinerary that:";
    "1. Optimizes time and location (group nearby attractions)";
    "2. Matches the travel style and budget";
    "3. Includes a mix of activities based on interests";
    "4. Includes reasonable travel times between locations";
    "5. Includes meal times and rest periods";
    "6. Provides estimated costs for each activity";
    "7. Considers opening hours and visit durations";
    "8. Includes transportation between locations";
    "9. Accounts for weather and seasonal factors";
    "10. Includes backup activities in case of bad weather" ].

Definition prompt_schema : list string :=
  [ "Format the response as a JSON object with the following structure:";
    "{";
    "    " ++ quoted "daily_plans" ++ ": [";
    "        {";
    "            " ++ quoted "date" ++ ": " ++ quoted "YYYY-MM-DD" ++ ",";
    "            " ++ quoted "activities" ++ ": [";
    "                {";
    "                    " ++ quoted "name" ++ ": " ++ quoted "Activity name" ++ ",";
    "                    " ++ quoted "start_time" ++ ": " ++ quoted "HH:MM" ++ ",";
    "                    " ++ quoted "end_time" ++ ": " ++ quoted "HH:MM" ++ ",";
    "                    " ++ quoted "location" ++ ": " ++ quoted "Location name" ++ ",";
    "                    " ++ quoted "description" ++ ": " ++ quoted "Brief description" ++ ",";
    "                    " ++ quoted "category" ++ ": " ++ quoted "Activity category" ++ ",";
    "                    " ++ quoted "cost" ++ ": 0.0,";
    "                    " ++ quoted "booking_url" ++ ": " ++ quoted "Optional URL" ++ ",";
    "                    " ++ quoted "notes" ++ ": " ++ quoted "Optional notes";
    "                }";
    "            ],";
    "            " ++ quoted "total_cost" ++ ": 0.0,";
    "            " ++ quoted "notes" ++ ": " ++ quoted "Optional day notes";
    "        }";
    "    ],";
    "    " ++ quoted "total_cost" ++ ": 0.0,";
    "    " ++ quoted "summary" ++ ": " ++ quoted "Brief trip summary";
    "}" ].

Definition prompt_closing : list string :=
  [ "Ensure all dates are in YYYY-MM-DD format and times are in HH:MM 24-hour format.";
    "Make sure the total cost matches the sum of all activity costs.";
    "Include realistic travel times between locations.";
    "Consider local customs and peak hours for attractions.";
    EmptyString ].

Definition hotel_name_or_marker (hotel : option Hotel) : string :=
  match hotel with Some h => h_name h | None => "Not selected yet" end.

Definition hotel_location_or_marker (hotel : option Hotel) : string :=
  match hotel with
  | Some h => match h_address h with PStr s => s | v => py_str v end
  | None => "Not available"
  end.

Definition create_llm_prompt (trip_prefs : TripPreferences) (hotel : option Hotel)
    (attractions : list Attraction) : string :=
  "Create a detailed travel itinerary for a trip to " ++ tp_destination trip_prefs ++ " " ++ nl
  ++ "from " ++ isoformat (tp_start_date trip_prefs)
  ++ " to " ++ isoformat (tp_end_date trip_prefs) ++ "." ++ nl
  ++ nl
  ++ "Travel Style: " ++ tp_travel_style trip_prefs ++ nl
  ++ "Budget: $" ++ py_str (PFloat (tp_budget trip_prefs)) ++ nl
  ++ "Interests: " ++ join ", " (tp_interests trip_prefs) ++ nl
  ++ nl
  ++ "Hotel: " ++ hotel_name_or_marker hotel ++ nl
  ++ "Hotel Location: " ++ hotel_location_or_marker hotel ++ nl
  ++ nl
  ++ "Available Attractions:" ++ nl
  ++ format_attractions_for_prompt attractions ++ nl
  ++ nl
  ++ join nl (prompt_directives ++ [EmptyString] ++ prompt_schema
              ++ [EmptyString] ++ prompt_closing).

(** ** [ItineraryBuilder._parse_llm_response] *)

Definition fence_json : string := "```json".
Definition fence : string := "```".

(** The text handed to [json.loads]: the body of the first [json]-tagged
    fenced block, else of the first fenced block, else the whole reply. *)
Definition json_str_of (response : string) : result string :=
  if contains fence_json response then
    after ← index (split fence_json response) 1;
    index (split fence after) 0
  else if contains fence response then
    index (split fence response) 1
  else Ok response.

Definition parse_llm_response (response : string) : result pyval :=
  json_str ← json_str_of response;
  match json_loads json_str with
  | Ok v => Ok v
  | Err e =>
      if isinstance e JSONDecodeError
      then Err (Exn ValueError ("Failed to parse LLM response as JSON: " ++ exn_msg e))
      else Err e
  end.

(** ** [ItineraryBuilder.build_itinerary] *)

(** [datetime.strptime(v, "%Y-%m-%d")]; a first argument that is no [str] is a
    [TypeError] that names its type, and [None] by its own name. *)
Definition strptime_ymd (v : pyval) : result datetime :=
  match v with
  | PStr s => strptime s "%Y-%m-%d"
  | PNone => Err (Exn TypeError "strptime() argument 1 must be str, not None")
  | _ => Err (Exn TypeError ("strptime() argument 1 must be str, not " ++ type_name v))
  end.

(** [Activity(name=act["name"], ..., notes=act.get("notes"))]. *)
Definition make_activity (act : pyval) : result Activity :=
  name ← getitem act "name";
  start_time ← getitem act "start_time";
  end_time ← getitem act "end_time";
  location ← getitem act "location";
  description ← getitem act "description";
  category ← getitem act "category";
  cost ← dict_get act "cost";
  booking_url ← dict_get act "booking_url";
  notes ← dict_get act "notes";
  Ok {| act_name := name; act_start_time := start_time; act_end_time := end_time;
        act_location := location; act_description := description;
        act_category := category; act_cost := cost;
        act_booking_url := booking_url; act_notes := notes |}.

(** One turn of the loop over [itinerary_data["daily_plans"]]: the running
    total after it and the [DayPlan] it appends. *)
Definition make_day (total_cost : float) (day_data : pyval) : result (float * DayPlan) :=
  acts ← getitem day_data "activities";
  acts ← iterate acts;
  activities ← mapM make_activity acts;
  day_cost ← getitem day_data "total_cost";
  total_cost ← float_iadd total_cost day_cost;
  date ← getitem day_data "date";
  date ← strptime_ymd date;
  notes ← dict_get day_data "notes";
  Ok (total_cost, {| dp_date := date; dp_activities := activities;
                     dp_total_cost := day_cost; dp_notes := notes |}).

(** The loop, with its two mutable locals passed along. *)
Fixpoint build_days (days : list pyval) (daily_plans : list DayPlan) (total_cost : float)
    : result (list DayPlan * float) :=
  match days with
  | [] => Ok (daily_plans, total_cost)
  | day_data :: rest =>
      r ← make_day total_cost day_data;
      build_days rest (daily_plans ++ [r.2]) r.1
  end.

(** The consistency check on the grand total. *)
Definition check_total_cost (total_cost : float) (itinerary_data : pyval) : result unit :=
  reported ← getitem itinerary_data "total_cost";
  diff ← float_sub total_cost reported;
  if PrimFloat.ltb tolerance (PrimFloat.abs diff)
  then Err (Exn ValueError "Total cost mismatch in itinerary")
  else Ok tt.

(** The final [Itinerary(...)] expression. *)
Definition assemble (trip_prefs : TripPreferences) (hotel : option Hotel)
    (daily_plans : list DayPlan) (total_cost : float) (itinerary_data : pyval)
    : result Itinerary :=
  summary ← getitem itinerary_data "summary";
  Ok {| it_destination := tp_destination trip_prefs;
        it_start_date := tp_start_date trip_prefs;
        it_end_date := tp_end_date trip_prefs;
        it_daily_plans := daily_plans;
        it_total_cost := total_cost;
        it_travel_style := tp_travel_style trip_prefs;
        it_interests := tp_interests trip_prefs;
        it_hotel := hotel;
        it_summary := summary |}.

(** The days the loop visits: [itinerary_data.get("daily_plans")] must be
    true, then [itinerary_data["daily_plans"]] is iterated. *)
Definition daily_plans_of (itinerary_data : pyval) : result (list pyval) :=
  plans ← dict_get itinerary_data "daily_plans";
  if negb (truthy plans) then Err (Exn ValueError "No daily plans in itinerary")
  else
    plans ← getitem itinerary_data "daily_plans";
    iterate plans.

(** The body of [build_itinerary] from the decoded reply on (validation, the
    loop, the check, the assembly). *)
Definition itinerary_from_reply (trip_prefs : TripPreferences) (hotel : option Hotel)
    (itinerary_data : pyval) : result Itinerary :=
  days ← daily_plans_of itinerary_data;
  r ← build_days days [] 0%float;
  _ ← check_total_cost r.2 itinerary_data;
  assemble trip_prefs hotel r.1 r.2 itinerary_data.

(** The body of the [try] block. *)
Definition build_itinerary_body (trip_prefs : TripPreferences) (hotel : option Hotel)
    (attractions : list Attraction) : result Itinerary :=
  let prompt := create_llm_prompt trip_prefs hotel attractions in
  response_text ← llm_invoke prompt;
  if String.eqb response_text EmptyString
  then Err (Exn ValueError "Empty response from LLM")
  else
    itinerary_data ← parse_llm_response response_text;
    itinerary_from_reply trip_prefs hotel itinerary_data.

(** [except Exception as e: raise ValueError(f"Failed to build itinerary: {str(e)}")]. *)
Definition wrap_build_error (e : exn) : exn :=
  Exn ValueError ("Failed to build itinerary: " ++ exn_msg e).

Definition build_itinerary (trip_prefs : TripPreferences) (hotel : option Hotel)
    (attractions : list Attraction) : result Itinerary :=
  match build_itinerary_body trip_prefs hotel attractions with
  | Ok itinerary => Ok itinerary
  | Err e => Err (wrap_build_error e)
  end.

(** ** [ItineraryFormatter.format_budget_analysis] ([utils/formatter.py]) *)

(** [x / n] with [x] a float and [n] the [len] of a list. *)
Definition float_div_len (x : float) (n : nat) : result float :=
  match n with
  | O => Err (Exn ZeroDivisionError "float division by zero")
  | S _ => d ← float_of_int (Z.of_nat n); Ok (PrimFloat.div x d)
  end.

(** The ["average_daily_cost"] entry. *)
Definition average_daily_cost (itinerary : Itinerary) : result float :=
  float_div_len (it_total_cost itinerary) (length (it_daily_plans itinerary)).

(** ** [parse_trip_preferences] ([tools/parse_trip_prefs.py]) *)

Definition required_fields : list string :=
  [ "destination"; "start_date"; "end_date"; "budget";
    "travel_style"; "interests"; "accommodation_preference";
    "transportation_preference" ].

(** [k in v] for a string [k]: a key of a dict, a substring of a string, an
    element of a list. *)
Definition py_in (k : string) (v : pyval) : result bool :=
  match v with
  | PDict d => Ok (dict_contains d k)
  | PStr s => Ok (contains k s)
  | PList l => Ok (existsb (fun x => match x with PStr s => String.eqb s k | _ => false end) l)
  | _ => Err (Exn TypeError ("argument of type " ++ squote (type_name v) ++ " is not iterable"))
  end.

(** The loop over [required_fields]. *)
Fixpoint check_required (fields : list string) (user_input : pyval) : result unit :=
  match fields with
  | [] => Ok tt
  | field :: rest =>
      present ← py_in field user_input;
      if (present : bool) then check_required rest user_input
      else Err (Exn ValueError ("Missing required field: " ++ field))
  end.

(** [parse_date]: a [ValueError] of [strptime] is re-raised with the format
    message, anything else passes through. *)
Definition parse_date (date_str : pyval) : result datetime :=
  match strptime_ymd date_str with
  | Ok d => Ok d
  | Err e =>
      if isinstance e ValueError
      then Err (Exn ValueError "Date must be in YYYY-MM-DD format")
      else Err e
  end.

Definition validate_budget (budget : float) : bool := PrimFloat.ltb 0%float budget.

(** [float(v)]. *)
Definition py_float (v : pyval) : result float :=
  match v with
  | PFloat f => Ok f
  | PInt n => float_of_int n
  | PBool b => Ok (if b then 1%float else 0%float)
  | PStr s =>
      match float_of_str s with
      | Some f => Ok f
      | None => Err (Exn ValueError ("could not convert string to float: " ++ squote s))
      end
  | _ => Err (Exn TypeError ("float() argument must be a string or a real number, not "
                               ++ squote (type_name v)))
  end.

(** The inner [try]: conversion and the positivity test, with [ValueError] and
    [TypeError] re-raised as one message. *)
Definition parse_budget (user_input : pyval) : result float :=
  let attempt :=
    budget ← getitem user_input "budget";
    budget ← py_float budget;
    if negb (validate_budget budget)
    then Err (Exn ValueError "Budget must be a positive number")
    else Ok budget in
  match attempt with
  | Ok budget => Ok budget
  | Err e =>
      if isinstance e ValueError || isinstance e TypeError
      then Err (Exn ValueError "Invalid budget value")
      else Err e
  end.

(** [asdict(TripPreferences(...))] for the object the function builds; the two
    LLM fields keep their default [None]. *)
Definition trip_prefs_asdict (user_input : pyval) (start_date end_date : datetime)
    (budget : float) : result (gmap string pyval) :=
  destination ← getitem user_input "destination";
  travel_style ← getitem user_input "travel_style";
  interests ← getitem user_input "interests";
  accommodation ← getitem user_input "accommodation_preference";
  transportation ← getitem user_input "transportation_preference";
  dietary ← dict_get user_input "dietary_restrictions";
  special ← dict_get user_input "special_requirements";
  Ok (list_to_map
        [ ("destination", destination);
          ("start_date", PDatetime start_date);
          ("end_date", PDatetime end_date);
          ("budget", PFloat budget);
          ("travel_style", travel_style);
          ("interests", interests);
          ("accommodation_preference", accommodation);
          ("transportation_preference", transportation);
          ("dietary_restrictions", dietary);
          ("special_requirements", special);
          ("destination_insights", PNone);
          ("personalized_recommendations", PNone) ]).

(** The body of the [try] block: the state it leaves when nothing is raised. *)
Definition parse_trip_preferences_body (state : gmap string pyval)
    : result (gmap string pyval) :=
  let user_input := default (PDict ∅) (state !! "user_input") in
  _ ← check_required required_fields user_input;
  start_date ← getitem user_input "start_date";
  start_date ← parse_date start_date;
  end_date ← getitem user_input "end_date";
  end_date ← parse_date end_date;
  if datetime_ge start_date end_date
  then Err (Exn ValueError "End date must be after start date")
  else
    budget ← parse_budget user_input;
    fields ← trip_prefs_asdict user_input start_date end_date budget;
    Ok (delete "user_input" (fields ∪ state)).

(** [except Exception as e: state["error"] = str(e)], then [return state]. *)
Definition parse_trip_preferences (state : gmap string pyval) : gmap string pyval :=
  match parse_trip_preferences_body state with
  | Ok state' => state'
  | Err e => <["error" := PStr (exn_msg e)]> state
  end.

(** ** [HotelSearcher] ([tools/search_hotels.py]) *)

(** [str.lower]. *)
Variable str_lower : string -> string.

(** [re.search(pattern, text)]: group 1 of the first match. *)
Variable re_search : string -> string -> option string.

(** [date.strftime(format)]. *)
Variable strftime : datetime -> string -> string.

(** [format(x, ".0f")]. *)
Variable format_0f : float -> string.

(** [requests.post(self.tavily_url, headers=self.headers, json=params)], as a
    function of the two entries of [params] that vary. *)
Variable requests_post : string -> Z -> result http_response.

Definition format_date (date : datetime) : string := strftime date "%Y-%m-%d".

Definition get_price_range (travel_style : string) (budget : float) : float * float :=
  let travel_style := str_lower travel_style in
  if String.eqb travel_style "luxury" then (budget * 0.4, budget * 0.6)%float
  else if String.eqb travel_style "moderate" then (budget * 0.2, budget * 0.4)%float
  else (0, budget * 0.2)%float.

Definition price_pattern : string := "\$(\d+(?:\.\d{2})?)".
Definition rating_pattern : string := "(\d+(?:\.\d)?)\s*\/\s*5".

(** [_extract_price] and [_extract_rating]: the matched group converted, or
    [None]. *)
Definition extract_number (pattern text : string) : option float :=
  match re_search pattern text with
  | Some group => float_of_str group
  | None => None
  end.

Definition extract_price : string -> option float := extract_number price_pattern.
Definition extract_rating : string -> option float := extract_number rating_pattern.

Definition amenity_keywords : list (string * list string) :=
  [ ("wifi", ["wifi"; "wireless internet"; "free wifi"]);
    ("pool", ["pool"; "swimming pool"; "indoor pool"; "outdoor pool"]);
    ("gym", ["gym"; "fitness center"; "workout room"]);
    ("restaurant", ["restaurant"; "dining"; "breakfast"; "room service"]);
    ("spa", ["spa"; "massage"; "wellness center"]);
    ("parking", ["parking"; "free parking"; "valet parking"]);
    ("bar", ["bar"; "lounge"; "pub"]);
    ("conference", ["conference room"; "meeting room"; "business center"]);
    ("laundry", ["laundry"; "dry cleaning"; "washing machine"]);
    ("air_conditioning", ["air conditioning"; "ac"; "climate control"]);
    ("elevator", ["elevator"; "lift"]);
    ("accessibility", ["wheelchair accessible"; "disabled access"]);
    ("pet_friendly", ["pet friendly"; "pets allowed"]);
    ("shuttle", ["shuttle"; "airport shuttle"; "free shuttle"]);
    ("kitchen", ["kitchen"; "kitchenette"; "cooking facilities"]) ].

Definition amenities_of (description : string) : list string :=
  List.map fst
    (List.filter
       (fun entry : string * list string =>
          existsb (fun keyword => contains keyword (str_lower description)) entry.2)
       amenity_keywords).

(** [result.get(key, default)] on a value that must be a dict. *)
Definition dict_get_default (v : pyval) (k : string) (dflt : pyval) : result pyval :=
  match v with
  | PDict d => Ok (default dflt (d !! k))
  | _ => Err (Exn AttributeError
                (squote (type_name v) ++ " object has no attribute 'get'"))
  end.

(** [text] as the regular-expression functions need it: a [str]. *)
Definition expect_str (v : pyval) : result string :=
  match v with
  | PStr s => Ok s
  | _ => Err (Exn TypeError ("expected string or bytes-like object, got "
                               ++ squote (type_name v)))
  end.

Definition parse_hotel_from_search_result (entry : pyval) : result Hotel :=
  title ← dict_get_default entry "title" (PStr EmptyString);
  name ← match title with
         | PStr s => index (split " - " s) 0
         | _ => Err (Exn AttributeError
                       (squote (type_name title) ++ " object has no attribute 'split'"))
         end;
  description ← dict_get_default entry "content" (PStr EmptyString);
  description ← expect_str description;
  let price := extract_price description in
  let rating := extract_rating description in
  let amenities := amenities_of description in
  address ← dict_get entry "address";
  url ← dict_get entry "url";
  source ← dict_get_default entry "source" (PStr "Unknown");
  Ok {| h_name := name;
        h_address := if truthy address then address else PNone;
        h_price_per_night := price;
        h_rating := rating;
        h_amenities := amenities;
        h_room_type := None;
        h_booking_url := url;
        h_latitude := None;
        h_longitude := None;
        h_images := [];
        h_description := description;
        h_source := source |}.

(** The sort key [x.rating or 0]. *)
Definition rating_key (hotel : Hotel) : float :=
  match h_rating hotel with
  | Some r => if truthy (PFloat r) then r else 0%float
  | None => 0%float
  end.

(** [hotels.sort(key=..., reverse=True)]: the stable sort by descending key;
    equal keys keep their order. *)
Fixpoint insert_by_rating (x : Hotel) (sorted : list Hotel) : list Hotel :=
  match sorted with
  | [] => [x]
  | y :: rest =>
      if PrimFloat.ltb (rating_key x) (rating_key y)
      then y :: insert_by_rating x rest
      else x :: sorted
  end.

Fixpoint sort_by_rating (hotels : list Hotel) : list Hotel :=
  match hotels with
  | [] => []
  | x :: rest => insert_by_rating x (sort_by_rating rest)
  end.

Definition hotel_query (trip_prefs : TripPreferences) : string :=
  let range := get_price_range (tp_travel_style trip_prefs) (tp_budget trip_prefs) in
  "hotels in " ++ tp_destination trip_prefs ++ " "
  ++ "from " ++ format_date (tp_start_date trip_prefs) ++ " "
  ++ "to " ++ format_date (tp_end_date trip_prefs) ++ " "
  ++ tp_travel_style trip_prefs ++ " style "
  ++ "price range $" ++ format_0f range.1 ++ "-$" ++ format_0f range.2.

(** The body of the [try] block of [search_hotels]. *)
Definition search_hotels_body (trip_prefs : TripPreferences) (num_results : Z)
    : result (list Hotel) :=
  if String.eqb (tp_destination trip_prefs) EmptyString
  then Err (Exn ValueError "Destination is required")
  else
    response ← requests_post (hotel_query trip_prefs) num_results;
    _ ← raise_for_status response;
    body ← response_json response;
    results ← dict_get_default body "results" (PList []);
    if negb (truthy results)
    then Err (Exn HotelSearchError "No hotels found matching your criteria")
    else
      results ← iterate results;
      hotels ← mapM parse_hotel_from_search_result results;
      Ok (sort_by_rating hotels).

(** The three [except] clauses, in order. *)
Definition search_error (e : exn) : exn :=
  if isinstance e RequestException
  then Exn HotelSearchError ("API request failed: " ++ exn_msg e)
  else if isinstance e KeyError || isinstance e ValueError || isinstance e TypeError
  then Exn HotelSearchError ("Failed to parse hotel data: " ++ exn_msg e)
  else Exn HotelSearchError ("Unexpected error: " ++ exn_msg e).

Definition search_hotels (trip_prefs : TripPreferences) (num_results : Z)
    : result (list Hotel) :=
  match search_hotels_body trip_prefs num_results with
  | Ok hotels => Ok hotels
  | Err e => Err (search_error e)
  end.


(** ** What a reply is expected to look like *)

(** The float a reply value stands for when it is a JSON number. *)
Definition number_of (v : pyval) : option float :=
  match v with
  | PFloat f => Some f
  | PInt n => match float_of_int n with Ok f => Some f | Err _ => None end
  | _ => None
  end.

Definition has_keys (d : gmap string pyval) (keys : list string) : bool :=
  forallb (dict_contains d) keys.

Definition activity_required_keys : list string :=
  [ "name"; "start_time"; "end_time"; "location"; "description"; "category" ].

Definition activity_optional_keys : list string := [ "cost"; "booking_url"; "notes" ].

(** An activity entry: an object with every required key. *)
Definition well_formed_activity (act : pyval) : bool :=
  match act with
  | PDict d => has_keys d activity_required_keys
  | _ => false
  end.

(** A day entry: an object with a list of well-formed activities, a date string
    that [strptime] accepts, and a number as its total. *)
Definition well_formed_day (day : pyval) : bool :=
  match day with
  | PDict d =>
      match d !! "activities", d !! "date", d !! "total_cost" with
      | Some (PList acts), Some (PStr date), Some total =>
          forallb well_formed_activity acts
          && is_ok (strptime date "%Y-%m-%d")
          && match number_of total with Some _ => true | None => false end
      | _, _, _ => false
      end
  | _ => false
  end.

(** The per-day total of a day entry, as a float. *)
Definition day_total (day : pyval) : float :=
  match day with
  | PDict d =>
      match d !! "total_cost" with
      | Some v => default 0%float (number_of v)
      | None => 0%float
      end
  | _ => 0%float
  end.

(** The sum of the per-day totals, added up in order from [0.0]. *)
Definition sum_day_totals (days : list pyval) : float :=
  fold_left PrimFloat.add (day_total <$> days) 0%float.

(** [x] and [y] differ by more than the tolerance. *)
Definition differs_by_more_than_tolerance (x y : float) : bool :=
  PrimFloat.ltb tolerance (PrimFloat.abs (PrimFloat.sub x y)).

(** The two totals agree within the tolerance: their difference lies between
    -0.01 and 0.01. A difference that is not a number lies in no interval. *)
Definition within_tolerance (x y : float) : bool :=
  PrimFloat.leb (-0.01)%float (PrimFloat.sub x y)
  && PrimFloat.leb (PrimFloat.sub x y) 0.01%float.

(** The two totals differ by more than the tolerance: their difference is
    below -0.01 or above 0.01. *)
Definition beyond_tolerance (x y : float) : bool :=
  PrimFloat.ltb (PrimFloat.sub x y) (-0.01)%float
  || PrimFloat.ltb 0.01%float (PrimFloat.sub x y).

(** The day entry reports its total as a JSON number. *)
Definition numeric_total (day : pyval) : bool :=
  match day with
  | PDict d =>
      match d !! "total_cost" with
      | Some v => match number_of v with Some _ => true | None => false end
      | None => false
      end
  | _ => false
  end.

(** A valid reply: an object with a non-empty list of well-formed days, a
    numeric grand total within the tolerance of the sum of the day totals, and
    a summary. *)
Definition valid_reply (data : pyval) : bool :=
  match data with
  | PDict d =>
      match d !! "daily_plans", d !! "total_cost", d !! "summary" with
      | Some (PList days), Some reported, Some _ =>
          match days with [] => false | _ => true end
          && forallb well_formed_day days
          && match number_of reported with
             | Some r => negb (differs_by_more_than_tolerance (sum_day_totals days) r)
             | None => false
             end
      | _, _, _ => false
      end
  | _ => false
  end.

(** The activity an entry of the reply becomes. *)
Definition activity_matches (act : pyval) (a : Activity) : Prop :=
  getitem act "name" = Ok (act_name a)
  /\ getitem act "start_time" = Ok (act_start_time a)
  /\ getitem act "end_time" = Ok (act_end_time a)
  /\ getitem act "location" = Ok (act_location a)
  /\ getitem act "description" = Ok (act_description a)
  /\ getitem act "category" = Ok (act_category a)
  /\ dict_get act "cost" = Ok (act_cost a)
  /\ dict_get act "booking_url" = Ok (act_booking_url a)
  /\ dict_get act "notes" = Ok (act_notes a).

(** The day plan a day entry of the reply becomes. *)
Definition day_matches (day : pyval) (dp : DayPlan) : Prop :=
  getitem day "total_cost" = Ok (dp_total_cost dp)
  /\ (getitem day "date" ≫= strptime_ymd) = Ok (dp_date dp)
  /\ dict_get day "notes" = Ok (dp_notes dp)
  /\ exists acts, (getitem day "activities" ≫= iterate) = Ok acts
       /\ Forall2 activity_matches acts (dp_activities dp).

(** The sum of the costs of a day's activities that are numbers. *)
Definition activity_cost_sum (day : DayPlan) : float :=
  fold_left PrimFloat.add
    ((fun a => default 0%float (number_of (act_cost a))) <$> dp_activities day) 0%float.

(** [total_cost += c] for each [c] in turn. *)
Fixpoint accumulate (total_cost : float) (costs : list pyval) : result float :=
  match costs with
  | [] => Ok total_cost
  | c :: rest => t ← float_iadd total_cost c; accumulate t rest
  end.

(** A reply whose single day reports a total of 100.0 although its two
    activities cost 30.0 and 20.0; the grand total repeats the day's 100.0. *)
Definition misreported_activity (name : string) (cost : float) : pyval :=
  PDict (list_to_map
    [ ("name", PStr name); ("start_time", PStr "09:00"); ("end_time", PStr "11:00");
      ("location", PStr "Paris"); ("description", PStr "Visit");
      ("category", PStr "culture"); ("cost", PFloat cost) ]).

Definition misreported_reply : pyval :=
  PDict (list_to_map
    [ ("daily_plans",
       PList [ PDict (list_to_map
                 [ ("date", PStr "2024-06-01");
                   ("activities", PList [ misreported_activity "Louvre" 30;
                                          misreported_activity "Seine cruise" 20 ]);
                   ("total_cost", PFloat 100) ]) ]);
      ("total_cost", PFloat 100);
      ("summary", PStr "One day in Paris") ]).

(** ** Extraction, as the specification words it *)

(** The text of [s] before the first occurrence of [sep], all of [s] when
    there is none: the first piece of [s.split(sep)]. *)
Definition text_before (sep s : string) : string :=
  match partition sep s with Some (a, _) => a | None => s end.

(** The body of the first fenced block: the text after the first fence, up to
    the next fence or the end. *)
Definition block_after (response : string) : option string :=
  match partition fence response with
  | Some (_, after) => Some (text_before fence after)
  | None => None
  end.

(** The body of the first block tagged [json]: the text after the first
    [json] tag, up to the next tag and, within that, the next fence. *)
Definition block_after_json (response : string) : option string :=
  match partition fence_json response with
  | Some (_, after) => Some (text_before fence (text_before fence_json after))
  | None => None
  end.

(** The three-way priority: a [json]-tagged block, else the first block, else
    the whole text. *)
Definition extraction_policy (response : string) : string :=
  match block_after_json response with
  | Some body => body
  | None =>
      match block_after response with
      | Some body => body
      | None => response
      end
  end.

(** [s] on lines of its own inside a block tagged [json]. *)
Definition fenced (s : string) : string := fence_json ++ nl ++ s ++ nl ++ fence.

Fixpoint char_in (c : ascii) (s : string) : bool :=
  match s with
  | EmptyString => false
  | String a s' => Ascii.eqb c a || char_in c s'
  end.

(** ** Order of the hotel list *)

(** The hotel's sort key is a number (not [nan]). *)
Definition rated (hotel : Hotel) : Prop :=
  PrimFloat.eqb (rating_key hotel) (rating_key hotel) = true.

(** [a] may stand before [b] in a list sorted by descending rating. *)
Definition rating_ge (a b : Hotel) : Prop :=
  PrimFloat.leb (rating_key b) (rating_key a) = true.

(** [b] is not rated strictly higher than [a]. *)
Definition not_rated_below (a b : Hotel) : Prop :=
  PrimFloat.ltb (rating_key a) (rating_key b) = false.

(** ** Words used about the preference parser and the totals *)

(** The keys [asdict(trip_prefs)] writes. *)
Definition parsed_keys : list string :=
  [ "destination"; "start_date"; "end_date"; "budget"; "travel_style"; "interests";
    "accommodation_preference"; "transportation_preference";
    "dietary_restrictions"; "special_requirements";
    "destination_insights"; "personalized_recommendations" ].

(** The five required fields that are copied without a look at their value. *)
Definition copied_fields : list string :=
  [ "destination"; "travel_style"; "interests";
    "accommodation_preference"; "transportation_preference" ].

(** [f] is a NaN. *)
Definition is_nan (f : float) : Prop := Prim2SF f = S754_nan.

(** ** [dict_to_trip_prefs] ([tools/search_hotels.py]) *)

(** The [TripPreferences] object the function builds, as [asdict] shows it:
    the constructor's arguments are evaluated in the order they are written,
    and the two fields it is not given keep their default [None]. *)
Definition dict_to_trip_prefs (data : pyval) : result (gmap string pyval) :=
  destination ← getitem data "destination";
  start_date ← getitem data "start_date";
  start_date ← strptime_ymd start_date;
  end_date ← getitem data "end_date";
  end_date ← strptime_ymd end_date;
  budget ← getitem data "budget";
  budget ← py_float budget;
  travel_style ← getitem data "travel_style";
  interests ← dict_get_default data "interests" (PList []);
  accommodation ← dict_get_default data "accommodation_preference" (PStr EmptyString);
  transportation ← dict_get_default data "transportation_preference" (PStr EmptyString);
  dietary ← dict_get data "dietary_restrictions";
  special ← dict_get data "special_requirements";
  Ok (list_to_map
        [ ("destination", destination);
          ("start_date", PDatetime start_date);
          ("end_date", PDatetime end_date);
          ("budget", PFloat budget);
          ("travel_style", travel_style);
          ("interests", interests);
          ("accommodation_preference", accommodation);
          ("transportation_preference", transportation);
          ("dietary_restrictions", dietary);
          ("special_requirements", special);
          ("destination_insights", PNone);
          ("personalized_recommendations", PNone) ]).

(** ** [ItineraryFormatter.format_daily_plans] ([utils/formatter.py]) *)

(** The dict appended for one activity. *)
Definition format_activity (activity : Activity) : pyval :=
  PDict (list_to_map
    [ ("name", act_name activity);
      ("start_time", act_start_time activity);
      ("end_time", act_end_time activity);
      ("location", act_location activity);
      ("description", act_description activity);
      ("category", act_category activity);
      ("cost", act_cost activity);
      ("booking_url", act_booking_url activity);
      ("notes", act_notes activity) ]).

(** The dict appended for one day. *)
Definition format_day (day : DayPlan) : pyval :=
  PDict (list_to_map
    [ ("date", PStr (strftime (dp_date day) "%Y-%m-%d"));
      ("day_name", PStr (strftime (dp_date day) "%A"));
      ("total_cost", dp_total_cost day);
      ("activities", PList (format_activity <$> dp_activities day));
      ("notes", dp_notes day) ]).

Definition format_daily_plans (itinerary : Itinerary) : list pyval :=
  format_day <$> it_daily_plans itinerary.

(** ** [LLMTripPreferencesParser.parse_natural_language_input]
    ([tools/parse_trip_prefs.py]) *)

(** [self.llm_client.invoke([SystemMessage(content=system),
    HumanMessage(content=human)]).content]. *)
Variable llm_chat : string -> string -> result string.

Definition nl_system_prompt : string :=
  join nl
    [ "You are a travel planning expert. Parse the user's natural language input into structured travel preferences.";
      EmptyString;
      "Extract the following information and return as JSON:";
      "{";
      "    " ++ quoted "destination" ++ ": " ++ quoted "city/country name" ++ ",";
      "    " ++ quoted "start_date" ++ ": "
        ++ quoted "YYYY-MM-DD (if mentioned, otherwise null)" ++ ",";
      "    " ++ quoted "end_date" ++ ": "
        ++ quoted "YYYY-MM-DD (if mentioned, otherwise null)" ++ ",";
      "    " ++ quoted "budget" ++ ": "
        ++ quoted "number (if mentioned, otherwise null)" ++ ",";
      "    " ++ quoted "travel_style" ++ ": "
        ++ quoted "budget/moderate/luxury (infer from context)" ++ ",";
      "    " ++ quoted "interests" ++ ": ["
        ++ quoted "list of interests inferred from description" ++ "],";
      "    " ++ quoted "accommodation_preference" ++ ": "
        ++ quoted "hotel/hostel/apartment/resort (infer from context)" ++ ",";
      "    " ++ quoted "transportation_preference" ++ ": "
        ++ quoted "public/private/mixed (infer from context)" ++ ",";
      "    " ++ quoted "dietary_restrictions" ++ ": [" ++ quoted "list if mentioned" ++ "],";
      "    " ++ quoted "special_requirements" ++ ": "
        ++ quoted "any special needs mentioned" ++ ",";
      "    " ++ quoted "trip_duration_days" ++ ": "
        ++ quoted "number of days (calculate if dates given)";
      "}";
      EmptyString;
      "If information is not explicitly mentioned, make reasonable inferences based on context clues.";
      "Return only the JSON object, no additional text.";
      EmptyString ].

(** The part of [s] up to and including its last closing brace. *)
Fixpoint upto_last_close (s : string) : option string :=
  match s with
  | EmptyString => None
  | String c s' =>
      match upto_last_close s' with
      | Some p => Some (String c p)
      | None => if Ascii.eqb c "}" then Some (String c EmptyString) else None
      end
  end.

(** [re.search] of an opening brace, anything, a closing brace, with
    [re.DOTALL], and [.group()] of the match: the greedy middle takes the
    match from the first opening brace to the last closing brace after it;
    without a closing brace after the first opening one no later start can
    match either. *)
Fixpoint brace_span (s : string) : option string :=
  match s with
  | EmptyString => None
  | String c s' =>
      if Ascii.eqb c "{"
      then match upto_last_close s' with
           | Some p => Some (String c p)
           | None => None
           end
      else brace_span s'
  end.

Definition parse_natural_language_input (user_text : string) : result pyval :=
  content ← llm_chat nl_system_prompt ("User input: " ++ user_text);
  match json_loads content with
  | Ok v => Ok v
  | Err e =>
      if isinstance e JSONDecodeError
      then match brace_span content with
           | Some json_match => json_loads json_match
           | None => Err (Exn ValueError "Could not parse LLM response as JSON")
           end
      else Err e
  end.

(** ** Words used about the display of an itinerary *)

(** [shown] displays the activity entry [act] of a reply: the required keys
    as they are, the optional ones as [act.get] gives them. *)
Definition shown_activity_matches (act shown : pyval) : Prop :=
  (forall k, In k activity_required_keys -> getitem shown k = getitem act k)
  /\ (forall k, In k activity_optional_keys -> getitem shown k = dict_get act k).

(** [shown] displays the day entry [day] of a reply. *)
Definition shown_day_matches (day shown : pyval) : Prop :=
  getitem shown "total_cost" = getitem day "total_cost"
  /\ getitem shown "notes" = dict_get day "notes"
  /\ (exists date,
        (getitem day "date" ≫= strptime_ymd) = Ok date
        /\ getitem shown "date" = Ok (PStr (strftime date "%Y-%m-%d"))
        /\ getitem shown "day_name" = Ok (PStr (strftime date "%A")))
  /\ exists acts shown_acts,
       (getitem day "activities" ≫= iterate) = Ok acts
       /\ getitem shown "activities" = Ok (PList shown_acts)
       /\ Forall2 shown_activity_matches acts shown_acts.

(** * Properties *)

(** ** The result monad *)

Lemma bind_Ok {A B} (r : result A) (f : A -> result B) (b : B) :
  r ≫= f = Ok b <-> exists a, r = Ok a /\ f a = Ok b.
Proof.
  destruct r as [a|e]; simpl; split.
  - intros H. exists a. split; [reflexivity | exact H].
  - intros (a' & Ha & Hf). injection Ha as <-. exact Hf.
  - discriminate.
  - intros (a' & Ha & _). discriminate.
Qed.

Lemma bind_Err {A B} (r : result A) (f : A -> result B) (e : exn) :
  r ≫= f = Err e <-> r = Err e \/ exists a, r = Ok a /\ f a = Err e.
Proof.
  destruct r as [a|e']; simpl; split.
  - intros H. right. exists a. split; [reflexivity | exact H].
  - intros [H | (a' & Ha & Hf)]; [discriminate | ]. injection Ha as <-. exact Hf.
  - intros H. left. injection H as <-. reflexivity.
  - intros [H | (a' & Ha & _)]; [injection H as <-; reflexivity | discriminate].
Qed.

Lemma bind_Err_l {A B} (r : result A) (f : A -> result B) (e : exn) :
  r = Err e -> r ≫= f = Err e.
Proof. intros ->. reflexivity. Qed.

Lemma is_ok_true {A} (r : result A) : is_ok r = true <-> exists a, r = Ok a.
Proof.
  destruct r as [a|e]; simpl; split; try discriminate; eauto.
  intros [a Ha]. discriminate.
Qed.

Lemma is_ok_false {A} (r : result A) : is_ok r = false <-> exists e, r = Err e.
Proof.
  destruct r as [a|e]; simpl; split; try discriminate; eauto.
  intros [e He]. discriminate.
Qed.

(** Splits a hypothesis [x ← r; k = Ok y] into [r = Ok x] and [k = Ok y]. *)
Ltac bind_inv H :=
  let a := fresh "v" in
  let Ha := fresh "Hv" in
  apply bind_Ok in H; destruct H as (a & Ha & H).

(** [mapM f l] succeeds exactly when [f] does on every element, and then
    relates the two lists element by element. *)
Lemma mapM_Ok {A B} (f : A -> result B) (l : list A) (k : list B) :
  mapM f l = Ok k <-> Forall2 (fun a b => f a = Ok b) l k.
Proof.
  revert k. induction l as [|a l IH]; intros k; simpl.
  - split.
    + intros H. injection H as <-. constructor.
    + intros H. inversion H. reflexivity.
  - split.
    + intros H. bind_inv H. bind_inv H. injection H as <-.
      constructor; [assumption | apply IH; assumption].
    + intros H. inversion H as [|? b ? k' Hb Hk]; subst.
      apply bind_Ok. exists b. split; [assumption|].
      apply bind_Ok. exists k'. split; [apply IH; assumption | reflexivity].
Qed.

Lemma mapM_Err_elem {A B} (f : A -> result B) (l : list A) (a : A) :
  In a l -> is_ok (f a) = false -> is_ok (mapM f l) = false.
Proof.
  induction l as [|x l IH]; simpl; [intros [] | ].
  intros [-> | Hin] Hf.
  - apply is_ok_false in Hf as [e He]. rewrite He. reflexivity.
  - destruct (f x) as [y|e]; simpl; [ | reflexivity].
    specialize (IH Hin Hf). destruct (mapM f l); simpl in *; [discriminate | reflexivity].
Qed.

(** Rewrites with [H : r = Ok a] and runs the bind that consumes [r]. *)
Ltac step H := rewrite H; cbv beta iota delta [mbind result_bind].

(** ** The per-day loop *)

Lemma make_activity_matches (act : pyval) (a : Activity) :
  make_activity act = Ok a <-> activity_matches act a.
Proof.
  unfold make_activity, activity_matches. split.
  - intros H. repeat bind_inv H. injection H as <-. simpl.
    repeat split; assumption.
  - intros (H1 & H2 & H3 & H4 & H5 & H6 & H7 & H8 & H9).
    rewrite H1, H2, H3, H4, H5, H6, H7, H8, H9. simpl. destruct a; reflexivity.
Qed.

Lemma make_day_inv (t t' : float) (day : pyval) (dp : DayPlan) :
  make_day t day = Ok (t', dp) ->
  day_matches day dp /\ float_iadd t (dp_total_cost dp) = Ok t'.
Proof.
  unfold make_day, day_matches. intros H.
  repeat bind_inv H. injection H as <- <-. simpl.
  rewrite Hv2, Hv4, Hv, Hv3. simpl.
  repeat split; try assumption.
  exists v0. split; [assumption|].
  apply mapM_Ok in Hv1.
  eapply Forall2_impl; [exact Hv1|]. intros act a Ha. apply make_activity_matches, Ha.
Qed.

Lemma build_days_inv (days : list pyval) (acc dps : list DayPlan) (t t' : float) :
  build_days days acc t = Ok (dps, t') ->
  exists new,
    dps = (acc ++ new)%list
    /\ Forall2 day_matches days new
    /\ accumulate t (dp_total_cost <$> new) = Ok t'.
Proof.
  revert acc t. induction days as [|day days IH]; intros acc t H; simpl in H.
  - injection H as <- <-. exists []. rewrite app_nil_r. repeat split. constructor.
  - bind_inv H. destruct v as [t1 dp]. simpl in H.
    apply make_day_inv in Hv as [Hm Ht].
    apply IH in H as (new & -> & Hall & Hsum).
    exists (dp :: new). rewrite <- app_assoc. simpl.
    repeat split; [constructor; assumption | ].
    rewrite Ht. simpl. exact Hsum.
Qed.

Lemma number_of_operand (v : pyval) (r : float) :
  number_of v = Some r -> float_operand v = Some (Ok r).
Proof.
  destruct v; simpl; try discriminate.
  - destruct (float_of_int n); [ | discriminate]. intros H. injection H as <-. reflexivity.
  - intros H. injection H as <-. reflexivity.
Qed.

Lemma float_iadd_number (t : float) (v : pyval) (r : float) :
  number_of v = Some r -> float_iadd t v = Ok (PrimFloat.add t r).
Proof.
  intros H. unfold float_iadd, float_binop. rewrite (number_of_operand _ _ H). reflexivity.
Qed.

Lemma float_sub_number (t : float) (v : pyval) (r : float) :
  number_of v = Some r -> float_sub t v = Ok (PrimFloat.sub t r).
Proof.
  intros H. unfold float_sub, float_binop. rewrite (number_of_operand _ _ H). reflexivity.
Qed.

Lemma check_total_cost_number (total r : float) (data reported : pyval) :
  getitem data "total_cost" = Ok reported ->
  number_of reported = Some r ->
  check_total_cost total data =
    if differs_by_more_than_tolerance total r
    then Err (Exn ValueError "Total cost mismatch in itinerary")
    else Ok tt.
Proof.
  intros Hget Hnum. unfold check_total_cost. rewrite Hget. simpl.
  rewrite (float_sub_number _ _ _ Hnum). reflexivity.
Qed.

Lemma assemble_not_mismatch (prefs : TripPreferences) (hotel : option Hotel)
    (dps : list DayPlan) (total : float) (data : pyval) :
  assemble prefs hotel dps total data
  <> Err (Exn ValueError "Total cost mismatch in itinerary").
Proof.
  unfold assemble, getitem.
  destruct data; simpl; try discriminate.
  destruct (d !! "summary"); simpl; discriminate.
Qed.

Lemma iterate_truthy (v : pyval) (l : list pyval) :
  truthy v = true -> iterate v = Ok l -> l <> [].
Proof.
  destruct v; simpl; try discriminate.
  - intros Hs H. injection H as <-. destruct s; [discriminate | ].
    unfold chars. simpl. discriminate.
  - intros Hl H. injection H as <-. destruct l0; [discriminate | discriminate].
  - intros Hd H. injection H as <-. destruct (map_to_list d); [discriminate | ].
    simpl. discriminate.
Qed.

Lemma daily_plans_of_nonempty (data : pyval) (days : list pyval) :
  daily_plans_of data = Ok days -> days <> [].
Proof.
  unfold daily_plans_of. intros H. bind_inv H.
  destruct (truthy v) eqn:Ht; simpl in H; [ | discriminate].
  bind_inv H.
  assert (v0 = v) as ->.
  { destruct data; simpl in Hv, Hv0; try discriminate.
    destruct (d !! "daily_plans"); simpl in *; [congruence | discriminate]. }
  eapply iterate_truthy; eassumption.
Qed.

Lemma itinerary_from_reply_inv (prefs : TripPreferences) (hotel : option Hotel)
    (data : pyval) (it : Itinerary) :
  itinerary_from_reply prefs hotel data = Ok it ->
  exists days total,
    daily_plans_of data = Ok days
    /\ build_days days [] 0%float = Ok (it_daily_plans it, total)
    /\ check_total_cost total data = Ok tt
    /\ assemble prefs hotel (it_daily_plans it) total data = Ok it.
Proof.
  unfold itinerary_from_reply. intros H.
  bind_inv H. bind_inv H. destruct v0 as [dps total]. bind_inv H. simpl in *.
  destruct v0.
  exists v, total.
  assert (it_daily_plans it = dps) as ->.
  { unfold assemble in H. bind_inv H. injection H as <-. reflexivity. }
  repeat split; assumption.
Qed.

(** C4. Whenever a reply is accepted, every [DayPlan] carries the value found
    under its day entry's [total_cost] key as it is; and the reply
    [misreported_reply], whose one day reports 100.0 while its activities cost
    30.0 and 20.0, is accepted with that day plan carrying 100.0. *)
Theorem day_total_taken_verbatim (prefs : TripPreferences) (hotel : option Hotel)
    (d0 : datetime) :
  strptime "2024-06-01" "%Y-%m-%d" = Ok d0 ->
  (forall data it,
      itinerary_from_reply prefs hotel data = Ok it ->
      exists days,
        daily_plans_of data = Ok days
        /\ Forall2 (fun day dp => getitem day "total_cost" = Ok (dp_total_cost dp))
             days (it_daily_plans it))
  /\ exists it dp,
       itinerary_from_reply prefs hotel misreported_reply = Ok it
       /\ it_daily_plans it = [dp]
       /\ dp_total_cost dp = PFloat 100%float
       /\ activity_cost_sum dp = 50%float.
Proof.
  intros Hdate. split.
  - intros data it H.
    apply itinerary_from_reply_inv in H as (days & total & Hdays & Hloop & _ & _).
    exists days. split; [exact Hdays | ].
    apply build_days_inv in Hloop as (new & Hnew & Hall & _).
    simpl in Hnew. rewrite Hnew.
    eapply Forall2_impl; [exact Hall | ]. intros day dp Hm. apply Hm.
  - unfold itinerary_from_reply.
    eexists. eexists.
    vm_compute. rewrite Hdate. vm_compute.
    split; [reflexivity | ]. split; [reflexivity | ]. split; reflexivity.
Qed.

(** ** Valid replies are accepted *)

Lemma dict_contains_Some (d : gmap string pyval) (k : string) :
  dict_contains d k = true -> exists v, d !! k = Some v.
Proof. unfold dict_contains. destruct (d !! k); [eauto | discriminate]. Qed.

Lemma well_formed_activity_ok (act : pyval) :
  well_formed_activity act = true -> exists a, make_activity act = Ok a.
Proof.
  destruct act; simpl; try discriminate.
  unfold has_keys, activity_required_keys. simpl. intros H.
  repeat (apply andb_prop in H as [?%dict_contains_Some H]).
  repeat match goal with Hx : exists _, _ |- _ => destruct Hx as [? Hx] end.
  unfold make_activity, getitem, dict_get.
  repeat match goal with Hx : d !! _ = Some _ |- _ => rewrite Hx; clear Hx end.
  simpl. eauto.
Qed.

Lemma well_formed_activities_ok (acts : list pyval) :
  forallb well_formed_activity acts = true -> exists l, mapM make_activity acts = Ok l.
Proof.
  induction acts as [|act acts IH]; simpl; [eauto | ].
  intros [Ha Hrest]%andb_prop.
  destruct (well_formed_activity_ok _ Ha) as [a ->].
  destruct (IH Hrest) as [l ->]. simpl. eauto.
Qed.

Lemma well_formed_day_ok (day : pyval) (t : float) :
  well_formed_day day = true ->
  exists dp, make_day t day = Ok (PrimFloat.add t (day_total day), dp).
Proof.
  destruct day; simpl; try discriminate.
  destruct (d !! "activities") as [[]|] eqn:Hacts; try discriminate.
  destruct (d !! "date") as [[]|] eqn:Hdate; try discriminate.
  destruct (d !! "total_cost") as [total|] eqn:Htotal; try discriminate.
  intros [[Hwf Hparse]%andb_prop Hnum]%andb_prop.
  destruct (number_of total) as [r|] eqn:Hr; [ | discriminate].
  apply is_ok_true in Hparse as [date Hparse].
  destruct (well_formed_activities_ok _ Hwf) as [activities Hmap].
  unfold make_day, getitem, dict_get. rewrite Hacts, Hdate, Htotal. simpl.
  rewrite Hmap. simpl. rewrite (float_iadd_number _ _ _ Hr). simpl.
  rewrite Hparse. simpl. eauto.
Qed.

Lemma build_days_ok (days : list pyval) (acc : list DayPlan) (t : float) :
  forallb well_formed_day days = true ->
  exists new,
    build_days days acc t
    = Ok ((acc ++ new)%list, fold_left PrimFloat.add (day_total <$> days) t).
Proof.
  revert acc t. induction days as [|day days IH]; intros acc t; simpl.
  - intros _. exists []. rewrite app_nil_r. reflexivity.
  - intros [Hday Hrest]%andb_prop.
    destruct (well_formed_day_ok _ t Hday) as [dp ->]. simpl.
    destruct (IH (acc ++ [dp])%list (PrimFloat.add t (day_total day)) Hrest) as [new ->].
    exists (dp :: new). rewrite <- app_assoc. reflexivity.
Qed.

Lemma valid_reply_from_reply (prefs : TripPreferences) (hotel : option Hotel)
    (d : gmap string pyval) (days : list pyval) (summary : pyval) :
  valid_reply (PDict d) = true ->
  d !! "daily_plans" = Some (PList days) ->
  d !! "summary" = Some summary ->
  exists dps,
    Forall2 day_matches days dps
    /\ itinerary_from_reply prefs hotel (PDict d)
       = Ok {| it_destination := tp_destination prefs;
               it_start_date := tp_start_date prefs;
               it_end_date := tp_end_date prefs;
               it_daily_plans := dps;
               it_total_cost := sum_day_totals days;
               it_travel_style := tp_travel_style prefs;
               it_interests := tp_interests prefs;
               it_hotel := hotel;
               it_summary := summary |}.
Proof.
  intros Hvalid Hplans Hsummary. simpl in Hvalid.
  rewrite Hplans, Hsummary in Hvalid.
  destruct (d !! "total_cost") as [reported|] eqn:Hreported; [ | discriminate].
  apply andb_prop in Hvalid as [[Hne Hwf]%andb_prop Htol].
  destruct (number_of reported) as [r|] eqn:Hr; [ | discriminate].
  apply negb_true_iff in Htol.
  destruct (build_days_ok days [] 0%float Hwf) as [dps Hloop]. simpl in Hloop.
  exists dps. split.
  { apply build_days_inv in Hloop as (new & Hnew & Hall & _).
    simpl in Hnew. subst new. exact Hall. }
  unfold itinerary_from_reply, daily_plans_of. simpl. rewrite Hplans. simpl.
  destruct days as [|day days']; [discriminate | ]. simpl.
  simpl in Hloop. rewrite Hloop. simpl.
  unfold check_total_cost. simpl. rewrite Hreported. simpl.
  rewrite (float_sub_number _ _ _ Hr). simpl.
  unfold differs_by_more_than_tolerance, sum_day_totals in Htol. simpl in Htol.
  rewrite Htol. simpl.
  unfold assemble. simpl. rewrite Hsummary. reflexivity.
Qed.

(** C2. When the model's answer decodes to a valid reply (a non-empty list of
    well-formed days, parseable dates, every required key, a grand total within
    the tolerance), [build_itinerary] returns an itinerary whose total is the
    sum of the reply's per-day totals, whose summary is the reply's, whose
    destination, dates, style, interests and hotel are the caller's, and whose
    day plans match the reply's day entries one by one, in order. *)
Theorem valid_reply_round_trip (prefs : TripPreferences) (hotel : option Hotel)
    (attractions : list Attraction) (text : string)
    (d : gmap string pyval) (days : list pyval) (summary : pyval) :
  llm_invoke (create_llm_prompt prefs hotel attractions) = Ok text ->
  text <> EmptyString ->
  parse_llm_response text = Ok (PDict d) ->
  valid_reply (PDict d) = true ->
  d !! "daily_plans" = Some (PList days) ->
  d !! "summary" = Some summary ->
  exists it,
    build_itinerary prefs hotel attractions = Ok it
    /\ it_total_cost it = sum_day_totals days
    /\ it_summary it = summary
    /\ it_destination it = tp_destination prefs
    /\ it_start_date it = tp_start_date prefs
    /\ it_end_date it = tp_end_date prefs
    /\ it_travel_style it = tp_travel_style prefs
    /\ it_interests it = tp_interests prefs
    /\ it_hotel it = hotel
    /\ length (it_daily_plans it) = length days
    /\ Forall2 day_matches days (it_daily_plans it).
Proof.
  intros Hllm Htext Hparse Hvalid Hplans Hsummary.
  destruct (valid_reply_from_reply prefs hotel d days summary Hvalid Hplans Hsummary)
    as (dps & Hall & Hbuild).
  eexists. split.
  - unfold build_itinerary, build_itinerary_body. rewrite Hllm. simpl.
    destruct (String.eqb text EmptyString) eqn:Hempty.
    + apply String.eqb_eq in Hempty. contradiction.
    + rewrite Hparse. simpl. rewrite Hbuild. reflexivity.
  - simpl. repeat split; try reflexivity.
    + symmetry. eapply Forall2_length. exact Hall.
    + exact Hall.
Qed.

(** ** No itinerary without a day *)

(** C10. An itinerary that [build_itinerary] returns has at least one day plan,
    so the division [total_cost / len(daily_plans)] of the budget view is by a
    positive length: it is the quotient by [float(len)], never a division by
    zero. *)
Theorem built_itinerary_has_days (prefs : TripPreferences) (hotel : option Hotel)
    (attractions : list Attraction) (it : Itinerary) :
  build_itinerary prefs hotel attractions = Ok it ->
  it_daily_plans it <> []
  /\ average_daily_cost it
     = (n ← float_of_int (Z.of_nat (length (it_daily_plans it)));
        Ok (PrimFloat.div (it_total_cost it) n))
  /\ forall e, average_daily_cost it = Err e -> exn_class_of e <> ZeroDivisionError.
Proof.
  unfold build_itinerary. intros H.
  destruct (build_itinerary_body prefs hotel attractions) as [it'|e] eqn:Hbody;
    [ | discriminate].
  injection H as ->.
  unfold build_itinerary_body in Hbody. bind_inv Hbody.
  destruct (String.eqb v EmptyString); [discriminate | ].
  bind_inv Hbody.
  apply itinerary_from_reply_inv in Hbody as (days & total & Hdays & Hloop & _ & _).
  apply daily_plans_of_nonempty in Hdays.
  apply build_days_inv in Hloop as (new & Hnew & Hall & _). simpl in Hnew. subst new.
  assert (Hne : it_daily_plans it <> []).
  { intros Hnil. rewrite Hnil in Hall. inversion Hall. subst. contradiction. }
  split; [exact Hne | ].
  unfold average_daily_cost, float_div_len.
  destruct (it_daily_plans it) as [|dp dps]; [contradiction | ].
  split; [reflexivity | ].
  intros e He. simpl length in He.
  destruct (float_of_int (Z.of_nat (S (length dps)))) as [n|e'] eqn:Hn; simpl in He.
  - discriminate.
  - injection He as <-. unfold float_of_int in Hn.
    destruct (binary_normalize prec emax (Z.of_nat (S (length dps))) 0 false);
      try discriminate.
    injection Hn as <-. simpl. discriminate.
Qed.

(** ** Rejected replies *)

Lemma Forall2_In_l {A B} (R : A -> B -> Prop) (l : list A) (k : list B) (a : A) :
  Forall2 R l k -> In a l -> exists b, In b k /\ R a b.
Proof.
  induction 1 as [|x y l k HR Hall IH]; simpl; [intros [] | ].
  intros [-> | Hin].
  - exists y. split; [left; reflexivity | exact HR].
  - destruct (IH Hin) as (b & Hb & HRb). exists b. split; [right; exact Hb | exact HRb].
Qed.

Lemma build_itinerary_of_reply (prefs : TripPreferences) (hotel : option Hotel)
    (attractions : list Attraction) (text : string) (data : pyval) :
  llm_invoke (create_llm_prompt prefs hotel attractions) = Ok text ->
  parse_llm_response text = Ok data ->
  is_ok (itinerary_from_reply prefs hotel data) = false ->
  is_ok (build_itinerary prefs hotel attractions) = false.
Proof.
  intros Hllm Hparse Hfail. unfold build_itinerary, build_itinerary_body.
  rewrite Hllm. simpl. destruct (String.eqb text EmptyString); [reflexivity | ].
  rewrite Hparse. simpl.
  destruct (itinerary_from_reply prefs hotel data); [discriminate | reflexivity].
Qed.

Lemma day_failure_rejects (prefs : TripPreferences) (hotel : option Hotel)
    (d : gmap string pyval) (days : list pyval) (day : pyval) :
  d !! "daily_plans" = Some (PList days) ->
  In day days ->
  (forall dp, ~ day_matches day dp) ->
  is_ok (itinerary_from_reply prefs hotel (PDict d)) = false.
Proof.
  intros Hplans Hin Hno.
  destruct (itinerary_from_reply prefs hotel (PDict d)) as [it|e] eqn:H; [ | reflexivity].
  exfalso.
  apply itinerary_from_reply_inv in H as (days' & total & Hdays & Hloop & _ & _).
  assert (days' = days) as ->.
  { unfold daily_plans_of in Hdays. simpl in Hdays. rewrite Hplans in Hdays.
    simpl in Hdays. destruct days; simpl in Hdays; [discriminate | ].
    injection Hdays as <-. reflexivity. }
  apply build_days_inv in Hloop as (new & _ & Hall & _).
  destruct (Forall2_In_l _ _ _ _ Hall Hin) as (dp & _ & Hm).
  exact (Hno dp Hm).
Qed.

Lemma missing_required_key_fails (a : gmap string pyval) (k : string) :
  In k activity_required_keys -> a !! k = None ->
  forall activity, ~ activity_matches (PDict a) activity.
Proof.
  intros Hin Hnone activity (H1 & H2 & H3 & H4 & H5 & H6 & _).
  unfold activity_required_keys in Hin. simpl in Hin.
  unfold getitem in *.
  destruct Hin as [<- | [<- | [<- | [<- | [<- | [<- | []]]]]]];
    rewrite Hnone in *; discriminate.
Qed.

(** C5. Once the model has answered with [text], [build_itinerary] fails
    (a) when [json.loads] raises on the extracted text,
    (b) when [daily_plans] is absent or an empty list,
    (c) when [strptime] rejects some day's date string,
    (d) when some activity lacks one of the six required keys;
    and (e) an activity object that has the six required keys but none of
    [cost], [booking_url], [notes] is built, with these three fields [None]. *)
Theorem reconciler_rejections (prefs : TripPreferences) (hotel : option Hotel)
    (attractions : list Attraction) (text : string) :
  llm_invoke (create_llm_prompt prefs hotel attractions) = Ok text ->
  (forall json_str e,
      json_str_of text = Ok json_str -> json_loads json_str = Err e ->
      is_ok (build_itinerary prefs hotel attractions) = false)
  /\ (forall d,
      parse_llm_response text = Ok (PDict d) ->
      d !! "daily_plans" = None \/ d !! "daily_plans" = Some (PList []) ->
      is_ok (build_itinerary prefs hotel attractions) = false)
  /\ (forall d days day date,
      parse_llm_response text = Ok (PDict d) ->
      d !! "daily_plans" = Some (PList days) ->
      In day days ->
      getitem day "date" = Ok (PStr date) ->
      is_ok (strptime date "%Y-%m-%d") = false ->
      is_ok (build_itinerary prefs hotel attractions) = false)
  /\ (forall d days day acts a k,
      parse_llm_response text = Ok (PDict d) ->
      d !! "daily_plans" = Some (PList days) ->
      In day days ->
      getitem day "activities" = Ok (PList acts) ->
      In (PDict a) acts ->
      In k activity_required_keys ->
      a !! k = None ->
      is_ok (build_itinerary prefs hotel attractions) = false)
  /\ (forall a,
      has_keys a activity_required_keys = true ->
      Forall (fun k => a !! k = None) activity_optional_keys ->
      exists activity,
        make_activity (PDict a) = Ok activity
        /\ act_cost activity = PNone
        /\ act_booking_url activity = PNone
        /\ act_notes activity = PNone).
Proof.
  intros Hllm. repeat split.
  - intros json_str e Hstr Hloads.
    unfold build_itinerary, build_itinerary_body. rewrite Hllm. simpl.
    destruct (String.eqb text EmptyString); [reflexivity | ].
    unfold parse_llm_response. rewrite Hstr. simpl. rewrite Hloads.
    destruct (isinstance e JSONDecodeError); reflexivity.
  - intros d Hparse Hplans.
    apply (build_itinerary_of_reply _ _ _ _ _ Hllm Hparse).
    unfold itinerary_from_reply, daily_plans_of. simpl.
    destruct Hplans as [-> | ->]; reflexivity.
  - intros d days day date Hparse Hplans Hin Hdate Hbad.
    apply (build_itinerary_of_reply _ _ _ _ _ Hllm Hparse).
    apply (day_failure_rejects _ _ _ _ _ Hplans Hin).
    intros dp (_ & Hd & _). rewrite Hdate in Hd. simpl in Hd.
    rewrite Hd in Hbad. discriminate.
  - intros d days day acts a k Hparse Hplans Hin Hacts Hact Hk Hnone.
    apply (build_itinerary_of_reply _ _ _ _ _ Hllm Hparse).
    apply (day_failure_rejects _ _ _ _ _ Hplans Hin).
    intros dp (_ & _ & _ & acts' & Hiter & Hall).
    rewrite Hacts in Hiter. simpl in Hiter. injection Hiter as <-.
    destruct (Forall2_In_l _ _ _ _ Hall Hact) as (activity & _ & Hm).
    exact (missing_required_key_fails _ _ Hk Hnone _ Hm).
  - intros a Hkeys Hopt.
    destruct (well_formed_activity_ok (PDict a) Hkeys) as [activity Hmake].
    exists activity. split; [exact Hmake | ].
    apply make_activity_matches in Hmake as (_ & _ & _ & _ & _ & _ & Hc & Hb & Hn).
    unfold activity_optional_keys in Hopt.
    inversion Hopt as [|? ? Hcost Hopt1]; subst.
    inversion Hopt1 as [|? ? Hurl Hopt2]; subst.
    inversion Hopt2 as [|? ? Hnotes _]; subst.
    simpl in Hc, Hb, Hn. rewrite Hcost in Hc. rewrite Hurl in Hb. rewrite Hnotes in Hn.
    simpl in *. repeat split; congruence.
Qed.

(** ** One error kind *)

(** C6. [build_itinerary] returns either the itinerary its body built or one
    [ValueError] whose message is "Failed to build itinerary: " followed by the
    message of the exception the body raised; this holds for a failure of the
    model call, an empty answer, a failure of extraction or decoding, and a
    failure of validation, the loop, the check or the assembly alike. *)
Theorem build_failures_wrapped (prefs : TripPreferences) (hotel : option Hotel)
    (attractions : list Attraction) :
  let prompt := create_llm_prompt prefs hotel attractions in
  ((exists it, build_itinerary prefs hotel attractions = Ok it)
   \/ (exists cause,
         build_itinerary_body prefs hotel attractions = Err cause
         /\ build_itinerary prefs hotel attractions
            = Err (Exn ValueError ("Failed to build itinerary: " ++ exn_msg cause))))
  /\ (forall e, llm_invoke prompt = Err e ->
        build_itinerary prefs hotel attractions = Err (wrap_build_error e))
  /\ (llm_invoke prompt = Ok EmptyString ->
        build_itinerary prefs hotel attractions
        = Err (wrap_build_error (Exn ValueError "Empty response from LLM")))
  /\ (forall text e, llm_invoke prompt = Ok text -> text <> EmptyString ->
        parse_llm_response text = Err e ->
        build_itinerary prefs hotel attractions = Err (wrap_build_error e))
  /\ (forall text data e, llm_invoke prompt = Ok text -> text <> EmptyString ->
        parse_llm_response text = Ok data ->
        itinerary_from_reply prefs hotel data = Err e ->
        build_itinerary prefs hotel attractions = Err (wrap_build_error e))
  /\ (forall e, exn_class_of (wrap_build_error e) = ValueError).
Proof.
  intros prompt. subst prompt. unfold build_itinerary. repeat split.
  - destruct (build_itinerary_body prefs hotel attractions) as [it|cause].
    + left. exists it. reflexivity.
    + right. exists cause. split; reflexivity.
  - intros e He. unfold build_itinerary_body. rewrite He. reflexivity.
  - intros He. unfold build_itinerary_body. rewrite He. reflexivity.
  - intros text e Hllm Hne Hparse. unfold build_itinerary_body. rewrite Hllm. simpl.
    destruct (String.eqb text EmptyString) eqn:Hempty.
    + apply String.eqb_eq in Hempty. contradiction.
    + rewrite Hparse. reflexivity.
  - intros text data e Hllm Hne Hparse Hreply.
    unfold build_itinerary_body. rewrite Hllm. simpl.
    destruct (String.eqb text EmptyString) eqn:Hempty.
    + apply String.eqb_eq in Hempty. contradiction.
    + rewrite Hparse. simpl. rewrite Hreply. reflexivity.
Qed.

(** ** Extraction of the JSON text *)

Lemma strip_prefix_app (sep t : string) : strip_prefix sep (sep ++ t) = Some t.
Proof.
  induction sep as [|a sep IH]; simpl; [reflexivity | ].
  rewrite Ascii.eqb_refl. exact IH.
Qed.

Lemma partition_prefix (sep s r : string) :
  strip_prefix sep s = Some r -> partition sep s = Some (EmptyString, r).
Proof. intros H. destruct s; simpl; rewrite H; reflexivity. Qed.

(** A character that does not occur in [sep] cannot be part of an occurrence
    of [sep]: occurrences lie on one side of it. *)
Lemma strip_prefix_sepchar (sep x y : string) (d : ascii) :
  char_in d sep = false ->
  strip_prefix sep (x ++ String d y)
  = match strip_prefix sep x with Some r => Some (r ++ String d y) | None => None end.
Proof.
  revert x. induction sep as [|a sep IH]; intros x Hd; simpl; [reflexivity | ].
  simpl in Hd. apply orb_false_iff in Hd as [Hda Hd].
  destruct x as [|b x]; simpl.
  - rewrite Ascii.eqb_sym, Hda. reflexivity.
  - destruct (Ascii.eqb a b); [apply IH; exact Hd | reflexivity].
Qed.

Lemma partition_sepchar (sep x y : string) (d : ascii) :
  sep <> EmptyString ->
  char_in d sep = false ->
  partition sep (x ++ String d y)
  = match partition sep x with
    | Some (a, b) => Some (a, b ++ String d y)
    | None =>
        match partition sep y with
        | Some (a, b) => Some (x ++ String d a, b)
        | None => None
        end
    end.
Proof.
  intros Hsep Hd. induction x as [|c x IH].
  - destruct sep as [|a sep]; [contradiction | ]. simpl.
    simpl in Hd. apply orb_false_iff in Hd as [Hda _].
    rewrite Ascii.eqb_sym, Hda.
    destruct (partition (String a sep) y) as [[u v]|]; reflexivity.
  - pose proof (strip_prefix_sepchar sep (String c x) y d Hd) as Hs.
    change (String c x ++ String d y) with (String c (x ++ String d y)) in *.
    cbn [partition]. rewrite Hs.
    destruct (strip_prefix sep (String c x)) as [r|]; [reflexivity | ].
    rewrite IH.
    destruct (partition sep x) as [[u v]|]; [reflexivity | ].
    destruct (partition sep y) as [[u v]|]; reflexivity.
Qed.

Lemma strip_prefix_None_app (p q s : string) :
  strip_prefix p s = None -> strip_prefix (p ++ q) s = None.
Proof.
  revert s. induction p as [|a p IH]; intros s; simpl; [discriminate | ].
  destruct s as [|b s]; [reflexivity | ].
  destruct (Ascii.eqb a b); [apply IH | reflexivity].
Qed.

(** Where [p] does not occur, no text starting with [p] occurs. *)
Lemma partition_None_app (p q s : string) :
  partition p s = None -> partition (p ++ q) s = None.
Proof.
  induction s as [|c s IH]; cbn [partition].
  - destruct (strip_prefix p EmptyString) eqn:Hp; [discriminate | ].
    intros _. rewrite (strip_prefix_None_app _ q _ Hp). reflexivity.
  - destruct (strip_prefix p (String c s)) eqn:Hp; [discriminate | ].
    rewrite (strip_prefix_None_app _ q _ Hp).
    destruct (partition p s) as [[u v]|]; [discriminate | ].
    intros _. rewrite IH; reflexivity.
Qed.

Lemma split_fuel_head (n : nat) (sep s : string) :
  index (split_fuel n sep s) 0 = Ok (text_before sep s).
Proof.
  unfold text_before.
  destruct n; simpl; destruct (partition sep s) as [[a b]|]; reflexivity.
Qed.

Lemma split_head (sep s : string) : index (split sep s) 0 = Ok (text_before sep s).
Proof. apply split_fuel_head. Qed.

Lemma partition_Some_nonempty (sep s a b : string) :
  sep <> EmptyString -> partition sep s = Some (a, b) -> s <> EmptyString.
Proof.
  intros Hsep H ->. simpl in H. destruct sep; [contradiction | discriminate].
Qed.

Lemma split_second (sep s a b : string) :
  sep <> EmptyString ->
  partition sep s = Some (a, b) ->
  index (split sep s) 1 = Ok (text_before sep b).
Proof.
  intros Hsep H. unfold split.
  destruct s as [|c s]; [exfalso; exact (partition_Some_nonempty _ _ _ _ Hsep H eq_refl) | ].
  cbn [String.length split_fuel]. rewrite H.
  change (index (a :: split_fuel (String.length s) sep b) 1)
    with (index (split_fuel (String.length s) sep b) 0).
  apply split_fuel_head.
Qed.

Lemma fence_json_nonempty : fence_json <> EmptyString.
Proof. discriminate. Qed.

Lemma fence_nonempty : fence <> EmptyString.
Proof. discriminate. Qed.

(** The code's extraction is the priority policy. *)
Lemma json_str_of_policy (response : string) :
  json_str_of response = Ok (extraction_policy response).
Proof.
  unfold json_str_of, extraction_policy, block_after_json, block_after, contains.
  destruct (partition fence_json response) as [[a after]|] eqn:Hj.
  - rewrite (split_second _ _ _ _ fence_json_nonempty Hj). simpl.
    apply split_head.
  - destruct (partition fence response) as [[a after]|] eqn:Hf.
    + apply (split_second _ _ _ _ fence_nonempty Hf).
    + reflexivity.
Qed.

Lemma strip_prefix_Some (sep s r : string) :
  strip_prefix sep s = Some r -> s = sep ++ r.
Proof.
  revert s. induction sep as [|a sep IH]; intros s; simpl.
  - intros H. injection H as <-. reflexivity.
  - destruct s as [|b s]; [discriminate | ].
    destruct (Ascii.eqb a b) eqn:Hab; [ | discriminate].
    apply Ascii.eqb_eq in Hab as <-. intros H. rewrite (IH _ H). reflexivity.
Qed.

(** [partition] cuts [s] around an occurrence of [sep]. *)
Lemma partition_Some (sep s a b : string) :
  partition sep s = Some (a, b) -> s = a ++ sep ++ b.
Proof.
  revert a. induction s as [|c s IH]; intros a; cbn [partition].
  - destruct (strip_prefix sep EmptyString) eqn:Hp; [ | discriminate].
    intros H. injection H as <- <-. apply strip_prefix_Some in Hp. exact Hp.
  - destruct (strip_prefix sep (String c s)) eqn:Hp.
    + intros H. injection H as <- <-. apply strip_prefix_Some in Hp. exact Hp.
    + destruct (partition sep s) as [[u v]|]; [ | discriminate].
      intros H. injection H as <- <-. simpl. rewrite (IH u eq_refl). reflexivity.
Qed.

(** [partition] finds an occurrence whenever there is one. *)
Lemma partition_None (sep s : string) :
  partition sep s = None -> forall a b, s <> a ++ sep ++ b.
Proof.
  induction s as [|c s IH]; cbn [partition].
  - destruct (strip_prefix sep EmptyString) eqn:Hp; [discriminate | ].
    intros _ a b H. destruct a as [|c' a]; [ | discriminate].
    change (EmptyString = sep ++ b) in H.
    rewrite H, strip_prefix_app in Hp. discriminate.
  - destruct (strip_prefix sep (String c s)) eqn:Hp; [discriminate | ].
    destruct (partition sep s) as [[u v]|]; [discriminate | ].
    intros _ a b H. destruct a as [|c' a].
    + change (String c s = sep ++ b) in H.
      rewrite H, strip_prefix_app in Hp. discriminate.
    + change (String c s = String c' (a ++ sep ++ b)) in H.
      injection H as _ H. exact (IH eq_refl a b H).
Qed.

Lemma partition_fenced_body (s : string) :
  partition fence s = None ->
  partition fence_json (nl ++ s ++ nl ++ fence) = None
  /\ partition fence (nl ++ s ++ nl ++ fence) = Some (nl ++ s ++ nl, EmptyString).
Proof.
  intros Hs.
  assert (Hj : partition fence_json s = None).
  { change fence_json with (fence ++ "json"). apply partition_None_app, Hs. }
  unfold nl.
  change (String "010" EmptyString ++ s ++ String "010" EmptyString ++ fence)
    with (EmptyString ++ String "010" (s ++ String "010" fence)).
  split.
  - rewrite (partition_sepchar fence_json EmptyString _ "010" fence_json_nonempty eq_refl).
    rewrite (partition_sepchar fence_json s _ "010" fence_json_nonempty eq_refl).
    rewrite Hj. reflexivity.
  - rewrite (partition_sepchar fence EmptyString _ "010" fence_nonempty eq_refl).
    rewrite (partition_sepchar fence s _ "010" fence_nonempty eq_refl).
    rewrite Hs. reflexivity.
Qed.

(** C3, as the code has it. On every reply the text handed to the decoder is
    the one the priority policy names: with a [json] tag in the reply, the
    text after the first tag up to the next tag (or the end), cut at the first
    fence within it; else, with a fence, the text between the first fence and
    the next (or the end); else the whole reply. For a payload [s] in which
    no fence occurs, the bare reply hands [s] to the decoder and the reply
    that wraps [s] in a [json]-tagged block hands it [s] between two
    newlines; so the two replies are parsed to the same result when the
    decoder gives the same result for both texts, and both are parsed or
    both rejected when the decoder accepts both texts or neither. *)
Theorem fenced_reply_parsed_like_bare :
  (forall response, json_str_of response = Ok (extraction_policy response))
  /\ (forall s,
        contains fence s = false ->
        json_str_of s = Ok s
        /\ json_str_of (fenced s) = Ok (nl ++ s ++ nl)
        /\ (json_loads (nl ++ s ++ nl) = json_loads s ->
            parse_llm_response (fenced s) = parse_llm_response s)
        /\ (is_ok (json_loads (nl ++ s ++ nl)) = is_ok (json_loads s) ->
            is_ok (parse_llm_response (fenced s)) = is_ok (parse_llm_response s))).
Proof.
  split; [exact json_str_of_policy | ].
  intros s Hs.
  assert (Hnone : partition fence s = None).
  { unfold contains in Hs. destruct (partition fence s); [discriminate | reflexivity]. }
  assert (Hbare : json_str_of s = Ok s).
  { rewrite json_str_of_policy. unfold extraction_policy, block_after_json, block_after.
    change fence_json with (fence ++ "json").
    rewrite (partition_None_app _ _ _ Hnone), Hnone. reflexivity. }
  assert (Hfenced : json_str_of (fenced s) = Ok (nl ++ s ++ nl)).
  { destruct (partition_fenced_body s Hnone) as [Hj Hf].
    rewrite json_str_of_policy. unfold extraction_policy, block_after_json, fenced.
    rewrite (partition_prefix _ _ _ (strip_prefix_app fence_json _)).
    unfold text_before. rewrite Hj, Hf. reflexivity. }
  split; [exact Hbare | ]. split; [exact Hfenced | ].
  unfold parse_llm_response. rewrite Hbare, Hfenced.
  cbv beta iota delta [mbind result_bind].
  split.
  - intros ->. reflexivity.
  - intros Hok.
    destruct (json_loads (nl ++ s ++ nl)) as [v1|e1], (json_loads s) as [v2|e2];
      try discriminate; try reflexivity.
    destruct (isinstance e1 JSONDecodeError), (isinstance e2 JSONDecodeError); reflexivity.
Qed.

(** ** The prompt *)

Lemma string_app_assoc (a b c : string) : (a ++ b) ++ c = a ++ b ++ c.
Proof.
  induction a as [|x a IH]; [reflexivity | ].
  change (String x ((a ++ b) ++ c) = String x (a ++ b ++ c)). rewrite IH. reflexivity.
Qed.

Lemma contains_prefix (sub b : string) : contains sub (sub ++ b) = true.
Proof.
  unfold contains. rewrite (partition_prefix _ _ _ (strip_prefix_app sub b)). reflexivity.
Qed.

Lemma contains_app_r (sub a t : string) :
  contains sub t = true -> contains sub (a ++ t) = true.
Proof.
  unfold contains. intros H.
  destruct (partition sub t) as [[u v]|] eqn:Ht; [ | discriminate].
  apply partition_Some in Ht.
  destruct (partition sub (a ++ t)) as [[u' v']|] eqn:Hat; [reflexivity | ].
  exfalso. apply (partition_None _ _ Hat (a ++ u) v).
  rewrite Ht. symmetry. apply string_app_assoc.
Qed.

(** Closes a goal [contains sub (x1 ++ ... ++ sub ++ ...) = true]. *)
Ltac find_piece :=
  repeat first [ apply contains_prefix | apply contains_app_r ].

(** C7. The prompt is a function of the preferences, the hotel and the
    attractions alone (given how the interpreter prints a float): equal inputs
    give equal prompts. Composed without a hotel and with no attraction, it
    contains the destination as it is, both dates in ISO form and the marker
    "Not selected yet". *)
Theorem prompt_pure_and_complete (prefs : TripPreferences) :
  (forall prefs' hotel hotel' attractions attractions',
      prefs = prefs' -> hotel = hotel' -> attractions = attractions' ->
      create_llm_prompt prefs hotel attractions
      = create_llm_prompt prefs' hotel' attractions')
  /\ contains (tp_destination prefs) (create_llm_prompt prefs None []) = true
  /\ contains (isoformat (tp_start_date prefs)) (create_llm_prompt prefs None []) = true
  /\ contains (isoformat (tp_end_date prefs)) (create_llm_prompt prefs None []) = true
  /\ contains "Not selected yet" (create_llm_prompt prefs None []) = true.
Proof.
  split.
  { intros prefs' hotel hotel' attractions attractions' -> -> ->. reflexivity. }
  unfold create_llm_prompt, hotel_name_or_marker.
  split; [ | split; [ | split]].
  - find_piece.
  - find_piece.
  - find_piece.
  - find_piece.
Qed.

(** ** Comparison of floats *)

Lemma SFcompare_antisym (x y : spec_float) :
  SFcompare y x = option_map CompOpp (SFcompare x y).
Proof.
  destruct x as [sx|sx| |sx mx ex], y as [sy|sy| |sy my ey]; simpl;
    try reflexivity;
    try (destruct sx; reflexivity); try (destruct sy; reflexivity);
    try (destruct sx, sy; reflexivity).
  destruct sx, sy; simpl; try reflexivity;
    rewrite (Z.compare_antisym ex ey);
    destruct (ex ?= ey)%Z; simpl; try reflexivity;
    rewrite !Pos.compare_cont_spec; simpl;
    rewrite (Pos.compare_antisym mx my);
    destruct (mx ?= my)%positive; reflexivity.
Qed.

Lemma float_ltb_asym (x y : float) :
  PrimFloat.ltb x y = true -> PrimFloat.ltb y x = false.
Proof.
  rewrite !FloatAxioms.ltb_spec. unfold SFltb. rewrite (SFcompare_antisym (Prim2SF x) (Prim2SF y)).
  destruct (SFcompare (Prim2SF x) (Prim2SF y)) as [[]|]; simpl; congruence.
Qed.

Lemma float_leb_not_ltb (x y : float) :
  PrimFloat.leb x y = true -> PrimFloat.ltb y x = false.
Proof.
  rewrite FloatAxioms.leb_spec, FloatAxioms.ltb_spec. unfold SFleb, SFltb.
  rewrite (SFcompare_antisym (Prim2SF x) (Prim2SF y)).
  destruct (SFcompare (Prim2SF x) (Prim2SF y)) as [[]|]; simpl; congruence.
Qed.

Lemma SFcompare_None (x y : spec_float) :
  SFcompare x y = None -> SFcompare x x = None \/ SFcompare y y = None.
Proof.
  destruct x as [sx|sx| |sx mx ex], y as [sy|sy| |sy my ey]; simpl;
    try discriminate; try (left; reflexivity); try (right; reflexivity);
    try (destruct sx; discriminate); try (destruct sy; discriminate).
Qed.

(** On floats that are numbers ([x == x]), the order is total. *)
Lemma float_not_ltb_leb (x y : float) :
  PrimFloat.eqb x x = true -> PrimFloat.eqb y y = true ->
  PrimFloat.ltb x y = false -> PrimFloat.leb y x = true.
Proof.
  rewrite !FloatAxioms.eqb_spec, FloatAxioms.ltb_spec, FloatAxioms.leb_spec. unfold SFeqb, SFltb, SFleb.
  intros Hx Hy. rewrite (SFcompare_antisym (Prim2SF x) (Prim2SF y)).
  destruct (SFcompare (Prim2SF x) (Prim2SF y)) as [[]|] eqn:Hc; simpl; try congruence.
  apply SFcompare_None in Hc as [Hc | Hc]; rewrite Hc in *; discriminate.
Qed.

(** ** Preference validation *)

Lemma check_required_missing (fields : list string) (ui : gmap string pyval) (k : string) :
  In k fields -> ui !! k = None ->
  exists k', In k' fields /\ ui !! k' = None
    /\ check_required fields (PDict ui)
       = Err (Exn ValueError ("Missing required field: " ++ k')).
Proof.
  induction fields as [|f fields IH]; simpl; [intros [] | ].
  intros Hin Hk. unfold dict_contains.
  destruct (ui !! f) as [v|] eqn:Hf.
  - destruct Hin as [-> | Hin]; [congruence | ].
    destruct (IH Hin Hk) as (k' & Hk' & Hnone & Hcheck).
    exists k'. repeat split; [right; exact Hk' | exact Hnone | exact Hcheck].
  - exists f. repeat split; [left; reflexivity | exact Hf].
Qed.

Lemma check_required_present (fields : list string) (ui : gmap string pyval) :
  has_keys ui fields = true -> check_required fields (PDict ui) = Ok tt.
Proof.
  unfold has_keys. induction fields as [|f fields IH]; simpl; [reflexivity | ].
  intros [Hf Hrest]%andb_prop. rewrite Hf. simpl. apply IH, Hrest.
Qed.

Lemma parse_budget_not_positive (ui : gmap string pyval) (b : pyval) (f : float) :
  ui !! "budget" = Some b -> py_float b = Ok f -> PrimFloat.leb f 0 = true ->
  parse_budget (PDict ui) = Err (Exn ValueError "Invalid budget value").
Proof.
  intros Hb Hf Hle. unfold parse_budget, getitem. rewrite Hb. simpl. rewrite Hf. simpl.
  unfold validate_budget. rewrite (float_leb_not_ltb _ _ Hle). reflexivity.
Qed.

Lemma parse_trip_preferences_error (state : gmap string pyval) (e : exn) :
  parse_trip_preferences_body state = Err e ->
  parse_trip_preferences state = <["error" := PStr (exn_msg e)]> state.
Proof. unfold parse_trip_preferences. intros ->. reflexivity. Qed.

(** C8. With [user_input] the dict [ui]:
    (a) a budget that converts to a float at most zero leaves an error in the
        state, and nothing else changes; when the fields are all present and
        the dates are in order the message is "Invalid budget value";
    (b) when the fields are all present and the start date is not before the
        end date, the state gets the error "End date must be after start
        date" and nothing else;
    (c) when a required field is missing, the state gets the error "Missing
        required field: k" for a missing required field [k], and nothing
        else. *)
Theorem preferences_rejected (state ui : gmap string pyval) :
  default (PDict ∅) (state !! "user_input") = PDict ui ->
  (forall b f,
      ui !! "budget" = Some b -> py_float b = Ok f -> PrimFloat.leb f 0 = true ->
      (exists msg, parse_trip_preferences state = <["error" := PStr msg]> state)
      /\ (forall s e,
            has_keys ui required_fields = true ->
            (getitem (PDict ui) "start_date" ≫= parse_date) = Ok s ->
            (getitem (PDict ui) "end_date" ≫= parse_date) = Ok e ->
            datetime_lt s e = true ->
            parse_trip_preferences state
            = <["error" := PStr "Invalid budget value"]> state))
  /\ (forall s e,
        has_keys ui required_fields = true ->
        (getitem (PDict ui) "start_date" ≫= parse_date) = Ok s ->
        (getitem (PDict ui) "end_date" ≫= parse_date) = Ok e ->
        datetime_ge s e = true ->
        parse_trip_preferences state
        = <["error" := PStr "End date must be after start date"]> state)
  /\ (forall k,
        In k required_fields -> ui !! k = None ->
        exists k',
          In k' required_fields /\ ui !! k' = None
          /\ parse_trip_preferences state
             = <["error" := PStr ("Missing required field: " ++ k')]> state).
Proof.
  intros Hui. split; [ | split].
  - intros b f Hb Hf Hle.
    pose proof (parse_budget_not_positive ui b f Hb Hf Hle) as Hbudget.
    split.
    + assert (exists e, parse_trip_preferences_body state = Err e) as [e He].
      { destruct (parse_trip_preferences_body state) as [st|e] eqn:Hbody; [exfalso | eauto].
        unfold parse_trip_preferences_body in Hbody. rewrite Hui in Hbody.
        do 5 bind_inv Hbody.
        destruct (datetime_ge v1 v3); [discriminate | ].
        bind_inv Hbody. rewrite Hbudget in Hv4. discriminate. }
      exists (exn_msg e). apply parse_trip_preferences_error, He.
    + intros s e Hkeys Hs He Hlt.
      apply (parse_trip_preferences_error state (Exn ValueError "Invalid budget value")).
      unfold parse_trip_preferences_body. rewrite Hui.
      apply bind_Ok in Hs as (v1 & Hv1 & Hs). apply bind_Ok in He as (v2 & Hv2 & He).
      step (check_required_present _ _ Hkeys). step Hv1. step Hs. step Hv2. step He.
      unfold datetime_ge. rewrite Hlt. cbv beta iota delta [negb].
      step Hbudget. reflexivity.
  - intros s e Hkeys Hs He Hge.
    apply (parse_trip_preferences_error state
             (Exn ValueError "End date must be after start date")).
    unfold parse_trip_preferences_body. rewrite Hui.
    apply bind_Ok in Hs as (v1 & Hv1 & Hs). apply bind_Ok in He as (v2 & Hv2 & He).
    step (check_required_present _ _ Hkeys). step Hv1. step Hs. step Hv2. step He.
    rewrite Hge. reflexivity.
  - intros k Hin Hk.
    destruct (check_required_missing required_fields ui k Hin Hk)
      as (k' & Hin' & Hnone & Hcheck).
    exists k'. repeat split; [exact Hin' | exact Hnone | ].
    apply (parse_trip_preferences_error state
             (Exn ValueError ("Missing required field: " ++ k'))).
    unfold parse_trip_preferences_body. rewrite Hui, Hcheck. reflexivity.
Qed.

(** ** The consistency check on the grand total *)

(** Comparing two negated numbers is comparing the numbers the other way
    round. *)
Lemma SFcompare_opp (x y : spec_float) :
  SFcompare (SFopp x) (SFopp y) = SFcompare y x.
Proof.
  destruct x as [sx|sx| |sx mx ex], y as [sy|sy| |sy my ey]; simpl;
    try reflexivity;
    try (destruct sx; reflexivity); try (destruct sy; reflexivity);
    try (destruct sx, sy; reflexivity).
  destruct sx, sy; simpl; try reflexivity;
    rewrite (Z.compare_antisym ex ey);
    destruct (ex ?= ey)%Z; simpl; try reflexivity;
    rewrite !Pos.compare_cont_spec; simpl;
    rewrite (Pos.compare_antisym mx my);
    destruct (mx ?= my)%positive; reflexivity.
Qed.

(** For a positive finite bound [c]: [c < |d|] exactly when [d < -c] or
    [c < d]. *)
Lemma SFltb_abs (m : positive) (e : Z) (d : spec_float) :
  SFltb (S754_finite false m e) (SFabs d)
  = SFltb d (S754_finite true m e) || SFltb (S754_finite false m e) d.
Proof.
  destruct d as [s|s| |s md ed].
  - destruct s; reflexivity.
  - destruct s; reflexivity.
  - reflexivity.
  - destruct s.
    + unfold SFltb.
      change (S754_finite true md ed) with (SFopp (S754_finite false md ed)).
      change (S754_finite true m e) with (SFopp (S754_finite false m e)).
      rewrite SFcompare_opp.
      change (SFabs (SFopp (S754_finite false md ed))) with (S754_finite false md ed).
      change (SFcompare (S754_finite false m e) (SFopp (S754_finite false md ed)))
        with (Some Gt).
      rewrite orb_false_r. reflexivity.
    + unfold SFltb.
      change (SFabs (S754_finite false md ed)) with (S754_finite false md ed).
      change (SFcompare (S754_finite false md ed) (S754_finite true m e)) with (Some Gt).
      reflexivity.
Qed.

(** The test the code makes, [abs(x - y) > 0.01], is the two-sided one. *)
Lemma differs_is_beyond (x y : float) :
  differs_by_more_than_tolerance x y = beyond_tolerance x y.
Proof.
  unfold differs_by_more_than_tolerance, beyond_tolerance.
  rewrite !FloatAxioms.ltb_spec, abs_spec.
  change (Prim2SF tolerance) with (Prim2SF 0.01%float).
  assert (Hpos : Prim2SF 0.01%float = S754_finite false 5764607523034235 (-59))
    by (vm_compute; reflexivity).
  assert (Hneg : Prim2SF (-0.01)%float = S754_finite true 5764607523034235 (-59))
    by (vm_compute; reflexivity).
  rewrite Hpos, Hneg. apply SFltb_abs.
Qed.

Lemma float_ltb_negb_leb (x y : float) :
  PrimFloat.eqb x x = true -> PrimFloat.eqb y y = true ->
  PrimFloat.ltb x y = negb (PrimFloat.leb y x).
Proof.
  intros Hx Hy. destruct (PrimFloat.leb y x) eqn:Hle.
  - apply float_leb_not_ltb, Hle.
  - destruct (PrimFloat.ltb x y) eqn:Hlt; [reflexivity | ].
    rewrite (float_not_ltb_leb _ _ Hx Hy Hlt) in Hle. discriminate.
Qed.

Lemma within_not_beyond (x y : float) :
  within_tolerance x y = true -> beyond_tolerance x y = false.
Proof.
  unfold within_tolerance, beyond_tolerance. intros [Hlow Hhigh]%andb_prop.
  rewrite (float_leb_not_ltb _ _ Hlow), (float_leb_not_ltb _ _ Hhigh). reflexivity.
Qed.

Lemma beyond_not_within (x y : float) :
  PrimFloat.eqb (PrimFloat.sub x y) (PrimFloat.sub x y) = true ->
  beyond_tolerance x y = negb (within_tolerance x y).
Proof.
  intros Hnum. unfold within_tolerance, beyond_tolerance.
  rewrite (float_ltb_negb_leb (PrimFloat.sub x y) (-0.01)%float Hnum eq_refl).
  rewrite (float_ltb_negb_leb 0.01%float (PrimFloat.sub x y) eq_refl Hnum).
  symmetry. apply negb_andb.
Qed.

Lemma nan_neither (x y : float) :
  is_nan (PrimFloat.sub x y) ->
  within_tolerance x y = false /\ beyond_tolerance x y = false.
Proof.
  unfold is_nan, within_tolerance, beyond_tolerance. intros Hnan.
  rewrite !FloatAxioms.leb_spec, !FloatAxioms.ltb_spec, Hnan.
  split.
  - unfold SFleb. destruct (Prim2SF (-0.01)%float); reflexivity.
  - unfold SFltb. destruct (Prim2SF 0.01%float); reflexivity.
Qed.

(** Adding up values that are JSON numbers is the in-order binary64 sum. *)
Lemma accumulate_numeric (days costs : list pyval) (t : float) :
  Forall2 (fun day cost => getitem day "total_cost" = Ok cost) days costs ->
  forallb numeric_total days = true ->
  accumulate t costs = Ok (fold_left PrimFloat.add (day_total <$> days) t).
Proof.
  intros Hall. revert t. induction Hall as [|day cost days costs Hget _ IH]; intros t.
  - reflexivity.
  - cbn [forallb]. intros [Hnum Hrest]%andb_prop.
    destruct day as [| | | | | |d|]; try discriminate.
    cbn [getitem] in Hget. cbn [numeric_total] in Hnum.
    destruct (d !! "total_cost") as [v|] eqn:Hv; [ | discriminate].
    injection Hget as <-.
    destruct (number_of v) as [x|] eqn:Hx; [ | discriminate].
    cbn [accumulate]. rewrite (float_iadd_number t v x Hx).
    cbv beta iota delta [mbind result_bind].
    rewrite (IH _ Hrest). cbn [fmap list_fmap fold_left day_total].
    unfold day_total. rewrite Hv, Hx. reflexivity.
Qed.

(** C1. For a decoded reply that reaches the consistency check (the loop
    built every day and ended with the plans [dps] and the sum [total]) and
    whose top-level [total_cost] is the number [r]:
    - [total] is made from the reply: it is what adding the [total_cost]
      values of the reply's day entries to 0.0, in order, gives, and when
      these values are JSON numbers it is the in-order binary64 sum of the
      per-day totals;
    - construction fails with the mismatch error exactly when the difference
      [total - r] is below -0.01 or above 0.01, and otherwise goes on to the
      assembly step;
    - totals that agree within the tolerance are never rejected, and when
      the difference is a number, rejection is exactly disagreement;
    - when the difference is not a number (a NaN among the reply's totals),
      the totals do not agree within the tolerance and construction goes on
      to the assembly step all the same. *)
Theorem total_cost_check_decides (prefs : TripPreferences) (hotel : option Hotel)
    (data reported : pyval) (days : list pyval) (dps : list DayPlan) (total r : float) :
  daily_plans_of data = Ok days ->
  build_days days [] 0%float = Ok (dps, total) ->
  getitem data "total_cost" = Ok reported ->
  number_of reported = Some r ->
  (exists costs,
      Forall2 (fun day cost => getitem day "total_cost" = Ok cost) days costs
      /\ accumulate 0%float costs = Ok total)
  /\ (forallb numeric_total days = true -> total = sum_day_totals days)
  /\ (itinerary_from_reply prefs hotel data
        = Err (Exn ValueError "Total cost mismatch in itinerary")
      <-> beyond_tolerance total r = true)
  /\ (beyond_tolerance total r = false ->
      itinerary_from_reply prefs hotel data = assemble prefs hotel dps total data)
  /\ (within_tolerance total r = true ->
      itinerary_from_reply prefs hotel data = assemble prefs hotel dps total data)
  /\ (PrimFloat.eqb (PrimFloat.sub total r) (PrimFloat.sub total r) = true ->
      (itinerary_from_reply prefs hotel data
         = Err (Exn ValueError "Total cost mismatch in itinerary")
       <-> within_tolerance total r = false))
  /\ (is_nan (PrimFloat.sub total r) ->
      within_tolerance total r = false
      /\ itinerary_from_reply prefs hotel data = assemble prefs hotel dps total data).
Proof.
  intros Hdays Hloop Hget Hnum.
  assert (Heq : itinerary_from_reply prefs hotel data =
                  (if beyond_tolerance total r
                   then Err (Exn ValueError "Total cost mismatch in itinerary")
                   else assemble prefs hotel dps total data)).
  { unfold itinerary_from_reply. rewrite Hdays. simpl. rewrite Hloop. simpl.
    rewrite (check_total_cost_number _ _ _ _ Hget Hnum), differs_is_beyond.
    destruct (beyond_tolerance total r); reflexivity. }
  assert (Hcosts : exists costs,
             Forall2 (fun day cost => getitem day "total_cost" = Ok cost) days costs
             /\ accumulate 0%float costs = Ok total).
  { apply build_days_inv in Hloop as (new & _ & Hall & Hacc).
    exists (dp_total_cost <$> new). split; [ | exact Hacc].
    apply Forall2_fmap_r.
    eapply Forall2_impl; [exact Hall | ]. intros day dp (Htotal & _). exact Htotal. }
  assert (Hiff : itinerary_from_reply prefs hotel data
                   = Err (Exn ValueError "Total cost mismatch in itinerary")
                 <-> beyond_tolerance total r = true).
  { rewrite Heq. destruct (beyond_tolerance total r); split; intros H.
    - reflexivity.
    - reflexivity.
    - exfalso. exact (assemble_not_mismatch _ _ _ _ _ H).
    - discriminate. }
  split; [exact Hcosts | ]. split.
  { intros Hnumeric. destruct Hcosts as (costs & Hall & Hacc).
    rewrite (accumulate_numeric _ _ _ Hall Hnumeric) in Hacc.
    injection Hacc as <-. reflexivity. }
  split; [exact Hiff | ]. split.
  { intros Hin. rewrite Heq, Hin. reflexivity. }
  split.
  { intros Hin. rewrite Heq, (within_not_beyond _ _ Hin). reflexivity. }
  split.
  { intros Hnumber. rewrite Hiff, (beyond_not_within _ _ Hnumber).
    destruct (within_tolerance total r); split; intros H;
      first [reflexivity | discriminate]. }
  intros Hnan. destruct (nan_neither _ _ Hnan) as [Hwithin Hbeyond].
  split; [exact Hwithin | ]. rewrite Heq, Hbeyond. reflexivity.
Qed.

(** ** The hotel list *)

Lemma insert_by_rating_perm (x : Hotel) (l : list Hotel) :
  Permutation (x :: l) (insert_by_rating x l).
Proof.
  induction l as [|y l IH]; simpl; [reflexivity | ].
  destruct (PrimFloat.ltb (rating_key x) (rating_key y)); [ | reflexivity].
  rewrite perm_swap. apply perm_skip, IH.
Qed.

Lemma sort_by_rating_perm (l : list Hotel) : Permutation l (sort_by_rating l).
Proof.
  induction l as [|x l IH]; simpl; [reflexivity | ].
  rewrite <- insert_by_rating_perm. apply perm_skip, IH.
Qed.

Lemma insert_by_rating_hd (x y : Hotel) (l : list Hotel) :
  not_rated_below y x -> HdRel not_rated_below y l ->
  HdRel not_rated_below y (insert_by_rating x l).
Proof.
  intros Hyx Hl. destruct l as [|z l]; simpl; [constructor; exact Hyx | ].
  destruct (PrimFloat.ltb (rating_key x) (rating_key z)).
  - constructor. inversion Hl. assumption.
  - constructor. exact Hyx.
Qed.

Lemma insert_by_rating_sorted (x : Hotel) (l : list Hotel) :
  Sorted not_rated_below l -> Sorted not_rated_below (insert_by_rating x l).
Proof.
  induction 1 as [|y l Hsorted IH Hhd]; simpl.
  - repeat constructor.
  - destruct (PrimFloat.ltb (rating_key x) (rating_key y)) eqn:Hlt.
    + constructor; [exact IH | ].
      apply insert_by_rating_hd; [ | exact Hhd].
      unfold not_rated_below. apply float_ltb_asym, Hlt.
    + constructor; [constructor; assumption | ]. constructor. exact Hlt.
Qed.

Lemma sort_by_rating_sorted (l : list Hotel) : Sorted not_rated_below (sort_by_rating l).
Proof.
  induction l as [|x l IH]; simpl; [constructor | ].
  apply insert_by_rating_sorted, IH.
Qed.

Lemma sorted_rating_ge (l : list Hotel) :
  Forall rated l -> Sorted not_rated_below l -> Sorted rating_ge l.
Proof.
  intros Hrated. induction 1 as [|y l Hsorted IH Hhd]; [constructor | ].
  inversion Hrated as [|? ? Hy Hl]; subst.
  constructor; [apply IH, Hl | ].
  destruct Hhd as [|z l Hyz]; constructor.
  inversion Hl as [|? ? Hz _]; subst.
  apply float_not_ltb_leb; assumption.
Qed.

Lemma search_hotels_inv (prefs : TripPreferences) (n : Z) (hotels : list Hotel) :
  search_hotels prefs n = Ok hotels ->
  exists response body results entries parsed,
    requests_post (hotel_query prefs) n = Ok response
    /\ raise_for_status response = Ok tt
    /\ response_json response = Ok body
    /\ dict_get_default body "results" (PList []) = Ok results
    /\ truthy results = true
    /\ iterate results = Ok entries
    /\ mapM parse_hotel_from_search_result entries = Ok parsed
    /\ hotels = sort_by_rating parsed.
Proof.
  unfold search_hotels. intros H.
  destruct (search_hotels_body prefs n) as [hs|e] eqn:Hbody; [ | discriminate].
  injection H as ->. unfold search_hotels_body in Hbody.
  destruct (String.eqb (tp_destination prefs) EmptyString); [discriminate | ].
  do 4 bind_inv Hbody.
  destruct (truthy v2) eqn:Htruthy; [ | discriminate].
  cbv beta iota delta [negb] in Hbody.
  do 2 bind_inv Hbody. injection Hbody as <-. destruct v0.
  exists v, v1, v2, v3, v4. repeat split; assumption.
Qed.

Lemma search_error_class (e : exn) : exn_class_of (search_error e) = HotelSearchError.
Proof.
  unfold search_error.
  destruct (isinstance e RequestException); [reflexivity | ].
  destruct (isinstance e KeyError || isinstance e ValueError || isinstance e TypeError);
    reflexivity.
Qed.

(** C9. A list that [search_hotels] returns is not empty, is a reordering of
    the hotels parsed from the results, and is in descending order of the key
    [rating or 0]: no hotel is followed by one with a strictly higher key, and
    when the keys are numbers each hotel's key is at least its successor's.
    Every failure is a [HotelSearchError]; the call fails when the request
    raises, when [raise_for_status] raises, and when the result set is absent
    or empty. *)
Theorem hotels_sorted_or_error (prefs : TripPreferences) (n : Z) :
  (forall hotels,
      search_hotels prefs n = Ok hotels ->
      hotels <> []
      /\ (exists response body results entries parsed,
            requests_post (hotel_query prefs) n = Ok response
            /\ response_json response = Ok body
            /\ dict_get_default body "results" (PList []) = Ok results
            /\ iterate results = Ok entries
            /\ mapM parse_hotel_from_search_result entries = Ok parsed
            /\ Permutation parsed hotels)
      /\ Sorted not_rated_below hotels
      /\ (Forall rated hotels -> Sorted rating_ge hotels))
  /\ (forall e, search_hotels prefs n = Err e -> exn_class_of e = HotelSearchError)
  /\ (forall e, requests_post (hotel_query prefs) n = Err e ->
        is_ok (search_hotels prefs n) = false)
  /\ (forall response e,
        requests_post (hotel_query prefs) n = Ok response ->
        raise_for_status response = Err e ->
        is_ok (search_hotels prefs n) = false)
  /\ (forall response body,
        requests_post (hotel_query prefs) n = Ok response ->
        response_json response = Ok (PDict body) ->
        body !! "results" = None \/ body !! "results" = Some (PList []) ->
        is_ok (search_hotels prefs n) = false).
Proof.
  split; [ | split; [ | split; [ | split]]].
  - intros hotels H.
    apply search_hotels_inv in H
      as (response & body & results & entries & parsed
          & Hpost & Hstatus & Hjson & Hget & Htruthy & Hiter & Hmap & ->).
    assert (Hsorted : Sorted not_rated_below (sort_by_rating parsed))
      by apply sort_by_rating_sorted.
    assert (Hne : entries <> []) by (eapply iterate_truthy; eassumption).
    split; [ | split; [ | split]].
    + intros Hnil. apply Hne.
      apply mapM_Ok in Hmap. apply Forall2_length in Hmap.
      pose proof (Permutation_length (sort_by_rating_perm parsed)) as Hlen.
      rewrite Hnil in Hlen. simpl in Hlen.
      destruct entries; [reflexivity | ]. simpl in Hmap. lia.
    + exists response, body, results, entries, parsed.
      repeat split; try assumption. apply sort_by_rating_perm.
    + exact Hsorted.
    + intros Hrated. apply sorted_rating_ge; assumption.
  - unfold search_hotels. intros e H.
    destruct (search_hotels_body prefs n); [discriminate | ].
    injection H as <-. apply search_error_class.
  - intros e H. unfold search_hotels, search_hotels_body.
    destruct (String.eqb (tp_destination prefs) EmptyString); [reflexivity | ].
    rewrite H. reflexivity.
  - intros response e Hpost Hstatus. unfold search_hotels, search_hotels_body.
    destruct (String.eqb (tp_destination prefs) EmptyString); [reflexivity | ].
    step Hpost. rewrite Hstatus. reflexivity.
  - intros response body Hpost Hjson Hresults. unfold search_hotels, search_hotels_body.
    destruct (String.eqb (tp_destination prefs) EmptyString); [reflexivity | ].
    step Hpost.
    destruct (raise_for_status response) as [[]|e]; [ | reflexivity].
    cbv beta iota. step Hjson. unfold dict_get_default.
    destruct Hresults as [-> | ->]; reflexivity.
Qed.

(** * Further properties *)

(** ** Preference validation: the accepted form *)

Lemma check_required_dict (fields : list string) (v : pyval) :
  check_required fields v = Ok tt -> fields <> [] ->
  match v with
  | PDict ui => has_keys ui fields = true
  | PStr _ | PList _ => True
  | _ => False
  end.
Proof.
  destruct v; try exact (fun _ _ => I);
    try (destruct fields; [intros _ H; contradiction | simpl; discriminate]).
  unfold has_keys. intros H _. induction fields as [|f fields IH]; [reflexivity | ].
  simpl in *. destruct (dict_contains d f); [ | discriminate]. simpl. apply IH, H.
Qed.

Lemma parse_trip_preferences_body_inv (state st' : gmap string pyval) :
  parse_trip_preferences_body state = Ok st' ->
  exists ui s e b f fields,
    default (PDict ∅) (state !! "user_input") = PDict ui
    /\ has_keys ui required_fields = true
    /\ (getitem (PDict ui) "start_date" ≫= parse_date) = Ok s
    /\ (getitem (PDict ui) "end_date" ≫= parse_date) = Ok e
    /\ datetime_lt s e = true
    /\ ui !! "budget" = Some b
    /\ py_float b = Ok f
    /\ PrimFloat.ltb 0 f = true
    /\ trip_prefs_asdict (PDict ui) s e f = Ok fields
    /\ st' = delete "user_input" (fields ∪ state).
Proof.
  unfold parse_trip_preferences_body. intros H.
  bind_inv H. destruct v.
  pose proof (check_required_dict _ _ Hv ltac:(discriminate)) as Hkeys.
  destruct (default (PDict ∅) (state !! "user_input")) as [| | | | |l|ui|] eqn:Hui;
    try contradiction.
  - bind_inv H. discriminate.
  - bind_inv H. discriminate.
  - apply bind_Ok in H as (sv & Hsv & H). apply bind_Ok in H as (s & Hs & H).
    apply bind_Ok in H as (ev & Hev & H). apply bind_Ok in H as (e & He & H).
    destruct (datetime_ge s e) eqn:Hge; [discriminate | ].
    apply bind_Ok in H as (f & Hbudget & H). apply bind_Ok in H as (fields & Hfields & H).
    injection H as <-.
    unfold parse_budget in Hbudget.
    destruct (getitem (PDict ui) "budget") as [b|eb] eqn:Hb;
      cbv beta iota delta [mbind result_bind] in Hbudget.
    2: { destruct (isinstance eb ValueError || isinstance eb TypeError); discriminate. }
    destruct (py_float b) as [f'|ef] eqn:Hf;
      cbv beta iota delta [mbind result_bind] in Hbudget.
    2: { destruct (isinstance ef ValueError || isinstance ef TypeError); discriminate. }
    unfold validate_budget in Hbudget.
    destruct (PrimFloat.ltb 0 f') eqn:Hpos; simpl in Hbudget; [ | discriminate].
    injection Hbudget as <-.
    exists ui, s, e, b, f', fields.
    assert (Hb' : ui !! "budget" = Some b).
    { simpl in Hb. destruct (ui !! "budget"); [congruence | discriminate]. }
    unfold datetime_ge in Hge. apply negb_false_iff in Hge.
    repeat split; try assumption.
    + rewrite Hsv. exact Hs.
    + rewrite Hev. exact He.
Qed.

Lemma trip_prefs_asdict_lookup (ui fields : gmap string pyval) (s e : datetime) (f : float) :
  trip_prefs_asdict (PDict ui) s e f = Ok fields ->
  fields !! "start_date" = Some (PDatetime s)
  /\ fields !! "end_date" = Some (PDatetime e)
  /\ fields !! "budget" = Some (PFloat f)
  /\ fields !! "dietary_restrictions" = Some (default PNone (ui !! "dietary_restrictions"))
  /\ fields !! "special_requirements" = Some (default PNone (ui !! "special_requirements"))
  /\ fields !! "destination_insights" = Some PNone
  /\ fields !! "personalized_recommendations" = Some PNone
  /\ fields !! "user_input" = None
  /\ fields !! "error" = None
  /\ (forall k, In k copied_fields -> fields !! k = ui !! k)
  /\ (forall k, ~ In k parsed_keys -> fields !! k = None).
Proof.
  unfold trip_prefs_asdict. intros H.
  apply bind_Ok in H as (x1 & H1 & H). apply bind_Ok in H as (x2 & H2 & H).
  apply bind_Ok in H as (x3 & H3 & H). apply bind_Ok in H as (x4 & H4 & H).
  apply bind_Ok in H as (x5 & H5 & H). apply bind_Ok in H as (x6 & H6 & H).
  apply bind_Ok in H as (x7 & H7 & H). injection H as <-.
  simpl in H6, H7. injection H6 as <-. injection H7 as <-.
  assert (Hget : forall k v, getitem (PDict ui) k = Ok v -> ui !! k = Some v).
  { intros k v. simpl. destruct (ui !! k); [congruence | discriminate]. }
  apply Hget in H1, H2, H3, H4, H5.
  repeat split; try reflexivity.
  - intros k Hk. unfold copied_fields in Hk. simpl in Hk.
    destruct Hk as [<- | [<- | [<- | [<- | [<- | []]]]]]; symmetry; assumption.
  - intros k Hk. unfold parsed_keys in Hk. simpl in Hk.
    repeat (rewrite lookup_insert_ne
              by (intros <-; apply Hk; repeat (first [left; reflexivity | right]))).
    apply lookup_empty.
Qed.

(** X1. When [parse_trip_preferences] leaves no ["error"] in the state, the
    state holds the parsed preferences and they satisfy the invariant of the
    preference model: start and end are datetimes with start before end, the
    budget is a float above zero, the five other required fields are as the
    form gave them, and [user_input] is gone. *)
Theorem accepted_preferences_invariant (state : gmap string pyval) :
  parse_trip_preferences state !! "error" = None ->
  exists ui s e f,
    default (PDict ∅) (state !! "user_input") = PDict ui
    /\ parse_trip_preferences state !! "user_input" = None
    /\ parse_trip_preferences state !! "start_date" = Some (PDatetime s)
    /\ parse_trip_preferences state !! "end_date" = Some (PDatetime e)
    /\ parse_trip_preferences state !! "budget" = Some (PFloat f)
    /\ datetime_lt s e = true
    /\ PrimFloat.ltb 0 f = true
    /\ (forall k, In k copied_fields ->
          is_Some (ui !! k) /\ parse_trip_preferences state !! k = ui !! k).
Proof.
  unfold parse_trip_preferences.
  destruct (parse_trip_preferences_body state) as [st'|err] eqn:Hbody.
  2: { rewrite lookup_insert_eq. discriminate. }
  intros _.
  apply parse_trip_preferences_body_inv in Hbody
    as (ui & s & e & b & f & fields & Hui & Hkeys & Hs & He & Hlt & Hb & Hf & Hpos
        & Hfields & ->).
  apply trip_prefs_asdict_lookup in Hfields
    as (Hfs & Hfe & Hfb & _ & _ & _ & _ & _ & _ & Hcopied & _).
  exists ui, s, e, f.
  split; [exact Hui | ]. split; [apply lookup_delete_eq | ].
  rewrite !lookup_delete_ne by discriminate.
  rewrite !lookup_union, Hfs, Hfe, Hfb.
  repeat split; try (rewrite union_Some_l; reflexivity); try assumption.
  - unfold has_keys, required_fields in Hkeys. simpl in Hkeys.
    unfold copied_fields in H. simpl in H.
    repeat (apply andb_prop in Hkeys as [?%dict_contains_Some Hkeys]).
    destruct H as [<- | [<- | [<- | [<- | [<- | []]]]]]; assumption.
  - assert (k <> "user_input") as Hne.
    { intros ->. unfold copied_fields in H. simpl in H.
      repeat (destruct H as [H | H]; [discriminate | ]). exact H. }
    rewrite lookup_delete_ne by (intros Heq; apply Hne; symmetry; exact Heq).
    rewrite lookup_union, (Hcopied k H).
    unfold has_keys, required_fields in Hkeys. simpl in Hkeys.
    unfold copied_fields in H. simpl in H.
    repeat (apply andb_prop in Hkeys as [?%dict_contains_Some Hkeys]).
    destruct H as [<- | [<- | [<- | [<- | [<- | []]]]]];
      match goal with Hx : exists v, ui !! ?k = Some v |- context [ui !! ?k] =>
        destruct Hx as [v ->] end; apply union_Some_l.
Qed.

Lemma parse_budget_positive (ui : gmap string pyval) (b : pyval) (f : float) :
  ui !! "budget" = Some b -> py_float b = Ok f -> PrimFloat.ltb 0 f = true ->
  parse_budget (PDict ui) = Ok f.
Proof.
  intros Hb Hf Hpos. unfold parse_budget, getitem. rewrite Hb.
  cbv beta iota delta [mbind result_bind]. rewrite Hf. unfold validate_budget.
  rewrite Hpos. reflexivity.
Qed.

Lemma has_keys_lookup (ui : gmap string pyval) (fields : list string) (k : string) :
  has_keys ui fields = true -> In k fields -> exists v, ui !! k = Some v.
Proof.
  unfold has_keys. induction fields as [|f fields IH]; simpl; [intros _ [] | ].
  intros [Hf Hrest]%andb_prop [<- | Hin].
  - apply dict_contains_Some, Hf.
  - apply IH; assumption.
Qed.

(** X2. A form with every required field, dates that parse with the start
    before the end, and a budget that converts to a float above zero is
    accepted: no error is added, [user_input] is removed, the dates and the
    budget are stored parsed, the other fields as given (the optional ones as
    [None] when absent), and every other key of the state is left alone. *)
Theorem well_formed_preferences_accepted (state ui : gmap string pyval)
    (s e : datetime) (b : pyval) (f : float) :
  default (PDict ∅) (state !! "user_input") = PDict ui ->
  has_keys ui required_fields = true ->
  (getitem (PDict ui) "start_date" ≫= parse_date) = Ok s ->
  (getitem (PDict ui) "end_date" ≫= parse_date) = Ok e ->
  datetime_lt s e = true ->
  ui !! "budget" = Some b -> py_float b = Ok f -> PrimFloat.ltb 0 f = true ->
  let st' := parse_trip_preferences state in
  st' !! "error" = state !! "error"
  /\ st' !! "user_input" = None
  /\ st' !! "start_date" = Some (PDatetime s)
  /\ st' !! "end_date" = Some (PDatetime e)
  /\ st' !! "budget" = Some (PFloat f)
  /\ st' !! "dietary_restrictions" = Some (default PNone (ui !! "dietary_restrictions"))
  /\ st' !! "special_requirements" = Some (default PNone (ui !! "special_requirements"))
  /\ (forall k, In k copied_fields -> st' !! k = ui !! k)
  /\ (forall k, ~ In k parsed_keys -> k <> "user_input" -> st' !! k = state !! k).
Proof.
  intros Hui Hkeys Hs He Hlt Hb Hf Hpos st'.
  assert (Hget : forall k, In k required_fields ->
                           exists v, getitem (PDict ui) k = Ok v /\ ui !! k = Some v).
  { intros k Hk. destruct (has_keys_lookup _ _ _ Hkeys Hk) as [v Hv].
    exists v. simpl. rewrite Hv. split; reflexivity. }
  assert (exists fields, trip_prefs_asdict (PDict ui) s e f = Ok fields) as [fields Hfields].
  { unfold trip_prefs_asdict.
    destruct (Hget "destination") as (v1 & -> & _); [simpl; auto 10 | ].
    destruct (Hget "travel_style") as (v2 & -> & _); [simpl; auto 10 | ].
    destruct (Hget "interests") as (v3 & -> & _); [simpl; auto 10 | ].
    destruct (Hget "accommodation_preference") as (v4 & -> & _); [simpl; auto 10 | ].
    destruct (Hget "transportation_preference") as (v5 & -> & _); [simpl; auto 10 | ].
    simpl. eauto. }
  assert (Hbody : parse_trip_preferences_body state
                  = Ok (delete "user_input" (fields ∪ state))).
  { unfold parse_trip_preferences_body. rewrite Hui.
    apply bind_Ok in Hs as (sv & Hsv & Hs). apply bind_Ok in He as (ev & Hev & He).
    step (check_required_present _ _ Hkeys). step Hsv. step Hs. step Hev. step He.
    unfold datetime_ge. rewrite Hlt. cbv beta iota delta [negb].
    step (parse_budget_positive _ _ _ Hb Hf Hpos). step Hfields. reflexivity. }
  subst st'. unfold parse_trip_preferences. rewrite Hbody.
  apply trip_prefs_asdict_lookup in Hfields
    as (Hfs & Hfe & Hfb & Hfd & Hfr & _ & _ & Hfu & Hferr & Hcopied & Hother).
  split.
  { rewrite lookup_delete_ne by discriminate. rewrite lookup_union, Hferr.
    apply (left_id None _). }
  split; [apply lookup_delete_eq | ].
  rewrite !lookup_delete_ne by discriminate.
  rewrite !lookup_union, Hfs, Hfe, Hfb, Hfd, Hfr.
  repeat split; try (rewrite union_Some_l; reflexivity).
  - intros k Hk.
    assert (k <> "user_input") as Hne.
    { intros ->. unfold copied_fields in Hk. simpl in Hk.
      repeat (destruct Hk as [Hk | Hk]; [discriminate | ]). exact Hk. }
    rewrite lookup_delete_ne by (intros Heq; apply Hne; symmetry; exact Heq).
    rewrite lookup_union, (Hcopied k Hk).
    destruct (has_keys_lookup ui required_fields k Hkeys) as [v ->].
    + unfold copied_fields in Hk. unfold required_fields. simpl in *.
      destruct Hk as [<- | [<- | [<- | [<- | [<- | []]]]]]; auto 10.
    + apply union_Some_l.
  - intros k Hk Hne.
    rewrite lookup_delete_ne by (intros Heq; apply Hne; symmetry; exact Heq).
    rewrite lookup_union, (Hother k Hk). apply (left_id None _).
Qed.

(** X3. Parsing is not repeatable: the accepted state has lost [user_input],
    so a second call reports the first required field as missing and changes
    nothing else. *)
Theorem parse_twice_reports_missing (state st' : gmap string pyval) :
  parse_trip_preferences_body state = Ok st' ->
  parse_trip_preferences state = st'
  /\ parse_trip_preferences st'
     = <["error" := PStr "Missing required field: destination"]> st'.
Proof.
  intros Hbody. split.
  { unfold parse_trip_preferences. rewrite Hbody. reflexivity. }
  apply parse_trip_preferences_body_inv in Hbody
    as (ui & s & e & b & f & fields & _ & _ & _ & _ & _ & _ & _ & _ & _ & ->).
  apply (parse_trip_preferences_error _
           (Exn ValueError "Missing required field: destination")).
  unfold parse_trip_preferences_body. rewrite lookup_delete_eq. reflexivity.
Qed.

(** X4. The budget step raises one of three exceptions only: the
    [ValueError] "Invalid budget value" (which also replaces the inner
    "Budget must be a positive number"), the [KeyError] of a missing
    [budget] key, or the [OverflowError] of an int too large for a float. *)
Theorem parse_budget_errors (user_input : pyval) (e : exn) :
  parse_budget user_input = Err e ->
  e = Exn ValueError "Invalid budget value"
  \/ e = key_error "budget"
  \/ e = Exn OverflowError "int too large to convert to float".
Proof.
  unfold parse_budget.
  destruct (getitem user_input "budget") as [b|e1] eqn:Hget;
    cbv beta iota delta [mbind result_bind].
  2: { destruct user_input; simpl in Hget; try (injection Hget as <-); simpl;
         try (intros H; injection H as <-; left; reflexivity).
       destruct (d !! "budget"); [discriminate | ]. injection Hget as <-. simpl.
       intros H. injection H as <-. right. left. reflexivity. }
  destruct (py_float b) as [f|e1] eqn:Hf; cbv beta iota delta [mbind result_bind].
  - unfold validate_budget. destruct (PrimFloat.ltb 0 f); simpl; [discriminate | ].
    intros H. injection H as <-. left. reflexivity.
  - destruct b; simpl in Hf; try discriminate;
      try (injection Hf as <-; simpl; intros H; injection H as <-; left; reflexivity).
    + unfold float_of_int in Hf.
      destruct (binary_normalize prec emax n 0 false); try discriminate.
      injection Hf as <-. simpl. intros H. injection H as <-. right. right. reflexivity.
    + destruct (float_of_str s); [discriminate | ]. injection Hf as <-. simpl.
      intros H. injection H as <-. left. reflexivity.
Qed.

(** ** The per-day loop composes *)

(** X5. The loop over a concatenation of day entries is the loop over the
    first part followed by the loop over the second part from the plans and
    the total the first left; so the error reported is that of the first day
    that fails, whatever comes after it. *)
Theorem build_days_app (l1 l2 : list pyval) (acc : list DayPlan) (t : float) :
  build_days (l1 ++ l2) acc t = (r ← build_days l1 acc t; build_days l2 r.1 r.2)
  /\ (forall bad acc' t' e,
        build_days l1 acc t = Ok (acc', t') ->
        make_day t' bad = Err e ->
        build_days (l1 ++ bad :: l2) acc t = Err e).
Proof.
  assert (Happ : forall l1 l2 acc t,
             build_days (l1 ++ l2) acc t = (r ← build_days l1 acc t; build_days l2 r.1 r.2)).
  { clear. intros l1 l2. induction l1 as [|d l1 IH]; intros acc t; [reflexivity | ].
    simpl. destruct (make_day t d) as [[t1 dp]|e]; simpl; [apply IH | reflexivity]. }
  split; [apply Happ | ].
  intros bad acc' t' e Hgood Hbad. rewrite Happ, Hgood. simpl. rewrite Hbad. reflexivity.
Qed.

(** ** The summary is looked up last *)

(** X6. For a reply object without a ["summary"] key whose days were all
    assembled and whose grand total is a number: construction fails with the
    mismatch error when the totals differ by more than the tolerance, and
    otherwise with the [KeyError] of the missing key, which the caller sees as
    "Failed to build itinerary: 'summary'". *)
Theorem summary_checked_last (prefs : TripPreferences) (hotel : option Hotel)
    (d : gmap string pyval) (reported : pyval) (days : list pyval) (dps : list DayPlan)
    (total r : float) :
  daily_plans_of (PDict d) = Ok days ->
  build_days days [] 0%float = Ok (dps, total) ->
  d !! "total_cost" = Some reported ->
  number_of reported = Some r ->
  d !! "summary" = None ->
  itinerary_from_reply prefs hotel (PDict d)
  = Err (if differs_by_more_than_tolerance total r
         then Exn ValueError "Total cost mismatch in itinerary"
         else key_error "summary")
  /\ wrap_build_error (key_error "summary")
     = Exn ValueError "Failed to build itinerary: 'summary'".
Proof.
  intros Hdays Hloop Hreported Hnum Hsummary. split; [ | reflexivity].
  unfold itinerary_from_reply. step Hdays. step Hloop.
  assert (Hget : getitem (PDict d) "total_cost" = Ok reported).
  { simpl. rewrite Hreported. reflexivity. }
  cbn [fst snd]. rewrite (check_total_cost_number _ _ _ _ Hget Hnum).
  destruct (differs_by_more_than_tolerance total r); [reflexivity | ].
  cbv beta iota. unfold assemble, getitem. rewrite Hsummary. reflexivity.
Qed.

(** ** Not-a-number totals *)


Lemma add_nan_l (x y : float) : is_nan x -> is_nan (PrimFloat.add x y).
Proof. unfold is_nan. intros H. rewrite add_spec, H. reflexivity. Qed.

Lemma add_nan_r (x y : float) : is_nan y -> is_nan (PrimFloat.add x y).
Proof.
  unfold is_nan. intros H. rewrite add_spec, H. destruct (Prim2SF x); reflexivity.
Qed.

Lemma nan_not_differs (x y : float) :
  is_nan x \/ is_nan y -> differs_by_more_than_tolerance x y = false.
Proof.
  unfold is_nan, differs_by_more_than_tolerance. intros H.
  rewrite FloatAxioms.ltb_spec, abs_spec, sub_spec.
  assert (SF64sub (Prim2SF x) (Prim2SF y) = S754_nan) as ->.
  { destruct H as [-> | ->]; [reflexivity | destruct (Prim2SF x); reflexivity]. }
  unfold SFltb. simpl. destruct (Prim2SF tolerance); reflexivity.
Qed.

Lemma accumulate_nan (costs : list pyval) (t t' : float) :
  accumulate t costs = Ok t' ->
  is_nan t \/ Exists (fun c => exists x, c = PFloat x /\ is_nan x) costs ->
  is_nan t'.
Proof.
  revert t. induction costs as [|c costs IH]; intros t; simpl.
  - intros H [Hn | Hex]; [injection H as <-; exact Hn | inversion Hex].
  - intros H Hn. apply bind_Ok in H as (t1 & Ht1 & H).
    apply (IH _ H).
    destruct Hn as [Hn | Hex].
    + left. unfold float_iadd, float_binop in Ht1.
      destruct (float_operand c) as [[y|e]|]; simpl in Ht1; try discriminate.
      injection Ht1 as <-. apply add_nan_l, Hn.
    + inversion Hex as [? ? (x & -> & Hx) | ? ? Hrest]; subst.
      * left. unfold float_iadd, float_binop in Ht1. simpl in Ht1.
        injection Ht1 as <-. apply add_nan_r, Hx.
      * right. exact Hrest.
Qed.

(** X7. A NaN defeats the consistency check: when the grand total of the
    reply is a NaN, or the total of some day is (a decoder that accepts the
    [NaN] literal, as [json.loads] does, produces them), the check passes
    whatever the other figures are and construction goes on to the assembly
    step. *)
Theorem nan_total_passes_check (prefs : TripPreferences) (hotel : option Hotel)
    (data reported : pyval) (days : list pyval) (dps : list DayPlan) (total r : float) :
  daily_plans_of data = Ok days ->
  build_days days [] 0%float = Ok (dps, total) ->
  getitem data "total_cost" = Ok reported ->
  number_of reported = Some r ->
  is_nan r \/ Exists (fun dp => exists x, dp_total_cost dp = PFloat x /\ is_nan x) dps ->
  check_total_cost total data = Ok tt
  /\ itinerary_from_reply prefs hotel data = assemble prefs hotel dps total data.
Proof.
  intros Hdays Hloop Hget Hnum Hnan.
  assert (Hpass : differs_by_more_than_tolerance total r = false).
  { apply nan_not_differs. destruct Hnan as [Hr | Hday]; [right; exact Hr | left].
    pose proof Hloop as Hinv.
    apply build_days_inv in Hinv as (new & Hnew & _ & Hacc). simpl in Hnew. subst new.
    apply (accumulate_nan _ _ _ Hacc). right.
    apply Exists_fmap. exact Hday. }
  assert (Hcheck : check_total_cost total data = Ok tt).
  { rewrite (check_total_cost_number _ _ _ _ Hget Hnum), Hpass. reflexivity. }
  split; [exact Hcheck | ].
  unfold itinerary_from_reply. step Hdays. step Hloop.
  cbn [fst snd]. step Hcheck. reflexivity.
Qed.

(** ** Fenced blocks inside prose *)

Lemma contains_false_partition (sep s : string) :
  contains sep s = false -> partition sep s = None.
Proof. unfold contains. destruct (partition sep s); [discriminate | reflexivity]. Qed.

Lemma no_fence_no_fence_json (s : string) :
  partition fence s = None -> partition fence_json s = None.
Proof. change fence_json with (fence ++ "json"). apply partition_None_app. Qed.

(** The body of a block that ends on a line of its own, whatever follows the
    closing fence. *)
Lemma text_before_closing_fence (body rest : string) :
  partition fence body = None ->
  text_before fence (nl ++ body ++ nl ++ fence ++ rest) = nl ++ body ++ nl.
Proof.
  intros Hbody. unfold text_before, nl.
  change (String "010" EmptyString ++ body ++ String "010" EmptyString ++ fence ++ rest)
    with (EmptyString ++ String "010" (body ++ String "010" (fence ++ rest))).
  rewrite (partition_sepchar fence EmptyString _ "010" fence_nonempty eq_refl).
  rewrite (partition_sepchar fence body _ "010" fence_nonempty eq_refl).
  rewrite Hbody, (partition_prefix _ _ _ (strip_prefix_app fence rest)). reflexivity.
Qed.

(** X8. A block tagged [json] on lines of its own is found inside prose: when
    no [json] tag occurs before it (untagged fences may) and no fence occurs in
    its body, the text handed to the decoder is the body with its two
    newlines, whatever follows the block. *)
Theorem json_block_in_prose (pre body post : string) :
  contains fence_json pre = false ->
  contains fence body = false ->
  json_str_of (pre ++ nl ++ fence_json ++ nl ++ body ++ nl ++ fence ++ nl ++ post)
  = Ok (nl ++ body ++ nl)
  /\ parse_llm_response (pre ++ nl ++ fence_json ++ nl ++ body ++ nl ++ fence ++ nl ++ post)
     = parse_llm_response (nl ++ body ++ nl).
Proof.
  intros Hpre%contains_false_partition Hbody%contains_false_partition.
  assert (Hstr : json_str_of (pre ++ nl ++ fence_json ++ nl ++ body ++ nl ++ fence ++ nl ++ post)
                 = Ok (nl ++ body ++ nl)).
  { rewrite json_str_of_policy. unfold extraction_policy, block_after_json.
    unfold nl at 1.
    change (pre ++ String "010" EmptyString ++ fence_json ++ nl ++ body ++ nl ++ fence ++ nl ++ post)
      with (pre ++ String "010" (fence_json ++ nl ++ body ++ nl ++ fence ++ nl ++ post)).
    rewrite (partition_sepchar fence_json pre _ "010" fence_json_nonempty eq_refl), Hpre.
    rewrite (partition_prefix _ _ _ (strip_prefix_app fence_json _)).
    f_equal.
    (* the text between the tag and the next tag is the body, the closing
       fence and some rest *)
    assert (exists rest, text_before fence_json (nl ++ body ++ nl ++ fence ++ nl ++ post)
                         = nl ++ body ++ nl ++ fence ++ rest) as [rest ->].
    { unfold text_before, nl.
      change (String "010" EmptyString ++ body ++ String "010" EmptyString ++ fence
                ++ String "010" EmptyString ++ post)
        with (EmptyString ++ String "010" (body ++ String "010" (fence ++ String "010" post))).
      rewrite (partition_sepchar fence_json EmptyString _ "010" fence_json_nonempty eq_refl).
      rewrite (partition_sepchar fence_json body _ "010" fence_json_nonempty eq_refl).
      rewrite (no_fence_no_fence_json _ Hbody).
      rewrite (partition_sepchar fence_json fence _ "010" fence_json_nonempty eq_refl).
      change (partition fence_json EmptyString) with (@None (string * string)).
      change (partition fence_json fence) with (@None (string * string)).
      destruct (partition fence_json post) as [[a b]|].
      - exists (String "010" a). reflexivity.
      - exists (String "010" post). reflexivity. }
    apply text_before_closing_fence, Hbody. }
  split; [exact Hstr | ].
  unfold parse_llm_response. rewrite Hstr.
  assert (Hbare : json_str_of (nl ++ body ++ nl) = Ok (nl ++ body ++ nl)).
  { rewrite json_str_of_policy. unfold extraction_policy, block_after_json, block_after.
    assert (Hnone : partition fence (nl ++ body ++ nl) = None).
    { unfold nl.
      change (String "010" EmptyString ++ body ++ String "010" EmptyString)
        with (EmptyString ++ String "010" (body ++ String "010" EmptyString)).
      rewrite (partition_sepchar fence EmptyString _ "010" fence_nonempty eq_refl).
      rewrite (partition_sepchar fence body _ "010" fence_nonempty eq_refl).
      rewrite Hbody. reflexivity. }
    rewrite (no_fence_no_fence_json _ Hnone), Hnone. reflexivity. }
  rewrite Hbare. reflexivity.
Qed.

(** X9. Without any [json] tag in the reply, the first fenced block is used:
    when no fence occurs before the block or in its body and no [json] tag
    after it, the text handed to the decoder is the body with its two
    newlines. *)
Theorem plain_block_in_prose (pre body post : string) :
  contains fence pre = false ->
  contains fence body = false ->
  contains fence_json post = false ->
  json_str_of (pre ++ nl ++ fence ++ nl ++ body ++ nl ++ fence ++ nl ++ post)
  = Ok (nl ++ body ++ nl).
Proof.
  intros Hpre%contains_false_partition Hbody%contains_false_partition
         Hpost%contains_false_partition.
  rewrite json_str_of_policy. unfold extraction_policy, block_after_json, block_after.
  assert (Hshape : pre ++ nl ++ fence ++ nl ++ body ++ nl ++ fence ++ nl ++ post
                   = pre ++ String "010" (fence ++ nl ++ body ++ nl ++ fence ++ nl ++ post))
    by reflexivity.
  rewrite Hshape. clear Hshape.
  assert (Hnojson : partition fence_json
                      (pre ++ String "010" (fence ++ nl ++ body ++ nl ++ fence ++ nl ++ post))
                    = None).
  { rewrite (partition_sepchar fence_json pre _ "010" fence_json_nonempty eq_refl).
    rewrite (no_fence_no_fence_json _ Hpre).
    assert (Hinner : fence ++ nl ++ body ++ nl ++ fence ++ nl ++ post
                     = fence ++ String "010" (body ++ String "010" (fence ++ String "010" post)))
      by reflexivity.
    rewrite Hinner.
    rewrite (partition_sepchar fence_json fence _ "010" fence_json_nonempty eq_refl).
    rewrite (partition_sepchar fence_json body _ "010" fence_json_nonempty eq_refl).
    rewrite (partition_sepchar fence_json fence _ "010" fence_json_nonempty eq_refl).
    rewrite (no_fence_no_fence_json _ Hbody), Hpost.
    change (partition fence_json fence) with (@None (string * string)). reflexivity. }
  rewrite Hnojson.
  rewrite (partition_sepchar fence pre _ "010" fence_nonempty eq_refl), Hpre.
  rewrite (partition_prefix _ _ _ (strip_prefix_app fence _)).
  f_equal. apply text_before_closing_fence, Hbody.
Qed.

(** ** Hotel search: failures it raises itself, and the hotel of one result *)

(** X10. The two failures [search_hotels] raises itself leave through
    different handlers. An empty destination is rejected before any request
    is sent, and reported as a parsing failure. A response without results
    (the key absent, or a false value under it) is reported as an unexpected
    error: the function's own [HotelSearchError] is caught by its last
    handler and wrapped once more. *)
Theorem search_failures_reported (prefs : TripPreferences) (n : Z) :
  (tp_destination prefs = EmptyString ->
   search_hotels prefs n
   = Err (Exn HotelSearchError "Failed to parse hotel data: Destination is required"))
  /\ (forall response body,
        tp_destination prefs <> EmptyString ->
        requests_post (hotel_query prefs) n = Ok response ->
        raise_for_status response = Ok tt ->
        response_json response = Ok (PDict body) ->
        truthy (default (PList []) (body !! "results")) = false ->
        search_hotels prefs n
        = Err (Exn HotelSearchError
                 "Unexpected error: No hotels found matching your criteria")).
Proof.
  split.
  - intros Hdest. unfold search_hotels, search_hotels_body. rewrite Hdest. reflexivity.
  - intros response body Hdest Hpost Hstatus Hjson Hfalse.
    unfold search_hotels, search_hotels_body.
    apply String.eqb_neq in Hdest. rewrite Hdest.
    step Hpost. step Hstatus. step Hjson.
    cbv beta iota delta [dict_get_default]. cbv beta iota delta [mbind result_bind].
    rewrite Hfalse. reflexivity.
Qed.

Lemma strip_prefix_app_r (sep s r t : string) :
  strip_prefix sep s = Some r -> strip_prefix sep (s ++ t) = Some (r ++ t).
Proof.
  intros H. apply strip_prefix_Some in H. subst s.
  rewrite string_app_assoc. apply strip_prefix_app.
Qed.

(** The text before the first occurrence of [sep] holds no occurrence. *)
Lemma partition_left_free (sep s a b : string) :
  sep <> EmptyString -> partition sep s = Some (a, b) -> partition sep a = None.
Proof.
  intros Hsep. revert a. induction s as [|c s IH]; intros a; cbn [partition].
  - destruct (strip_prefix sep EmptyString) eqn:Hp; [ | discriminate].
    destruct sep; [contradiction | discriminate].
  - destruct (strip_prefix sep (String c s)) eqn:Hp.
    + intros H. injection H as <- <-. destruct sep; [contradiction | reflexivity].
    + destruct (partition sep s) as [[u v]|] eqn:Hs; [ | discriminate].
      intros H. injection H as <- <-. cbn [partition].
      destruct (strip_prefix sep (String c u)) eqn:Hu.
      * exfalso. apply partition_Some in Hs. subst s.
        change (String c (u ++ sep ++ v)) with (String c u ++ sep ++ v) in Hp.
        rewrite (strip_prefix_app_r _ _ _ (sep ++ v) Hu) in Hp. discriminate.
      * rewrite (IH u eq_refl). reflexivity.
Qed.

Lemma text_before_free (sep s : string) :
  sep <> EmptyString -> contains sep (text_before sep s) = false.
Proof.
  intros Hsep. unfold contains, text_before.
  destruct (partition sep s) as [[a b]|] eqn:Hs.
  - rewrite (partition_left_free _ _ _ _ Hsep Hs). reflexivity.
  - rewrite Hs. reflexivity.
Qed.

Lemma text_before_cut (sep s : string) :
  text_before sep s = s \/ exists rest, s = text_before sep s ++ sep ++ rest.
Proof.
  unfold text_before. destruct (partition sep s) as [[a b]|] eqn:Hs.
  - right. exists b. apply partition_Some, Hs.
  - left. reflexivity.
Qed.

(** X11. A search result whose title and content are strings (or absent)
    always gives a hotel, whatever else the result holds. Its name is the
    title up to the first [" - "]: it contains no [" - "], and the title is
    the name alone or the name, [" - "] and a rest. The description is the
    content, price and rating are read from the content, an absent or false
    address becomes [None], the booking URL is the [url] entry or [None], the
    source defaults to ["Unknown"], and the fields the search cannot know are
    empty. *)
Theorem hotel_of_search_result (d : gmap string pyval) (title content : string) :
  default (PStr EmptyString) (d !! "title") = PStr title ->
  default (PStr EmptyString) (d !! "content") = PStr content ->
  exists hotel,
    parse_hotel_from_search_result (PDict d) = Ok hotel
    /\ contains " - " (h_name hotel) = false
    /\ (h_name hotel = title \/ exists rest, title = h_name hotel ++ " - " ++ rest)
    /\ h_description hotel = content
    /\ h_price_per_night hotel = extract_price content
    /\ h_rating hotel = extract_rating content
    /\ h_address hotel
       = (if truthy (default PNone (d !! "address"))
          then default PNone (d !! "address") else PNone)
    /\ h_booking_url hotel = default PNone (d !! "url")
    /\ h_source hotel = default (PStr "Unknown") (d !! "source")
    /\ h_room_type hotel = None /\ h_latitude hotel = None /\ h_longitude hotel = None
    /\ h_images hotel = [].
Proof.
  intros Htitle Hcontent.
  unfold parse_hotel_from_search_result, dict_get_default, dict_get, expect_str.
  cbv beta iota delta [mbind result_bind].
  rewrite Htitle, Hcontent. cbv beta iota.
  rewrite split_head. cbv beta iota.
  eexists. split; [reflexivity | ]. cbn [h_name h_description h_price_per_night h_rating
    h_address h_booking_url h_source h_room_type h_latitude h_longitude h_images].
  split; [apply text_before_free; discriminate | ].
  split; [apply text_before_cut | ].
  repeat split; reflexivity.
Qed.

(** ** The prompt, with a hotel and attractions *)

Lemma string_app_nil_r (s : string) : s ++ EmptyString = s.
Proof.
  induction s as [|c s IH]; [reflexivity | ].
  change (String c (s ++ EmptyString) = String c s). rewrite IH. reflexivity.
Qed.

Lemma contains_intro (sub u v : string) : contains sub (u ++ sub ++ v) = true.
Proof. apply contains_app_r, contains_prefix. Qed.

Lemma contains_app_l (sub a t : string) :
  contains sub a = true -> contains sub (a ++ t) = true.
Proof.
  unfold contains. intros H.
  destruct (partition sub a) as [[u v]|] eqn:Ha; [ | discriminate].
  apply partition_Some in Ha. subst a.
  rewrite !string_app_assoc. apply contains_intro.
Qed.

Lemma contains_prefix4 (a b c d r : string) :
  contains (a ++ b ++ c ++ d) (a ++ b ++ c ++ d ++ r) = true.
Proof.
  rewrite <- (string_app_assoc c d r), <- (string_app_assoc b (c ++ d) r),
          <- (string_app_assoc a (b ++ c ++ d) r).
  apply contains_prefix.
Qed.

(** A member of a joined list stands between two separators once the whole
    is put between separators. *)
Lemma join_member (sep x : string) (before after : list string) :
  exists u v,
    sep ++ join sep (before ++ x :: after) ++ sep = u ++ (sep ++ x ++ sep) ++ v.
Proof.
  induction before as [|y before IH].
  - exists EmptyString. destruct after as [|z after].
    + exists EmptyString. cbn [app join].
      change (EmptyString ++ (sep ++ x ++ sep) ++ EmptyString)
        with ((sep ++ x ++ sep) ++ EmptyString).
      rewrite string_app_nil_r. reflexivity.
    + exists (join sep (z :: after) ++ sep).
      change (join sep ([] ++ x :: z :: after)) with (x ++ sep ++ join sep (z :: after)).
      change (EmptyString ++ (sep ++ x ++ sep) ++ join sep (z :: after) ++ sep)
        with ((sep ++ x ++ sep) ++ join sep (z :: after) ++ sep).
      rewrite !string_app_assoc. reflexivity.
  - destruct IH as (u & v & IH).
    exists (sep ++ y ++ u), v.
    assert (Hjoin : join sep ((y :: before) ++ x :: after)
                    = y ++ sep ++ join sep (before ++ x :: after)).
    { cbn [app]. destruct before; reflexivity. }
    rewrite Hjoin, !string_app_assoc.
    rewrite !string_app_assoc in IH. rewrite IH. reflexivity.
Qed.

Lemma enumerate_app {A} (start : nat) (l1 l2 : list A) :
  enumerate start (l1 ++ l2) = (enumerate start l1 ++ enumerate (start + length l1) l2)%list.
Proof.
  revert start. induction l1 as [|x l1 IH]; intros start; cbn [app enumerate length].
  - rewrite Nat.add_0_r. reflexivity.
  - rewrite IH, Nat.add_succ_r. reflexivity.
Qed.

(** Every line of the listing of an attraction is a line of the prompt. *)
Lemma attraction_line_in_prompt (prefs : TripPreferences) (hotel : option Hotel)
    (attractions : list Attraction) (i : nat) (a : Attraction) (line : string) :
  attractions !! i = Some a ->
  In line (attraction_lines (S i) a) ->
  contains (nl ++ line ++ nl) (create_llm_prompt prefs hotel attractions) = true.
Proof.
  intros Hi Hline.
  assert (Hblock : exists before after,
             flat_map (fun ia : nat * Attraction => attraction_lines ia.1 ia.2)
               (enumerate 1 attractions)
             = (before ++ line :: after)%list).
  { apply list_elem_of_split_length in Hi as (l1 & l2 & -> & Hlen).
    rewrite enumerate_app, flat_map_app. cbn [enumerate flat_map fst snd].
    replace (1 + length l1)%nat with (S i) by (rewrite Hlen; reflexivity).
    apply in_split in Hline as (m1 & m2 & ->).
    exists (flat_map (fun ia : nat * Attraction => attraction_lines ia.1 ia.2)
              (enumerate 1 l1) ++ m1)%list,
           (m2 ++ flat_map (fun ia : nat * Attraction => attraction_lines ia.1 ia.2)
                    (enumerate (S (S i)) l2))%list.
    rewrite <- !app_assoc. reflexivity. }
  destruct Hblock as (before & after & Hblock).
  destruct (join_member nl line before after) as (u & v & Hjoin).
  unfold create_llm_prompt, format_attractions_for_prompt. rewrite Hblock.
  do 29 apply contains_app_r.
  match goal with
  | |- contains _ (nl ++ ?listing ++ nl ++ ?rest) = true =>
      rewrite <- (string_app_assoc listing nl rest),
              <- (string_app_assoc nl (listing ++ nl) rest)
  end.
  apply contains_app_l. rewrite Hjoin. apply contains_intro.
Qed.

(** X12. Every attraction handed to the prompt composer is listed in the
    prompt, numbered from 1 in the order given: the line with its number and
    name and the line with its category are lines of the prompt, and an
    attraction without a rating, or rated zero, is shown with the rating
    "Not specified". *)
Theorem prompt_lists_every_attraction (prefs : TripPreferences) (hotel : option Hotel)
    (attractions : list Attraction) (i : nat) (a : Attraction) :
  attractions !! i = Some a ->
  let prompt := create_llm_prompt prefs hotel attractions in
  contains (nl ++ (pretty (S i) ++ ". " ++ at_name a) ++ nl) prompt = true
  /\ contains (nl ++ ("   Category: " ++ at_category a) ++ nl) prompt = true
  /\ (at_rating a = None \/ at_rating a = Some 0%float ->
      contains (nl ++ "   Rating: Not specified/5.0" ++ nl) prompt = true).
Proof.
  intros Hi prompt. subst prompt.
  split; [ | split].
  - apply (attraction_line_in_prompt _ _ _ i a _ Hi). left. reflexivity.
  - apply (attraction_line_in_prompt _ _ _ i a _ Hi). right. left. reflexivity.
  - intros Hrating.
    apply (attraction_line_in_prompt _ _ _ i a _ Hi).
    do 4 right. left.
    destruct Hrating as [-> | ->]; reflexivity.
Qed.

(** X13. Whatever the hotel and the attractions, the prompt restates the
    travel style, the budget as the interpreter prints it and the interests
    joined by a comma and a space, each on a line of its own; given a hotel,
    it names the hotel and, when the address is a string, the address, on
    the two lines that otherwise carry the markers. *)
Theorem prompt_restates_preferences (prefs : TripPreferences) (hotel : option Hotel)
    (attractions : list Attraction) :
  let prompt := create_llm_prompt prefs hotel attractions in
  contains (nl ++ "Travel Style: " ++ tp_travel_style prefs ++ nl) prompt = true
  /\ contains (nl ++ "Budget: $" ++ py_str (PFloat (tp_budget prefs)) ++ nl) prompt = true
  /\ contains (nl ++ "Interests: " ++ join ", " (tp_interests prefs) ++ nl) prompt = true
  /\ (forall h, hotel = Some h ->
        contains (nl ++ "Hotel: " ++ h_name h ++ nl) prompt = true
        /\ forall address, h_address h = PStr address ->
             contains (nl ++ "Hotel Location: " ++ address ++ nl) prompt = true).
Proof.
  intros prompt. subst prompt. unfold create_llm_prompt.
  split; [ | split; [ | split]].
  - do 10 apply contains_app_r. apply contains_prefix4.
  - do 13 apply contains_app_r. apply contains_prefix4.
  - do 16 apply contains_app_r. apply contains_prefix4.
  - intros h ->. cbn [hotel_name_or_marker hotel_location_or_marker]. split.
    + do 20 apply contains_app_r. apply contains_prefix4.
    + intros address ->. do 23 apply contains_app_r. apply contains_prefix4.
Qed.

(** ** Display of a built itinerary *)

Lemma format_activity_matches (act : pyval) (a : Activity) :
  activity_matches act a -> shown_activity_matches act (format_activity a).
Proof.
  intros (H1 & H2 & H3 & H4 & H5 & H6 & H7 & H8 & H9). split.
  - intros k Hk. unfold activity_required_keys in Hk. cbn [In] in Hk.
    destruct Hk as [<- | [<- | [<- | [<- | [<- | [<- | []]]]]]].
    + rewrite H1. reflexivity.
    + rewrite H2. reflexivity.
    + rewrite H3. reflexivity.
    + rewrite H4. reflexivity.
    + rewrite H5. reflexivity.
    + rewrite H6. reflexivity.
  - intros k Hk. unfold activity_optional_keys in Hk. cbn [In] in Hk.
    destruct Hk as [<- | [<- | [<- | []]]].
    + rewrite H7. reflexivity.
    + rewrite H8. reflexivity.
    + rewrite H9. reflexivity.
Qed.

Lemma format_day_matches (day : pyval) (dp : DayPlan) :
  day_matches day dp -> shown_day_matches day (format_day dp).
Proof.
  intros (Htotal & Hdate & Hnotes & acts & Hacts & Hall).
  split; [rewrite Htotal; reflexivity | ].
  split; [rewrite Hnotes; reflexivity | ].
  split.
  - exists (dp_date dp). split; [exact Hdate | ]. split; reflexivity.
  - exists acts, (format_activity <$> dp_activities dp).
    split; [exact Hacts | ]. split; [reflexivity | ].
    apply Forall2_fmap_r.
    eapply Forall2_impl; [exact Hall | ]. apply format_activity_matches.
Qed.

(** X14. The daily plans shown for an itinerary built from a reply mirror the
    reply: one entry per day of the reply, in order, each with the day's
    total and notes as the reply has them, the date the reply's date string
    parsed to, printed again, and one entry per activity, in order, with the
    six required keys as the reply has them and the three optional ones
    [None] where the reply leaves them out. *)
Theorem display_mirrors_reply (prefs : TripPreferences) (hotel : option Hotel)
    (data : pyval) (itinerary : Itinerary) :
  itinerary_from_reply prefs hotel data = Ok itinerary ->
  exists days,
    daily_plans_of data = Ok days
    /\ Forall2 shown_day_matches days (format_daily_plans itinerary).
Proof.
  intros H.
  apply itinerary_from_reply_inv in H as (days & total & Hdays & Hbuild & _ & _).
  exists days. split; [exact Hdays | ].
  apply build_days_inv in Hbuild as (new & Hnew & Hall & _).
  unfold format_daily_plans. rewrite Hnew. cbn [app].
  apply Forall2_fmap_r.
  eapply Forall2_impl; [exact Hall | ]. apply format_day_matches.
Qed.

(** ** The two converters of a preference form *)

Lemma getitem_lookup (ui : gmap string pyval) (k : string) (v : pyval) :
  getitem (PDict ui) k = Ok v -> ui !! k = Some v.
Proof. simpl. destruct (ui !! k); [congruence | discriminate]. Qed.

Lemma parse_date_strptime (v : pyval) (d : datetime) :
  parse_date v = Ok d -> strptime_ymd v = Ok d.
Proof.
  unfold parse_date. destruct (strptime_ymd v) as [d'|e]; [exact (fun H => H) | ].
  destruct (isinstance e ValueError); discriminate.
Qed.

(** X15. A form that [parse_trip_preferences] accepts is one that
    [dict_to_trip_prefs] converts, and the two agree: the state the parser
    leaves is the state it was given, updated with the fields of the object
    the converter builds, [user_input] removed. *)
Theorem accepted_form_converts (state st' ui : gmap string pyval) :
  state !! "user_input" = Some (PDict ui) ->
  parse_trip_preferences_body state = Ok st' ->
  exists prefs,
    dict_to_trip_prefs (PDict ui) = Ok prefs
    /\ parse_trip_preferences state = delete "user_input" (prefs ∪ state).
Proof.
  intros Hstate Hbody.
  unfold parse_trip_preferences. rewrite Hbody.
  apply parse_trip_preferences_body_inv in Hbody
    as (ui' & s & e & b & f & fields & Hui & _ & Hs & He & _ & Hb & Hf & _ & Hfields & ->).
  rewrite Hstate in Hui. cbn [default] in Hui. injection Hui as <-.
  exists fields. split; [ | reflexivity].
  apply bind_Ok in Hs as (sv & Hsv & Hs). apply parse_date_strptime in Hs.
  apply bind_Ok in He as (ev & Hev & He). apply parse_date_strptime in He.
  unfold trip_prefs_asdict in Hfields.
  apply bind_Ok in Hfields as (x1 & H1 & Hfields).
  apply bind_Ok in Hfields as (x2 & H2 & Hfields).
  apply bind_Ok in Hfields as (x3 & H3 & Hfields).
  apply bind_Ok in Hfields as (x4 & H4 & Hfields).
  apply bind_Ok in Hfields as (x5 & H5 & Hfields).
  apply bind_Ok in Hfields as (x6 & H6 & Hfields).
  apply bind_Ok in Hfields as (x7 & H7 & Hfields).
  injection Hfields as <-.
  unfold dict_to_trip_prefs.
  step H1. step Hsv. step Hs. step Hev. step He.
  assert (Hb' : getitem (PDict ui) "budget" = Ok b) by (simpl; rewrite Hb; reflexivity).
  step Hb'. step Hf. step H2.
  apply getitem_lookup in H3, H4, H5.
  unfold dict_get_default. rewrite H3, H4, H5. cbn [default].
  cbv beta iota delta [mbind result_bind].
  step H6. step H7. reflexivity.
Qed.

(** ** The fallback of the natural-language parser *)

Lemma upto_last_close_none (s : string) :
  char_in "}" s = false -> upto_last_close s = None.
Proof.
  induction s as [|c s IH]; [reflexivity | ].
  cbn [char_in upto_last_close]. intros H.
  apply orb_false_iff in H as [Hc Hs]. rewrite (IH Hs).
  rewrite Ascii.eqb_sym, Hc. reflexivity.
Qed.

Lemma upto_last_close_app (body post : string) :
  char_in "}" post = false ->
  upto_last_close (body ++ "}" ++ post) = Some (body ++ "}").
Proof.
  intros Hpost. induction body as [|c body IH].
  - change (EmptyString ++ "}" ++ post) with (String "}" post).
    cbn [upto_last_close]. rewrite (upto_last_close_none _ Hpost). reflexivity.
  - change (String c body ++ "}" ++ post) with (String c (body ++ "}" ++ post)).
    cbn [upto_last_close]. rewrite IH. reflexivity.
Qed.

Lemma brace_span_app (pre rest : string) :
  char_in "{" pre = false ->
  brace_span (pre ++ "{" ++ rest)
  = match upto_last_close rest with
    | Some p => Some ("{" ++ p)
    | None => None
    end.
Proof.
  intros Hpre. induction pre as [|c pre IH].
  - reflexivity.
  - cbn [char_in] in Hpre. apply orb_false_iff in Hpre as [Hc Hpre].
    change (String c pre ++ "{" ++ rest) with (String c (pre ++ "{" ++ rest)).
    cbn [brace_span]. rewrite Ascii.eqb_sym, Hc. apply IH, Hpre.
Qed.

Lemma brace_span_no_open (s : string) : char_in "{" s = false -> brace_span s = None.
Proof.
  induction s as [|c s IH]; [reflexivity | ].
  cbn [char_in brace_span]. intros H. apply orb_false_iff in H as [Hc Hs].
  rewrite Ascii.eqb_sym, Hc. apply IH, Hs.
Qed.

Lemma brace_span_no_close (s : string) : char_in "}" s = false -> brace_span s = None.
Proof.
  induction s as [|c s IH]; [reflexivity | ].
  cbn [char_in brace_span]. intros H. apply orb_false_iff in H as [Hc Hs].
  destruct (Ascii.eqb c "{"); [ | apply IH, Hs].
  rewrite (upto_last_close_none _ Hs). reflexivity.
Qed.

(** X16. When the model's answer as a whole is not JSON, the parser of
    free-text requests falls back on the text from the first opening brace
    to the last closing brace. For an answer made of prose without an
    opening brace, an object text, and prose without a closing brace, the
    result is what decoding the object text alone gives, failure included.
    An answer without an opening brace, or without a closing one, is
    rejected with the parser's own message. *)
Theorem object_in_prose_recovered (user_text content : string) (e : exn) :
  llm_chat nl_system_prompt ("User input: " ++ user_text) = Ok content ->
  json_loads content = Err e ->
  isinstance e JSONDecodeError = true ->
  (forall pre body post,
      content = pre ++ "{" ++ body ++ "}" ++ post ->
      char_in "{" pre = false ->
      char_in "}" post = false ->
      parse_natural_language_input user_text = json_loads ("{" ++ body ++ "}"))
  /\ (char_in "{" content = false \/ char_in "}" content = false ->
      parse_natural_language_input user_text
      = Err (Exn ValueError "Could not parse LLM response as JSON")).
Proof.
  intros Hchat Hloads Hclass.
  unfold parse_natural_language_input. step Hchat. rewrite Hloads, Hclass.
  split.
  - intros pre body post -> Hpre Hpost.
    rewrite (brace_span_app _ _ Hpre), (upto_last_close_app _ _ Hpost). reflexivity.
  - intros [Hopen | Hclose].
    + rewrite (brace_span_no_open _ Hopen). reflexivity.
    + rewrite (brace_span_no_close _ Hclose). reflexivity.
Qed.

End Pipeline.

(** * The pipeline on sample inputs

    The theorems above, applied with the reference implementations of the
    library calls. *)

(** ** The reference decoder skips surrounding whitespace *)

Lemma rstrip_ws_newline (t : string) : rstrip_ws (t ++ nl) = rstrip_ws t.
Proof.
  induction t as [|c t IH]; [reflexivity | ].
  change (String c t ++ nl) with (String c (t ++ nl)).
  cbn [rstrip_ws]. rewrite IH. reflexivity.
Qed.

Lemma strip_ws_newline (t : string) :
  rstrip_ws (lstrip_ws (t ++ nl)) = rstrip_ws (lstrip_ws t).
Proof.
  induction t as [|c t IH]; [reflexivity | ].
  change (String c t ++ nl) with (String c (t ++ nl)).
  cbn [lstrip_ws]. destruct (is_json_ws c); [exact IH | ].
  change (String c (t ++ nl)) with (String c t ++ nl). apply rstrip_ws_newline.
Qed.

Lemma json_loads_ref_newlines (t : string) :
  json_loads_ref (nl ++ t ++ nl) = json_loads_ref t.
Proof.
  unfold json_loads_ref.
  change (lstrip_ws (nl ++ t ++ nl)) with (lstrip_ws (t ++ nl)).
  rewrite strip_ws_newline. reflexivity.
Qed.

(** ** Itinerary construction *)

(** C1 on two replies. Days that sum to 500.00 under a grand total of 510.02:
    construction stops with the mismatch error. Days that sum to 200.00 under
    a grand total that is not a number: the totals do not agree within the
    tolerance, and the itinerary is built all the same. *)
Lemma total_cost_check_witness :
  itinerary_from_reply strptime_ref paris_prefs None (decoded mismatch_reply_text)
  = Err (Exn ValueError "Total cost mismatch in itinerary")
  /\ (exists it,
        itinerary_from_reply strptime_ref paris_prefs None reply_with_nan_total = Ok it
        /\ it_total_cost it = 200%float
        /\ it_total_cost it = sum_day_totals (day_entries paris_reply_text)
        /\ within_tolerance (it_total_cost it) nan = false).
Proof.
  split.
  - destruct (build_days strptime_ref (day_entries mismatch_reply_text) [] 0%float)
      as [[dps total]|e] eqn:Hbuild.
    + destruct (total_cost_check_decides strptime_ref paris_prefs None
                  (decoded mismatch_reply_text) (PFloat 510.02)
                  (day_entries mismatch_reply_text) dps total 510.02%float)
        as (_ & _ & Hiff & _).
      * vm_compute. reflexivity.
      * exact Hbuild.
      * vm_compute. reflexivity.
      * reflexivity.
      * apply Hiff. vm_compute in Hbuild. injection Hbuild as _ <-.
        vm_compute. reflexivity.
    + vm_compute in Hbuild. discriminate.
  - destruct (build_days strptime_ref (day_entries paris_reply_text) [] 0%float)
      as [[dps total]|e] eqn:Hbuild.
    + destruct (total_cost_check_decides strptime_ref paris_prefs None
                  reply_with_nan_total (PFloat nan)
                  (day_entries paris_reply_text) dps total nan)
        as (_ & Hsum & _ & _ & _ & _ & Hnan).
      * vm_compute. reflexivity.
      * exact Hbuild.
      * vm_compute. reflexivity.
      * reflexivity.
      * assert (Htotal : total = 200%float).
        { vm_compute in Hbuild. injection Hbuild as _ <-. reflexivity. }
        destruct Hnan as [Hwithin Hreply].
        { rewrite Htotal. vm_compute. reflexivity. }
        rewrite Hreply. subst total.
        eexists. split; [vm_compute; reflexivity | ].
        split; [reflexivity | ]. split; [ | exact Hwithin].
        apply Hsum. vm_compute. reflexivity.
    + vm_compute in Hbuild. discriminate.
Defined.

(** C2 on the end-to-end scenario: two days of 100.00 each under a grand
    total of 200.00 give an itinerary of two days that totals 200.00. *)
Lemma valid_reply_round_trip_witness :
  exists it,
    build_itinerary json_loads_ref strptime_ref py_str_ref (answers paris_reply_text)
      paris_prefs None [] = Ok it
    /\ it_total_cost it = 200%float
    /\ it_summary it = PStr "Two days in Paris"
    /\ it_destination it = "Paris"
    /\ length (it_daily_plans it) = 2%nat.
Proof.
  destruct (valid_reply_round_trip json_loads_ref strptime_ref py_str_ref
              (answers paris_reply_text) paris_prefs None [] paris_reply_text
              (members (decoded paris_reply_text)) (day_entries paris_reply_text)
              (PStr "Two days in Paris"))
    as (it & Hbuild & Htotal & Hsummary & Hdest & _ & _ & _ & _ & _ & Hlen & _).
  - reflexivity.
  - discriminate.
  - vm_compute. reflexivity.
  - vm_compute. reflexivity.
  - vm_compute. reflexivity.
  - vm_compute. reflexivity.
  - exists it. split; [exact Hbuild | ]. split.
    { rewrite Htotal. vm_compute. reflexivity. }
    split; [exact Hsummary | ]. split; [exact Hdest | ].
    rewrite Hlen. vm_compute. reflexivity.
Defined.

(** C3 on the end-to-end reply, which contains no fence: wrapped in a block
    tagged [json] it is parsed like the bare text. *)
Lemma fenced_reply_witness :
  parse_llm_response json_loads_ref (fenced paris_reply_text)
  = parse_llm_response json_loads_ref paris_reply_text.
Proof.
  destruct (proj2 (fenced_reply_parsed_like_bare json_loads_ref) paris_reply_text)
    as (_ & _ & Hsame & _).
  - vm_compute. reflexivity.
  - apply Hsame, json_loads_ref_newlines.
Defined.

(** C3 as the specification states it fails on a payload that contains
    fences: the string literal [backtick_payload] is valid JSON, the bare
    reply is parsed to the number 1 and the fenced reply is not parsed at
    all. *)
Lemma fenced_reply_counterexample :
  is_ok (json_loads_ref backtick_payload) = true
  /\ parse_llm_response json_loads_ref backtick_payload = Ok (PInt 1)
  /\ is_ok (parse_llm_response json_loads_ref (fenced backtick_payload)) = false
  /\ parse_llm_response json_loads_ref (fenced backtick_payload)
     <> parse_llm_response json_loads_ref backtick_payload.
Proof.
  repeat split; try (vm_compute; reflexivity).
  vm_compute. discriminate.
Qed.

(** C4 with the reference [strptime]: the misreported day is accepted as
    reported. *)
Lemma day_total_verbatim_witness :
  exists it dp,
    itinerary_from_reply strptime_ref paris_prefs None misreported_reply = Ok it
    /\ it_daily_plans it = [dp]
    /\ dp_total_cost dp = PFloat 100%float
    /\ activity_cost_sum dp = 50%float.
Proof.
  refine (proj2 (day_total_taken_verbatim strptime_ref paris_prefs None _ _)).
  vm_compute. reflexivity.
Defined.

(** C5 on five answers: prose instead of JSON, an empty list of days, a date
    in words, an activity without [category]; and an activity with the
    required keys only. *)
Lemma reconciler_rejections_witness :
  is_ok (build_itinerary json_loads_ref strptime_ref py_str_ref
           (answers "Sorry, I cannot plan this trip.") paris_prefs None []) = false
  /\ is_ok (build_itinerary json_loads_ref strptime_ref py_str_ref
              (answers empty_plans_reply_text) paris_prefs None []) = false
  /\ is_ok (build_itinerary json_loads_ref strptime_ref py_str_ref
              (answers bad_date_reply_text) paris_prefs None []) = false
  /\ is_ok (build_itinerary json_loads_ref strptime_ref py_str_ref
              (answers missing_category_reply_text) paris_prefs None []) = false
  /\ exists activity,
       make_activity (PDict (members (decoded activity_required_only))) = Ok activity
       /\ act_cost activity = PNone
       /\ act_booking_url activity = PNone
       /\ act_notes activity = PNone.
Proof.
  split; [ | split; [ | split; [ | split]]].
  - apply (proj1 (reconciler_rejections json_loads_ref strptime_ref py_str_ref
                    (answers "Sorry, I cannot plan this trip.") paris_prefs None []
                    "Sorry, I cannot plan this trip." eq_refl)
             "Sorry, I cannot plan this trip." (decode_error "Expecting value")).
    + vm_compute. reflexivity.
    + vm_compute. reflexivity.
  - apply (proj1 (proj2 (reconciler_rejections json_loads_ref strptime_ref py_str_ref
                           (answers empty_plans_reply_text) paris_prefs None []
                           empty_plans_reply_text eq_refl))
             (members (decoded empty_plans_reply_text))).
    + vm_compute. reflexivity.
    + right. vm_compute. reflexivity.
  - apply (proj1 (proj2 (proj2 (reconciler_rejections json_loads_ref strptime_ref
                                  py_str_ref (answers bad_date_reply_text) paris_prefs
                                  None [] bad_date_reply_text eq_refl)))
             (members (decoded bad_date_reply_text)) (day_entries bad_date_reply_text)
             (first_day bad_date_reply_text) "June 1st").
    + vm_compute. reflexivity.
    + vm_compute. reflexivity.
    + vm_compute. left. reflexivity.
    + vm_compute. reflexivity.
    + vm_compute. reflexivity.
  - apply (proj1 (proj2 (proj2 (proj2
                   (reconciler_rejections json_loads_ref strptime_ref py_str_ref
                      (answers missing_category_reply_text) paris_prefs None []
                      missing_category_reply_text eq_refl))))
             (members (decoded missing_category_reply_text))
             (day_entries missing_category_reply_text)
             (first_day missing_category_reply_text)
             [first_activity missing_category_reply_text]
             (members (first_activity missing_category_reply_text))
             "category").
    + vm_compute. reflexivity.
    + vm_compute. reflexivity.
    + vm_compute. left. reflexivity.
    + vm_compute. reflexivity.
    + vm_compute. left. reflexivity.
    + vm_compute. do 5 right. left. reflexivity.
    + vm_compute. reflexivity.
  - apply (proj2 (proj2 (proj2 (proj2
                   (reconciler_rejections json_loads_ref strptime_ref py_str_ref
                      (answers EmptyString) paris_prefs None [] EmptyString eq_refl))))).
    + vm_compute. reflexivity.
    + repeat constructor; vm_compute; reflexivity.
Defined.

(** C10 on the end-to-end scenario: the itinerary has days, and its average
    daily cost is 200.00 / 2. *)
Lemma built_itinerary_has_days_witness :
  exists it,
    build_itinerary json_loads_ref strptime_ref py_str_ref (answers paris_reply_text)
      paris_prefs None [] = Ok it
    /\ it_daily_plans it <> []
    /\ average_daily_cost it = Ok 100%float.
Proof.
  destruct (build_itinerary json_loads_ref strptime_ref py_str_ref
              (answers paris_reply_text) paris_prefs None []) as [it|e] eqn:Hbuild.
  - exists it. split; [reflexivity | ].
    destruct (built_itinerary_has_days json_loads_ref strptime_ref py_str_ref
                (answers paris_reply_text) paris_prefs None [] it Hbuild)
      as (Hdays & _ & _).
    split; [exact Hdays | ].
    vm_compute in Hbuild. injection Hbuild as <-. vm_compute. reflexivity.
  - vm_compute in Hbuild. discriminate.
Defined.

(** ** Preference validation *)

(** C8 on three forms: a budget of zero, equal dates, no destination. *)
Lemma preferences_rejected_witness :
  parse_trip_preferences strptime_ref float_of_str_ref
    (state_of (form "2024-06-01" "2024-06-07" (PInt 0)))
  = <["error" := PStr "Invalid budget value"]>
      (state_of (form "2024-06-01" "2024-06-07" (PInt 0)))
  /\ parse_trip_preferences strptime_ref float_of_str_ref
       (state_of (form "2024-06-01" "2024-06-01" (PInt 2000)))
     = <["error" := PStr "End date must be after start date"]>
         (state_of (form "2024-06-01" "2024-06-01" (PInt 2000)))
  /\ exists k,
       parse_trip_preferences strptime_ref float_of_str_ref
         (state_of (delete "destination" (form "2024-06-01" "2024-06-07" (PInt 2000))))
       = <["error" := PStr ("Missing required field: " ++ k)]>
           (state_of (delete "destination" (form "2024-06-01" "2024-06-07" (PInt 2000)))).
Proof.
  split; [ | split].
  - apply (proj2 (proj1 (preferences_rejected strptime_ref float_of_str_ref
                           (state_of (form "2024-06-01" "2024-06-07" (PInt 0)))
                           (form "2024-06-01" "2024-06-07" (PInt 0)) eq_refl)
                    (PInt 0) 0%float eq_refl eq_refl eq_refl)
             (mk_datetime 2024 6 1) (mk_datetime 2024 6 7)).
    + vm_compute. reflexivity.
    + vm_compute. reflexivity.
    + vm_compute. reflexivity.
    + vm_compute. reflexivity.
  - apply (proj1 (proj2 (preferences_rejected strptime_ref float_of_str_ref
                           (state_of (form "2024-06-01" "2024-06-01" (PInt 2000)))
                           (form "2024-06-01" "2024-06-01" (PInt 2000)) eq_refl))
             (mk_datetime 2024 6 1) (mk_datetime 2024 6 1)).
    + vm_compute. reflexivity.
    + vm_compute. reflexivity.
    + vm_compute. reflexivity.
    + vm_compute. reflexivity.
  - destruct (proj2 (proj2 (preferences_rejected strptime_ref float_of_str_ref
                (state_of (delete "destination" (form "2024-06-01" "2024-06-07" (PInt 2000))))
                (delete "destination" (form "2024-06-01" "2024-06-07" (PInt 2000)))
                eq_refl))
                "destination") as (k & _ & _ & Hk).
    + left. reflexivity.
    + vm_compute. reflexivity.
    + exists k. exact Hk.
Defined.

(** ** The hotel list *)

(** C9 on three results rated 4.2, unrated and 4.8: the list comes back in the
    order 4.8, 4.2, unrated. *)
Lemma hotels_sorted_witness :
  exists hotels,
    search_hotels float_of_str_ref str_lower_ref re_search_ref
      (fun d _ => isoformat d) format_0f_ref (responds sample_results) paris_prefs 5
    = Ok hotels
    /\ h_rating <$> hotels = [Some 4.8%float; Some 4.2%float; None]
    /\ Sorted rating_ge hotels.
Proof.
  destruct (search_hotels float_of_str_ref str_lower_ref re_search_ref
              (fun d _ => isoformat d) format_0f_ref (responds sample_results)
              paris_prefs 5) as [hotels|e] eqn:Hsearch.
  - exists hotels. split; [reflexivity | ].
    destruct (proj1 (hotels_sorted_or_error float_of_str_ref str_lower_ref re_search_ref
                       (fun d _ => isoformat d) format_0f_ref (responds sample_results)
                       paris_prefs 5) hotels Hsearch)
      as (_ & _ & _ & Hsorted).
    vm_compute in Hsearch. injection Hsearch as <-.
    split; [vm_compute; reflexivity | ].
    apply Hsorted. repeat constructor.
  - vm_compute in Hsearch. discriminate.
Defined.

(** * Further properties on sample inputs *)

(** A submission without a destination. *)
Definition nowhere_prefs : TripPreferences :=
  {| tp_destination := EmptyString;
     tp_start_date := mk_datetime 2024 6 1;
     tp_end_date := mk_datetime 2024 6 7;
     tp_budget := 2000;
     tp_travel_style := "moderate";
     tp_interests := ["culture"; "food"];
     tp_accommodation_preference := "hotel";
     tp_transportation_preference := "mixed";
     tp_dietary_restrictions := None;
     tp_special_requirements := None |}.

(** Two attractions, the second one unrated. *)
Definition louvre : Attraction :=
  {| at_name := "Louvre"; at_category := "museum"; at_rating := Some 4.7%float;
     at_price_level := Some "$$"; at_visit_duration := Some "3 hours" |}.

Definition orsay : Attraction :=
  {| at_name := "Orsay"; at_category := "art"; at_rating := None;
     at_price_level := None; at_visit_duration := None |}.

(** The end-to-end reply without its summary. *)
Definition reply_without_summary : gmap string pyval :=
  delete "summary" (members (decoded paris_reply_text)).

(** A search result with a title in two parts and an empty address. *)
Definition lutetia_result : gmap string pyval :=
  list_to_map [ ("title", PStr "Hotel Lutetia - Booking");
                ("content", PStr "Rated 4.2/5, free wifi, from $180.00");
                ("address", PStr EmptyString) ].

(** An answer with an object between two pieces of prose. *)
Definition object_body : string := quoted "destination" ++ ": " ++ quoted "Paris".

Definition chatty_answer : string :=
  "Sure! " ++ "{" ++ object_body ++ "}" ++ " Have a nice trip.".

(** ** Preference validation *)

(** X1 on the form of the end-to-end scenario. *)
Lemma accepted_preferences_witness :
  exists s e f,
    parse_trip_preferences strptime_ref float_of_str_ref
      (state_of (form "2024-06-01" "2024-06-07" (PInt 2000))) !! "start_date"
    = Some (PDatetime s)
    /\ parse_trip_preferences strptime_ref float_of_str_ref
         (state_of (form "2024-06-01" "2024-06-07" (PInt 2000))) !! "end_date"
       = Some (PDatetime e)
    /\ parse_trip_preferences strptime_ref float_of_str_ref
         (state_of (form "2024-06-01" "2024-06-07" (PInt 2000))) !! "budget"
       = Some (PFloat f)
    /\ datetime_lt s e = true
    /\ PrimFloat.ltb 0 f = true.
Proof.
  destruct (accepted_preferences_invariant strptime_ref float_of_str_ref
              (state_of (form "2024-06-01" "2024-06-07" (PInt 2000))))
    as (ui & s & e & f & _ & _ & Hs & He & Hf & Hlt & Hpos & _).
  - vm_compute. reflexivity.
  - exists s, e, f. repeat split; assumption.
Defined.

(** X2 on the same form. *)
Lemma well_formed_preferences_witness :
  parse_trip_preferences strptime_ref float_of_str_ref
    (state_of (form "2024-06-01" "2024-06-07" (PInt 2000))) !! "budget"
  = Some (PFloat 2000)
  /\ parse_trip_preferences strptime_ref float_of_str_ref
       (state_of (form "2024-06-01" "2024-06-07" (PInt 2000))) !! "user_input"
     = None.
Proof.
  destruct (well_formed_preferences_accepted strptime_ref float_of_str_ref
              (state_of (form "2024-06-01" "2024-06-07" (PInt 2000)))
              (form "2024-06-01" "2024-06-07" (PInt 2000))
              (mk_datetime 2024 6 1) (mk_datetime 2024 6 7) (PInt 2000) 2000%float)
    as (_ & Hinput & _ & _ & Hbudget & _).
  - reflexivity.
  - vm_compute. reflexivity.
  - vm_compute. reflexivity.
  - vm_compute. reflexivity.
  - vm_compute. reflexivity.
  - vm_compute. reflexivity.
  - vm_compute. reflexivity.
  - vm_compute. reflexivity.
  - split; [exact Hbudget | exact Hinput].
Defined.

(** X3 on the same form: the second call reports the destination missing. *)
Lemma parse_twice_witness :
  parse_trip_preferences strptime_ref float_of_str_ref
    (parse_trip_preferences strptime_ref float_of_str_ref
       (state_of (form "2024-06-01" "2024-06-07" (PInt 2000)))) !! "error"
  = Some (PStr "Missing required field: destination").
Proof.
  destruct (parse_twice_reports_missing strptime_ref float_of_str_ref
              (state_of (form "2024-06-01" "2024-06-07" (PInt 2000)))
              (parse_trip_preferences strptime_ref float_of_str_ref
                 (state_of (form "2024-06-01" "2024-06-07" (PInt 2000)))))
    as [_ Hsecond].
  - vm_compute. reflexivity.
  - rewrite Hsecond. apply lookup_insert_eq.
Defined.

(** X4 on a budget in words. *)
Lemma parse_budget_errors_witness :
  parse_budget float_of_str_ref (PDict (form "2024-06-01" "2024-06-07" (PStr "a lot")))
  = Err (Exn ValueError "Invalid budget value")
  /\ (Exn ValueError "Invalid budget value" = Exn ValueError "Invalid budget value"
      \/ Exn ValueError "Invalid budget value" = key_error "budget"
      \/ Exn ValueError "Invalid budget value"
         = Exn OverflowError "int too large to convert to float").
Proof.
  assert (H : parse_budget float_of_str_ref
                (PDict (form "2024-06-01" "2024-06-07" (PStr "a lot")))
              = Err (Exn ValueError "Invalid budget value"))
    by (vm_compute; reflexivity).
  split; [exact H | ].
  exact (parse_budget_errors float_of_str_ref
           (PDict (form "2024-06-01" "2024-06-07" (PStr "a lot")))
           (Exn ValueError "Invalid budget value") H).
Defined.

(** ** Itinerary construction *)

(** X6 on the end-to-end reply with its summary removed: the days are built
    and the total is checked before the missing key is noticed. *)
Lemma summary_checked_last_witness :
  itinerary_from_reply strptime_ref paris_prefs None (PDict reply_without_summary)
  = Err (key_error "summary").
Proof.
  destruct (build_days strptime_ref (day_entries paris_reply_text) [] 0%float)
    as [[dps total]|e] eqn:Hbuild.
  - destruct (summary_checked_last strptime_ref paris_prefs None reply_without_summary
                (PFloat 200) (day_entries paris_reply_text) dps total 200%float)
      as [Hreply _].
    + vm_compute. reflexivity.
    + exact Hbuild.
    + vm_compute. reflexivity.
    + reflexivity.
    + vm_compute. reflexivity.
    + rewrite Hreply. vm_compute in Hbuild. injection Hbuild as _ <-.
      vm_compute. reflexivity.
  - vm_compute in Hbuild. discriminate.
Defined.

(** X7 on the end-to-end reply with a grand total that is not a number: the
    check lets it through and the itinerary totals the 200.00 of its days. *)
Lemma nan_total_witness :
  exists it,
    itinerary_from_reply strptime_ref paris_prefs None reply_with_nan_total = Ok it
    /\ it_total_cost it = 200%float.
Proof.
  destruct (build_days strptime_ref (day_entries paris_reply_text) [] 0%float)
    as [[dps total]|e] eqn:Hbuild.
  - destruct (nan_total_passes_check strptime_ref paris_prefs None reply_with_nan_total
                (PFloat nan) (day_entries paris_reply_text) dps total nan)
      as [_ Hreply].
    + vm_compute. reflexivity.
    + exact Hbuild.
    + vm_compute. reflexivity.
    + reflexivity.
    + left. reflexivity.
    + rewrite Hreply. vm_compute in Hbuild. injection Hbuild as <- <-.
      eexists. split; [vm_compute; reflexivity | reflexivity].
  - vm_compute in Hbuild. discriminate.
Defined.

(** ** Extraction *)

(** X8 on the end-to-end reply in a tagged block between two sentences. *)
Lemma json_block_in_prose_witness :
  json_str_of ("Here is your plan:" ++ nl ++ fence_json ++ nl ++ paris_reply_text ++ nl
                 ++ fence ++ nl ++ "Enjoy your trip!")
  = Ok (nl ++ paris_reply_text ++ nl).
Proof.
  refine (proj1 (json_block_in_prose json_loads_ref "Here is your plan:" paris_reply_text
                   "Enjoy your trip!" _ _)).
  - vm_compute. reflexivity.
  - vm_compute. reflexivity.
Defined.

(** X9 on the same reply in an untagged block. *)
Lemma plain_block_in_prose_witness :
  json_str_of ("Here is your plan:" ++ nl ++ fence ++ nl ++ paris_reply_text ++ nl
                 ++ fence ++ nl ++ "Enjoy your trip!")
  = Ok (nl ++ paris_reply_text ++ nl).
Proof.
  refine (plain_block_in_prose "Here is your plan:" paris_reply_text
            "Enjoy your trip!" _ _ _).
  - vm_compute. reflexivity.
  - vm_compute. reflexivity.
  - vm_compute. reflexivity.
Defined.

(** ** Hotel search *)

(** X10 on a search without a destination and on an empty result set. *)
Lemma search_failures_witness :
  search_hotels float_of_str_ref str_lower_ref re_search_ref
    (fun d _ => isoformat d) format_0f_ref (responds sample_results) nowhere_prefs 5
  = Err (Exn HotelSearchError "Failed to parse hotel data: Destination is required")
  /\ search_hotels float_of_str_ref str_lower_ref re_search_ref
       (fun d _ => isoformat d) format_0f_ref (responds []) paris_prefs 5
     = Err (Exn HotelSearchError
              "Unexpected error: No hotels found matching your criteria").
Proof.
  split.
  - apply (proj1 (search_failures_reported float_of_str_ref str_lower_ref re_search_ref
                    (fun d _ => isoformat d) format_0f_ref (responds sample_results)
                    nowhere_prefs 5)).
    reflexivity.
  - apply (proj2 (search_failures_reported float_of_str_ref str_lower_ref re_search_ref
                    (fun d _ => isoformat d) format_0f_ref (responds [])
                    paris_prefs 5)
             {| raise_for_status := Ok tt;
                response_json := Ok (PDict {[ "results" := PList [] ]}) |}
             {[ "results" := PList [] ]}).
    + discriminate.
    + reflexivity.
    + reflexivity.
    + reflexivity.
    + vm_compute. reflexivity.
Defined.

(** X11 on a result titled "Hotel Lutetia - Booking" with an empty address. *)
Lemma hotel_of_search_result_witness :
  exists hotel,
    parse_hotel_from_search_result float_of_str_ref str_lower_ref re_search_ref
      (PDict lutetia_result) = Ok hotel
    /\ h_name hotel = "Hotel Lutetia"
    /\ h_address hotel = PNone
    /\ h_rating hotel = Some 4.2%float.
Proof.
  destruct (hotel_of_search_result float_of_str_ref str_lower_ref re_search_ref
              lutetia_result "Hotel Lutetia - Booking"
              "Rated 4.2/5, free wifi, from $180.00")
    as (hotel & Hparse & _).
  - vm_compute. reflexivity.
  - vm_compute. reflexivity.
  - exists hotel. split; [exact Hparse | ].
    vm_compute in Hparse. injection Hparse as <-.
    repeat split; vm_compute; reflexivity.
Defined.

(** ** The prompt *)

(** X12 on two attractions: the second is listed as number 2, unrated. *)
Lemma prompt_lists_witness :
  contains (nl ++ "2. Orsay" ++ nl)
    (create_llm_prompt py_str_ref paris_prefs None [louvre; orsay]) = true
  /\ contains (nl ++ "   Rating: Not specified/5.0" ++ nl)
       (create_llm_prompt py_str_ref paris_prefs None [louvre; orsay]) = true.
Proof.
  destruct (prompt_lists_every_attraction py_str_ref paris_prefs None [louvre; orsay]
              1%nat orsay eq_refl) as (Hname & _ & Hrating).
  split; [exact Hname | ].
  apply Hrating. left. reflexivity.
Defined.

(** ** Display *)

(** X14 on the end-to-end reply. *)
Lemma display_mirrors_witness :
  exists it days,
    itinerary_from_reply strptime_ref paris_prefs None (decoded paris_reply_text) = Ok it
    /\ daily_plans_of (decoded paris_reply_text) = Ok days
    /\ length days = 2%nat
    /\ Forall2 (shown_day_matches strptime_ref (fun d _ => isoformat d)) days
         (format_daily_plans (fun d _ => isoformat d) it).
Proof.
  destruct (itinerary_from_reply strptime_ref paris_prefs None (decoded paris_reply_text))
    as [it|e] eqn:Hreply.
  - destruct (display_mirrors_reply strptime_ref (fun d _ => isoformat d) paris_prefs None
                (decoded paris_reply_text) it Hreply) as (days & Hdays & Hshown).
    exists it, days. split; [reflexivity | ]. split; [exact Hdays | ].
    split; [ | exact Hshown].
    vm_compute in Hdays. injection Hdays as <-. reflexivity.
  - vm_compute in Hreply. discriminate.
Defined.

(** ** The two converters *)

(** X15 on the form of the end-to-end scenario. *)
Lemma accepted_form_converts_witness :
  exists prefs,
    dict_to_trip_prefs strptime_ref float_of_str_ref
      (PDict (form "2024-06-01" "2024-06-07" (PInt 2000))) = Ok prefs
    /\ parse_trip_preferences strptime_ref float_of_str_ref
         (state_of (form "2024-06-01" "2024-06-07" (PInt 2000)))
       = delete "user_input"
           (prefs ∪ state_of (form "2024-06-01" "2024-06-07" (PInt 2000))).
Proof.
  refine (accepted_form_converts strptime_ref float_of_str_ref
            (state_of (form "2024-06-01" "2024-06-07" (PInt 2000)))
            (parse_trip_preferences strptime_ref float_of_str_ref
               (state_of (form "2024-06-01" "2024-06-07" (PInt 2000))))
            (form "2024-06-01" "2024-06-07" (PInt 2000)) _ _).
  - reflexivity.
  - vm_compute. reflexivity.
Defined.

(** ** The natural-language parser *)

(** X16 on an answer with an object between two sentences: the object is
    decoded. *)
Lemma object_in_prose_witness :
  parse_natural_language_input json_loads_ref (fun _ _ => Ok chatty_answer)
    "A week in Paris, please"
  = Ok (PDict {[ "destination" := PStr "Paris" ]}).
Proof.
  destruct (json_loads_ref chatty_answer) as [v|e] eqn:Hloads.
  - vm_compute in Hloads. discriminate.
  - destruct (object_in_prose_recovered json_loads_ref (fun _ _ => Ok chatty_answer)
                "A week in Paris, please" chatty_answer e eq_refl Hloads)
      as [Hobject _].
    + vm_compute in Hloads. injection Hloads as <-. reflexivity.
    + rewrite (Hobject "Sure! " object_body " Have a nice trip.").
      * vm_compute. reflexivity.
      * reflexivity.
      * vm_compute. reflexivity.
      * vm_compute. reflexivity.
Defined.
